(** * edk2-pytool-extensions: submodule setup and NuGet download

    A shallow embedding of

      - [edk2toolext/invocables/edk2_setup.py]: [Edk2PlatformSetup.Go] (the
        standard sync/fetch of the required submodules) and
        [Edk2PlatformSetup.SpecialSetup] (the recursive walk that rewrites
        submodule urls and initialises the submodules one by one);
      - [edk2toolext/bin/nuget.py]: [DownloadNuget].

    The code talks to the outside world (git through [RunCmd], the file
    system, the network).  The outside world is a state [W] with an interface
    record; a computation takes a world and returns an outcome, the next world
    and the list of the events it produced, in order. *)

From Stdlib Require Import String Ascii List ZArith Lia Bool Permutation.
From stdpp Require Import base gmap strings.
Import ListNotations.

Local Open Scope string_scope.
Local Open Scope Z_scope.

(** ** Python strings

    A Python [str] is a sequence of code points; the model takes the code
    points below 256, which Rocq's [ascii] holds. *)

Module PyStr.

(** The characters [str.lower] changes, below 256: [A]-[Z], and the capital
    letters of the Latin-1 block, 0xC0-0xDE without 0xD7 (the times sign). *)
Definition isupper_char (c : ascii) : bool :=
  let n := N_of_ascii c in
  ((65 <=? n) && (n <=? 90) ||
   (192 <=? n) && (n <=? 222) && negb (n =? 215))%N.

Definition lower_char (c : ascii) : ascii :=
  if isupper_char c then ascii_of_N (N_of_ascii c + 32) else c.

(** [s.lower()] *)
Fixpoint lower (s : string) : string :=
  match s with
  | EmptyString => EmptyString
  | String c s' => String (lower_char c) (lower s')
  end.

(** The code points [str.isspace] accepts, below 256. *)
Definition isspace_char (c : ascii) : bool :=
  let n := N_of_ascii c in
  ((9 <=? n) && (n <=? 13) || (28 <=? n) && (n <=? 32) ||
   (n =? 133) || (n =? 160))%N.

Fixpoint lstrip (s : string) : string :=
  match s with
  | EmptyString => EmptyString
  | String c s' => if isspace_char c then lstrip s' else s
  end.

Fixpoint rstrip (s : string) : string :=
  match s with
  | EmptyString => EmptyString
  | String c s' =>
      match rstrip s' with
      | EmptyString => if isspace_char c then EmptyString else String c EmptyString
      | r => String c r
      end
  end.

(** [s.strip()] *)
Definition strip (s : string) : string := rstrip (lstrip s).

(** [s.split(sep)] for a separator of one character: every occurrence
    splits, empty pieces are kept. *)
Fixpoint split (sep : ascii) (s : string) : list string :=
  match s with
  | EmptyString => [EmptyString]
  | String c s' =>
      match split sep s' with
      | w :: ws => if Ascii.eqb c sep then EmptyString :: w :: ws
                   else String c w :: ws
      | [] => [String c EmptyString]
      end
  end.

(** [sep.join(l)] *)
Fixpoint join (sep : string) (l : list string) : string :=
  match l with
  | [] => EmptyString
  | [x] => x
  | x :: l' => x ++ sep ++ join sep l'
  end.

(** [s.startswith(prefix)] *)
Fixpoint startswith (s prefix : string) {struct prefix} : bool :=
  match prefix with
  | EmptyString => true
  | String a prefix' =>
      match s with
      | EmptyString => false
      | String b s' => Ascii.eqb a b && startswith s' prefix'
      end
  end.

(** [s.replace(old, new)] for a non-empty [old]: the occurrences of [old]
    are replaced left to right, without overlap.  [skip] counts the
    characters of a replaced occurrence still to be dropped. *)
Fixpoint replace_from (old new : string) (skip : nat) (s : string) : string :=
  match s with
  | EmptyString => EmptyString
  | String c s' =>
      match skip with
      | S k => replace_from old new k s'
      | O =>
          if startswith s old
          then new ++ replace_from old new (String.length old - 1) s'
          else String c (replace_from old new 0 s')
      end
  end.

Definition replace (old new s : string) : string := replace_from old new 0 s.

(** Equality up to the case of letters, as the words say it: the two
    strings have the same length and, position by position, the same
    character or the two cases of one letter. *)
Definition char_eq_ignore_case (a b : ascii) : Prop :=
  a = b \/
  (isupper_char a = true /\ b = ascii_of_N (N_of_ascii a + 32)) \/
  (isupper_char b = true /\ a = ascii_of_N (N_of_ascii b + 32)).

Inductive eq_ignore_case : string -> string -> Prop :=
  | eic_empty : eq_ignore_case EmptyString EmptyString
  | eic_cons a b s t :
      char_eq_ignore_case a b -> eq_ignore_case s t ->
      eq_ignore_case (String a s) (String b t).

End PyStr.

(** ** URL substitution rules (the [url_substitutions] of the special
    configuration: a list of dicts with the keys ['url'] and ['sub']) *)

Record UrlSubstitution := {
  rule_url : string;   (* sub['url'] *)
  rule_sub : string    (* sub['sub'] *)
}.

(** The test of the loop, [url.lower() == sub['url'].lower()]. *)
Definition url_matches (url : string) (sub : UrlSubstitution) : bool :=
  String.eqb (PyStr.lower url) (PyStr.lower (rule_url sub)).

(** [get_url_substitution_from_list]: the [for ... else] returns the ['sub']
    of the first entry that matches, and [None] when the loop runs out. *)
Fixpoint get_url_substitution_from_list
    (url : string) (sub_list : list UrlSubstitution) : option string :=
  match sub_list with
  | [] => None
  | sub :: rest =>
      if String.eqb (PyStr.lower url) (PyStr.lower (rule_url sub))
      then Some (rule_sub sub)
      else get_url_substitution_from_list url rest
  end.

(** ** Exceptions, events and computations *)

(** The exception classes the handlers of the two files tell apart.  A class
    stands for its subclasses too. *)
Inductive ExnClass :=
  | RuntimeErrorC
  | HTTPErrorC
  | KeyErrorC
  | IndexErrorC
  | OtherExceptionC.

(** An exception: its class and [str(e)]. *)
Record exn := mk_exn { exn_class : ExnClass; exn_str : string }.

Definition RuntimeError (msg : string) : exn := mk_exn RuntimeErrorC msg.
Definition KeyError (key : string) : exn := mk_exn KeyErrorC key.
Definition IndexError (msg : string) : exn := mk_exn IndexErrorC msg.

(** [except RuntimeError] catches [e]. *)
Definition is_RuntimeError (e : exn) : bool :=
  match exn_class e with RuntimeErrorC => true | _ => false end.

(** [except urllib.error.HTTPError] catches [e]. *)
Definition is_HTTPError (e : exn) : bool :=
  match exn_class e with HTTPErrorC => true | _ => false end.

(** A call of [RunCmd(cmd, parameters, workingdir=...)]. *)
Record Cmd := mk_cmd {
  cmd_name : string;
  cmd_params : string;
  cmd_workingdir : option string
}.

Inductive LogLevel := PROGRESS | INFO | WARNING | ERROR.

(** What a run does to the outside world, one event per call. *)
Inductive Event :=
  | ERun (c : Cmd) (rc : Z)                (* RunCmd ran [c]; its return code *)
  | ELog (lvl : LogLevel) (msg : string)   (* logging / edk2_logging *)
  | EExists (path : string) (b : bool)     (* os.path.exists, os.path.isfile *)
  | EReadFile (path : string)              (* a file opened for reading *)
  | EReportVersion (name version : string)
  | EUrlopen (url : string)                (* urllib.request.urlopen *)
  | EWriteFile (path : string)             (* a file opened with 'wb' *)
  | ERemove (path : string).               (* os.remove *)

(** How a computation ends: it returns, it raises, or (for the recursive
    walk only) its recursion budget ran out. *)
Inductive Outcome (A : Type) :=
  | Ret (a : A)
  | Raise (e : exn)
  | OutOfFuel.
Arguments Ret {A} a.
Arguments Raise {A} e.
Arguments OutOfFuel {A}.

Definition M (W A : Type) : Type := W -> Outcome A * W * list Event.

Definition ret {W A} (a : A) : M W A := fun w => (Ret a, w, []).

Definition bind {W A B} (m : M W A) (f : A -> M W B) : M W B :=
  fun w =>
    match m w with
    | (Ret a, w1, t1) => let '(o, w2, t2) := f a w1 in (o, w2, (t1 ++ t2)%list)
    | (Raise e, w1, t1) => (Raise e, w1, t1)
    | (OutOfFuel, w1, t1) => (OutOfFuel, w1, t1)
    end.

Notation "x <- c1 ;; c2" := (bind c1 (fun x => c2))
  (at level 100, c1 at next level, right associativity).
Notation "c1 ;; c2" := (bind c1 (fun _ => c2))
  (at level 100, right associativity).

Definition raise {W A} (e : exn) : M W A := fun w => (Raise e, w, []).
Definition out_of_fuel {W A} : M W A := fun w => (OutOfFuel, w, []).
Definition emit {W} (e : Event) : M W unit := fun w => (Ret tt, w, [e]).

(** [try: m  except <class> as e: handler e], for the class [catches]
    decides. *)
Definition try_except {W A} (catches : exn -> bool)
    (m : M W A) (handler : exn -> M W A) : M W A :=
  fun w =>
    match m w with
    | (Raise e, w1, t1) =>
        if catches e
        then let '(o, w2, t2) := handler e w1 in (o, w2, (t1 ++ t2)%list)
        else (Raise e, w1, t1)
    | r => r
    end.

(** [for x in l: body x] *)
Fixpoint for_each {W A} (l : list A) (body : A -> M W unit) : M W unit :=
  match l with
  | [] => ret tt
  | x :: l' => body x ;; for_each l' body
  end.

(** [for x in l: if not f x: return False] followed by [return True]. *)
Fixpoint for_each_or_false {W A} (l : list A) (f : A -> M W bool) : M W bool :=
  match l with
  | [] => ret true
  | x :: l' => b <- f x ;; if b then for_each_or_false l' f else ret false
  end.

Definition log_progress {W} (msg : string) : M W unit := emit (ELog PROGRESS msg).
Definition logging_info {W} (msg : string) : M W unit := emit (ELog INFO msg).
Definition logging_error {W} (msg : string) : M W unit := emit (ELog ERROR msg).

(** Characters with no spelling inside a string literal. *)
Definition nl : string := String (ascii_of_nat 10) EmptyString.
Definition tab : string := String (ascii_of_nat 9) EmptyString.
Definition dquote : string := String (ascii_of_nat 34) EmptyString.

(** Predicates on events. *)
Definition is_log (e : Event) : bool :=
  match e with ELog _ _ => true | _ => false end.

Definition cmd_failed (e : Event) : bool :=
  match e with ERun _ rc => negb (rc =? 0) | _ => false end.

Definition only_logs (t : list Event) : bool := forallb is_log t.
Definition no_failed_cmd (t : list Event) : bool :=
  forallb (fun e => negb (cmd_failed e)) t.

(** ** edk2_setup.py: data *)

(** [class RequiredSubmodule]: [path] and [recursive]. *)
Record RequiredSubmodule := {
  req_path : string;
  req_recursive : bool
}.

(** The dict [get_repo_submodules] builds for a section of [.gitmodules]:
    the keys ['name'], ['path'] and ['url']. *)
Record SubmoduleInfo := {
  sm_name : string;
  sm_path : string;
  sm_url : string
}.

(** The special configuration, as far as the code reads it. *)
Record SpecialConfig := {
  url_substitutions : list UrlSubstitution
}.

(** A section of a file [ConfigParser] has read: its title and its options. *)
Record ConfigSection := {
  section_title : string;
  section_options : list (string * string)
}.

(** What [Go] reads of [self]: the command line options
    ([RetrieveCommandLineOptions]), [GetWorkspaceRoot()] and
    [PlatformSettings.GetRequiredSubmodules()]. *)
Record Edk2PlatformSetup := {
  force_it : bool;
  omnicache_path : option string;
  special_file : option string;
  GetWorkspaceRoot : string;
  GetRequiredSubmodules : list RequiredSubmodule
}.

(** The outside world of [edk2_setup.py], over a world state [W].  Nothing
    is assumed of it: a command may fail or print anything at any time.
    [run_cmd_error] is the exception [RunCmd] raises for a nonzero return
    code under [raise_exception_on_nonzero=True]; [RunCmd], [version_compare]
    and [os.path] are not code of this repository. *)
Record Platform (W : Type) := {
  run_cmd : Cmd -> W -> Z * string * W;     (* return code, output, next world *)
  run_cmd_error : Cmd -> Z -> exn;
  os_path_exists : string -> W -> bool;
  os_path_join : string -> string -> string;
  os_path_normpath : string -> string;
  configparser_read : string -> W -> exn + list ConfigSection;
  yaml_load : string -> W -> exn + SpecialConfig;
  version_compare : string -> string -> Z
}.
Arguments run_cmd {W} _ _ _.
Arguments run_cmd_error {W} _ _ _.
Arguments os_path_exists {W} _ _ _.
Arguments os_path_join {W} _ _ _.
Arguments os_path_normpath {W} _ _.
Arguments configparser_read {W} _ _ _.
Arguments yaml_load {W} _ _ _.
Arguments version_compare {W} _ _ _.

Section Edk2Setup.

Context {W : Type} (P : Platform W).

(** [RunCmd(cmd, parameters, workingdir=..., raise_exception_on_nonzero=...)]:
    the return code, paired with what the command printed (the text an
    [outstream] collects). *)
Definition RunCmd (cmd parameters : string) (workingdir : option string)
    (raise_exception_on_nonzero : bool) : M W (Z * string) :=
  fun w =>
    let c := mk_cmd cmd parameters workingdir in
    let '(rc, out, w') := run_cmd P c w in
    if raise_exception_on_nonzero && negb (rc =? 0)
    then (Raise (run_cmd_error P c rc), w', [ERun c rc])
    else (Ret (rc, out), w', [ERun c rc]).

(** [os.path.exists(path)] *)
Definition path_exists (path : string) : M W bool :=
  fun w => let b := os_path_exists P path w in (Ret b, w, [EExists path b]).

(** [GetLoggingFileName]: the same name for every logger type. *)
Definition GetLoggingFileName (loggerType : string) : string := "SETUPLOG".

(** *** SpecialSetup and its nested functions *)

(** [d[key]] on the options of a section. *)
Fixpoint options_get (options : list (string * string)) (key : string)
    : M W string :=
  match options with
  | [] => raise (KeyError key)
  | (k, v) :: rest => if String.eqb k key then ret v else options_get rest key
  end.

(** The loop of [get_repo_submodules] over [git_sm_config.sections()]. *)
Fixpoint submodules_of_sections (sections : list ConfigSection)
    : M W (list SubmoduleInfo) :=
  match sections with
  | [] => ret []
  | section :: rest =>
      let name :=
        PyStr.replace dquote ""
          (PyStr.replace ("submodule " ++ dquote) "" (section_title section)) in
      path <- options_get (section_options section) "path" ;;
      url <- options_get (section_options section) "url" ;;
      results <- submodules_of_sections rest ;;
      ret ({| sm_name := name; sm_path := path; sm_url := url |} :: results)
  end.

(** [git_sm_config.read(file)], then [git_sm_config.sections()] with the
    options of each section. *)
Definition read_config (file : string) : M W (list ConfigSection) :=
  fun w =>
    match configparser_read P file w with
    | inl e => (Raise e, w, [EReadFile file])
    | inr sections => (Ret sections, w, [EReadFile file])
    end.

Definition get_repo_submodules (repo_path : string) : M W (list SubmoduleInfo) :=
  sections <- read_config (os_path_join P repo_path ".gitmodules") ;;
  submodules_of_sections sections.

(** [special_init_submodule].  The recursion follows the [.gitmodules] files
    found on disk, so it is bounded by [fuel]: one unit per nesting level. *)
Fixpoint special_init_submodule (fuel : nat) (root_path : string)
    (submodule_info : SubmoduleInfo) (special_config : SpecialConfig)
    (recursive : bool) : M W bool :=
  match fuel with
  | O => out_of_fuel
  | S fuel' =>
      let repo_path :=
        os_path_normpath P (os_path_join P root_path (sm_path submodule_info)) in
      log_progress ("## Special init of repo '" ++ repo_path ++ "'") ;;
      (* First, we need to check the path info against the sub list. *)
      let url_sub :=
        get_url_substitution_from_list (sm_url submodule_info)
                                       (url_substitutions special_config) in
      url_ok <-
        match url_sub with
        | Some url_sub =>
            let params :=
              ["submodule"; "set-url"; "--"; sm_name submodule_info; url_sub] in
            r <- RunCmd "git" (PyStr.join " " params) (Some root_path) false ;;
            if negb (fst r =? 0) then
              logging_error ("Failed to update url for " ++ repo_path) ;;
              logging_error ("-- From: " ++ sm_url submodule_info) ;;
              logging_error ("-- To: " ++ url_sub) ;;
              ret false
            else ret true
        | None => ret true
        end ;;
      if negb url_ok then ret false else
      (* Then init the repo in the root path. *)
      let params := ["submodule"; "update"; "--init"; "--"; sm_path submodule_info] in
      r <- RunCmd "git" (PyStr.join " " params) (Some root_path) false ;;
      if negb (fst r =? 0) then
        logging_error ("Failed to initialize repo " ++ repo_path) ;;
        ret false
      else
      (* If recursive, list submodules, update root_path, and repeat. *)
      if recursive then
        submodules <- get_repo_submodules repo_path ;;
        for_each_or_false submodules
          (fun sm => special_init_submodule fuel' repo_path sm special_config recursive)
      else ret true
  end.

(** [with open(path, 'r') as yml_file: yaml.load(yml_file, yaml.SafeLoader)] *)
Definition load_special_config (path : string) : M W SpecialConfig :=
  fun w =>
    match yaml_load P path w with
    | inl e => (Raise e, w, [EReadFile path])
    | inr special_config => (Ret special_config, w, [EReadFile path])
    end.

(** [SpecialSetup(special_config_path, required_submodules)] *)
Definition SpecialSetup (fuel : nat) (self : Edk2PlatformSetup)
    (special_config_path : string)
    (required_submodules : list RequiredSubmodule) : M W Z :=
  log_progress ("## Performing a special setup using file: " ++ special_config_path) ;;
  special_config <- load_special_config special_config_path ;;
  try_except is_RuntimeError
    ((* Get the repo submodules for the root. *)
     let root_path := GetWorkspaceRoot self in
     root_submodules <- get_repo_submodules root_path ;;
     for_each root_submodules (fun sm =>
       (* Filter on required. *)
       for_each required_submodules (fun req_sm =>
         if String.eqb (sm_path sm) (req_path req_sm) then
           (* Special init in order, recursively if flagged. *)
           ok <- special_init_submodule fuel root_path sm special_config
                                        (req_recursive req_sm) ;;
           if negb ok then
             raise (RuntimeError ("failed to init '" ++
                                  os_path_join P root_path (sm_path sm) ++ "'"))
           else ret tt
         else ret tt)) ;;
     ret 0)
    (fun e =>
       logging_error ("FAILED!" ++ nl) ;;
       logging_error (exn_str e) ;;
       ret (-1)).

(** *** Go *)

(** Lines 92-104: git must be installed, and not older than 2.11.0. *)
Definition check_git_version : M W unit :=
  r <- RunCmd "git" "--version" None true ;;
  let git_version := PyStr.strip (snd r) in
  emit (EReportVersion "Git" git_version) ;;
  let min_git := "2.11.0" in
  (* This code is highly specific to the return value of "git version"... *)
  match nth_error (PyStr.split " "%char git_version) 2 with
  | None => raise (IndexError "list index out of range")
  | Some word =>
      let cur_git := PyStr.join "." (firstn 3 (PyStr.split "."%char word)) in
      if version_compare P min_git cur_git >? 0 then
        raise (RuntimeError ("Please upgrade Git! Current version is " ++ cur_git ++
                             ". Minimum is " ++ min_git ++ "."))
      else ret tt
  end.

(** Lines 107-137: the cleaning [--force] asks for.  [false] stands for the
    bare [return] of the handler, which ends [Go]. *)
Definition force_clean (self : Edk2PlatformSetup) : M W bool :=
  let required_submodules := GetRequiredSubmodules self in
  let workspace_path := GetWorkspaceRoot self in
  try_except is_RuntimeError
    ((* Clean and reset the main repo. *)
     log_progress "## Cleaning the root repo..." ;;
     RunCmd "git" "reset --hard" (Some workspace_path) true ;;
     let ignore_files :=
       "-e Build/" ++ GetLoggingFileName "txt" ++ ".txt -e Build/" ++
       GetLoggingFileName "md" ++ ".md" in
     RunCmd "git" ("clean -xffd " ++ ignore_files) (Some workspace_path) true ;;
     log_progress ("Done." ++ nl) ;;
     (* Clean any submodule repos. *)
     for_each required_submodules (fun required_submodule =>
       log_progress ("## Cleaning Git repository: " ++
                     req_path required_submodule ++ "...") ;;
       let required_submodule_path :=
         os_path_normpath P
           (os_path_join P workspace_path (req_path required_submodule)) in
       RunCmd "git" "reset --hard" (Some required_submodule_path) true ;;
       RunCmd "git" "clean -xffd" (Some required_submodule_path) true ;;
       log_progress ("Done." ++ nl)) ;;
     ret true)
    (fun e =>
       logging_error ("FAILED!" ++ nl) ;;
       logging_error "Error while trying to clean the environment!" ;;
       logging_error (exn_str e) ;;
       ret false).

(** STEP 1, lines 147-158: one [submodule sync] for all the paths.  [false]
    stands for the bare [return] of the handler. *)
Definition sync_params (required_submodules : list RequiredSubmodule) : string :=
  "submodule sync -- " ++ PyStr.join " " (map req_path required_submodules).

Definition Go_step1 (self : Edk2PlatformSetup) : M W bool :=
  let required_submodules := GetRequiredSubmodules self in
  let workspace_path := GetWorkspaceRoot self in
  try_except is_RuntimeError
    (let submodule_string := PyStr.join " " (map req_path required_submodules) in
     log_progress ("## Syncing Git repositories: " ++ submodule_string ++ "...") ;;
     RunCmd "git" ("submodule sync -- " ++ submodule_string)
            (Some workspace_path) true ;;
     log_progress ("Done." ++ nl) ;;
     ret true)
    (fun e =>
       logging_error ("FAILED!" ++ nl) ;;
       logging_error "Error while trying to synchronize the environment!" ;;
       logging_error (exn_str e) ;;
       ret false).

(** The parameters of the fetch of STEP 2b, lines 189-195. *)
Definition fetch_params (self : Edk2PlatformSetup)
    (required_submodule : RequiredSubmodule) : string :=
  "submodule update --init" ++
  (if req_recursive required_submodule then " --recursive" else "") ++
  " --progress" ++
  match omnicache_path self with
  | Some cache => " --reference " ++ cache
  | None => ""
  end ++
  " " ++ req_path required_submodule.

(** STEP 2, lines 163-207: the body of the loop over the required
    submodules, with its [try] and its handler. *)
Definition Go_step2 (self : Edk2PlatformSetup)
    (required_submodule : RequiredSubmodule) : M W unit :=
  let workspace_path := GetWorkspaceRoot self in
  try_except is_RuntimeError
    (log_progress ("## Checking Git repository: " ++
                   req_path required_submodule ++ "...") ;;
     (* STEP 2a: need to determine whether to skip this repo. *)
     let required_submodule_path :=
       os_path_normpath P
         (os_path_join P workspace_path (req_path required_submodule)) in
     exists_ <- path_exists required_submodule_path ;;
     skip_repo <-
       (if exists_ && negb (force_it self) then
          r <- RunCmd "git" ("diff " ++ req_path required_submodule)
                      (Some workspace_path) true ;;
          let git_data := PyStr.strip (snd r) in
          (* If anything was returned, we should skip processing the repo. *)
          if negb (String.eqb git_data "") then
            logging_info "-- NOTE: Repo currently exists and appears to have local changes!" ;;
            logging_info "-- Skipping fetch!" ;;
            ret true
          else ret false
        else ret false) ;;
     (* STEP 2b: if we're not skipping, grab it. *)
     (if negb skip_repo || force_it self then
        logging_info "## Fetching repo." ;;
        r <- RunCmd "git" (fetch_params self required_submodule)
                    (Some workspace_path) false ;;
        if negb (fst r =? 0) then
          logging_error ("Failed to fetch " ++ req_path required_submodule) ;;
          raise (RuntimeError "Unable to checkout repo due to error")
        else ret tt
      else ret tt) ;;
     log_progress ("Done." ++ nl))
    (fun e =>
       logging_error ("FAILED!" ++ nl) ;;
       logging_error ("Failed to fetch required repository!" ++ nl) ;;
       logging_error (exn_str e)).

(** [Go].  Its value is [None] after a bare [return]. *)
Definition Go (fuel : nat) (self : Edk2PlatformSetup) : M W (option Z) :=
  let required_submodules := GetRequiredSubmodules self in
  (* Make sure git is installed *)
  check_git_version ;;
  (* Pre-setup cleaning if "--force" is specified. *)
  cleaned <- (if force_it self then force_clean self else ret true) ;;
  if negb cleaned then ret None else
  (* Grab the remaining Git repos. *)
  match required_submodules with
  | [] => ret (Some 0)
  | _ :: _ =>
      (* If a "special" file is provided, pivot to the special init path. *)
      match special_file self with
      | Some special_file =>
          status <- SpecialSetup fuel self special_file required_submodules ;;
          ret (Some status)
      | None =>
          synced <- Go_step1 self ;;
          if negb synced then ret None else
          for_each required_submodules (Go_step2 self) ;;
          ret (Some 0)
      end
  end.

End Edk2Setup.

(** ** bin/nuget.py *)

Module Nuget.

(* Update this when you want a new version of NuGet *)
Definition VERSION : string := "5.10.0".
Definition URL : string :=
  "https://dist.nuget.org/win-x86-commandline/v" ++ VERSION ++ "/nuget.exe".
Definition SHA256 : string :=
  "852b71cc8c8c2d40d09ea49d321ff56fd2397b9d6ea9f96e532530307bbbafd3".

(** The disk: the regular files, by path, with their bytes. *)
Abbreviation Disk := (gmap string (list Byte.byte)).

(** What [DownloadNuget] uses and this repository does not define.
    [urlopen url] is [inl e] when [urlopen] raises [e]; otherwise it is the
    result of [response.read()], the body or an exception.
    [open_wb_error path] is the exception [open(path, 'wb')] raises, if any. *)
Record Net := {
  module_dir : string;                          (* os.path.dirname(__file__) *)
  path_join : string -> string -> string;       (* os.path.join *)
  urlopen : string -> exn + (exn + list Byte.byte);
  open_wb_error : string -> option exn;
  sha256_hexdigest : list Byte.byte -> string   (* hashlib.sha256(b).hexdigest() *)
}.

Section DownloadNuget.

Context (N : Net).

(** [os.path.isfile(path)] *)
Definition isfile (path : string) : M Disk bool :=
  fun disk =>
    let b := match disk !! path with Some _ => true | None => false end in
    (Ret b, disk, [EExists path b]).

(** Lines 41-42: [with urlopen(URL) as response, open(out, 'wb') as
    out_file: out_file.write(response.read())].  [open] creates the file
    empty before [read] runs. *)
Definition download (out_file_name : string) : M Disk unit :=
  fun disk =>
    match urlopen N URL with
    | inl e => (Raise e, disk, [EUrlopen URL])
    | inr body =>
        match open_wb_error N out_file_name with
        | Some e => (Raise e, disk, [EUrlopen URL; EWriteFile out_file_name])
        | None =>
            match body with
            | inl e => (Raise e, <[out_file_name := []]> disk,
                        [EUrlopen URL; EWriteFile out_file_name])
            | inr data => (Ret tt, <[out_file_name := data]> disk,
                           [EUrlopen URL; EWriteFile out_file_name])
            end
        end
    end.

(** [open(path, 'rb').read()] *)
Definition read_file (path : string) : M Disk (list Byte.byte) :=
  fun disk =>
    match disk !! path with
    | Some data => (Ret data, disk, [EReadFile path])
    | None => (Raise (mk_exn OtherExceptionC "FileNotFoundError"), disk,
               [EReadFile path])
    end.

(** [os.remove(path)] *)
Definition os_remove (path : string) : M Disk unit :=
  fun disk =>
    match disk !! path with
    | Some _ => (Ret tt, delete path disk, [ERemove path])
    | None => (Raise (mk_exn OtherExceptionC "FileNotFoundError"), disk,
               [ERemove path])
    end.

Definition DownloadNuget (unpack_folder : option string) : M Disk unit :=
  let unpack_folder :=
    match unpack_folder with
    | None => module_dir N
    | Some folder => folder
    end in
  let out_file_name := path_join N unpack_folder "NuGet.exe" in
  (* check if we have the nuget file already downloaded *)
  have_file <- isfile out_file_name ;;
  (if negb have_file then
     try_except is_HTTPError
       (download out_file_name)
       (fun e =>
          logging_error "We ran into an issue when getting NuGet" ;;
          raise e)
   else ret tt) ;;
  (* do the hash to make sure the file is good *)
  data <- read_file out_file_name ;;
  let temp_file_sha256 := sha256_hexdigest N data in
  if negb (String.eqb (PyStr.lower temp_file_sha256) (PyStr.lower SHA256)) then
    os_remove out_file_name ;;
    raise (RuntimeError ("Nuget.exe download - sha256 does not match" ++ nl ++ tab ++
                         "downloaded:" ++ tab ++ temp_file_sha256 ++ nl ++ tab))
  else ret tt.

End DownloadNuget.

End Nuget.


(** ** edk2_setup.py: the settings of a platform that overrides nothing *)

(** [SetupSettingsManager.GetRequiredSubmodules], lines 40-44. *)
Definition SetupSettingsManager_GetRequiredSubmodules : list RequiredSubmodule := [].

(** ** edk2_setup.py: the command line options *)

(** The values the attributes of an [argparse.Namespace] hold here. *)
Inductive PyVal :=
  | VNone
  | VBool (b : bool)
  | VStr (s : string).

(** [str(v)], which an f-string applies to the value it formats. *)
Definition py_str (v : PyVal) : string :=
  match v with
  | VNone => "None"
  | VBool true => "True"
  | VBool false => "False"
  | VStr s => s
  end.

(** The namespace [parse_args] returns for the parser of
    [AddCommandLineOptions], lines 58-63: the destinations [force]
    ([store_true]), [omnicache_path] (a string, or [None] without the option
    and without [OMNICACHE_PATH] in the environment) and [special] (the
    absolute path [abs_file_path] returned, or [None]), and the attributes
    the options of the parent class add. *)
Record Namespace := {
  ns_force : bool;
  ns_omnicache_path : option string;
  ns_special : option string;
  ns_other : gmap string PyVal
}.

Definition AttributeError (msg : string) : exn := mk_exn OtherExceptionC msg.

(** [args.name]: attribute names are compared as they are written. *)
Definition getattr (args : Namespace) (name : string) : option PyVal :=
  if String.eqb name "force" then Some (VBool (ns_force args))
  else if String.eqb name "omnicache_path" then
    Some (match ns_omnicache_path args with Some p => VStr p | None => VNone end)
  else if String.eqb name "special" then
    Some (match ns_special args with Some p => VStr p | None => VNone end)
  else ns_other args !! name.

Section CommandLine.

Context {W : Type} (P : Platform W).

(** The state of [RetrieveCommandLineOptions]: [self] and the world. *)
Definition Self : Type := Edk2PlatformSetup * W.

Definition read_attribute (args : Namespace) (name : string) : M Self PyVal :=
  match getattr args name with
  | Some v => ret v
  | None =>
      raise (AttributeError ("'Namespace' object has no attribute '" ++ name ++ "'"))
  end.

Definition set_force_it (b : bool) : M Self unit :=
  fun s =>
    (Ret tt,
     ({| force_it := b;
         omnicache_path := omnicache_path (fst s);
         special_file := special_file (fst s);
         GetWorkspaceRoot := GetWorkspaceRoot (fst s);
         GetRequiredSubmodules := GetRequiredSubmodules (fst s) |}, snd s), []).

Definition set_omnicache_path (p : option string) : M Self unit :=
  fun s =>
    (Ret tt,
     ({| force_it := force_it (fst s);
         omnicache_path := p;
         special_file := special_file (fst s);
         GetWorkspaceRoot := GetWorkspaceRoot (fst s);
         GetRequiredSubmodules := GetRequiredSubmodules (fst s) |}, snd s), []).

Definition set_special_file (p : option string) : M Self unit :=
  fun s =>
    (Ret tt,
     ({| force_it := force_it (fst s);
         omnicache_path := omnicache_path (fst s);
         special_file := p;
         GetWorkspaceRoot := GetWorkspaceRoot (fst s);
         GetRequiredSubmodules := GetRequiredSubmodules (fst s) |}, snd s), []).

Definition self_omnicache_path : M Self (option string) :=
  fun s => (Ret (omnicache_path (fst s)), s, []).

Definition self_path_exists (path : string) : M Self bool :=
  fun s => let b := os_path_exists P path (snd s) in (Ret b, s, [EExists path b]).

Definition logging_warning (msg : string) : M Self unit := emit (ELog WARNING msg).

(** Lines 67-76.  [super_RetrieveCommandLineOptions] is the method of the
    parent class, [Edk2MultiPkgAwareInvocable]. *)
Definition RetrieveCommandLineOptions
    (super_RetrieveCommandLineOptions : Namespace -> M Self unit)
    (args : Namespace) : M Self unit :=
  set_force_it (ns_force args) ;;
  set_omnicache_path (ns_omnicache_path args) ;;
  current <- self_omnicache_path ;;
  (match current with
   | Some path =>
       exists_ <- self_path_exists path ;;
       if negb exists_ then
         v <- read_attribute args "omnicache_Path" ;;
         logging_warning ("Omnicache path set to invalid path: " ++ py_str v) ;;
         set_omnicache_path None
       else ret tt
   | None => ret tt
   end) ;;
  set_special_file (ns_special args) ;;
  super_RetrieveCommandLineOptions args.

End CommandLine.
(** * Vocabulary of the properties *)

(** A run that a failing command ended: the commands before it succeeded,
    and only log lines follow it. *)
Definition Aborted (t : list Event) : Prop :=
  exists pre c rc post,
    t = (pre ++ ERun c rc :: post)%list /\ rc <> 0 /\
    no_failed_cmd pre = true /\ only_logs post = true.

(** What holds of a run of [special_init_submodule]: it returns [False]
    exactly when a command failed, and it stopped there. *)
Definition walk_inv {W} (r : Outcome bool * W * list Event) : Prop :=
  match r with
  | (Ret false, _, t) => Aborted t
  | (_, _, t) => no_failed_cmd t = true
  end.

(** The same for the loops of [SpecialSetup], which turn the [False] into a
    [RuntimeError]. *)
Definition setup_inv {W} (r : Outcome unit * W * list Event) : Prop :=
  match r with
  | (Raise e, _, t) =>
      (is_RuntimeError e = true /\ Aborted t) \/ no_failed_cmd t = true
  | (_, _, t) => no_failed_cmd t = true
  end.

(** The two commands of [special_init_submodule]. *)
Definition set_url_cmd (root_path : string) (submodule_info : SubmoduleInfo)
    (url_sub : string) : Cmd :=
  mk_cmd "git"
    (PyStr.join " " ["submodule"; "set-url"; "--"; sm_name submodule_info; url_sub])
    (Some root_path).

Definition init_cmd (root_path : string) (submodule_info : SubmoduleInfo) : Cmd :=
  mk_cmd "git"
    (PyStr.join " " ["submodule"; "update"; "--init"; "--"; sm_path submodule_info])
    (Some root_path).

(** The commands of [Go], by the words their parameters start with. *)
Definition is_sync_cmd (c : Cmd) : bool :=
  PyStr.startswith (cmd_params c) "submodule sync ".
Definition is_fetch_cmd (c : Cmd) : bool :=
  PyStr.startswith (cmd_params c) "submodule update --init".
Definition is_diff_cmd (c : Cmd) : bool :=
  PyStr.startswith (cmd_params c) "diff ".

(** An inspection of the state of a working tree: the existence test and
    the [git diff] of STEP 2a. *)
Definition dirty_inspection (e : Event) : bool :=
  match e with
  | EExists _ _ => true
  | ERun c _ => is_diff_cmd c
  | _ => false
  end.

(** [self] with another [--force]. *)
Definition with_force (b : bool) (self : Edk2PlatformSetup) : Edk2PlatformSetup :=
  {| force_it := b;
     omnicache_path := omnicache_path self;
     special_file := special_file self;
     GetWorkspaceRoot := GetWorkspaceRoot self;
     GetRequiredSubmodules := GetRequiredSubmodules self |}.

(** Every event of every run of [m] satisfies [p]. *)
Definition events_sat {W A} (p : Event -> bool) (m : M W A) : Prop :=
  forall w, forallb p (snd (m w)) = true.

Definition no_inspection (e : Event) : bool := negb (dirty_inspection e).

(** Lines 253-270 of [special_init_submodule]: what follows the url step,
    the init and then the nested submodules ([fuel] bounds the levels
    below). *)
Definition init_then_nested {W} (P : Platform W) (fuel : nat)
    (root_path : string) (submodule_info : SubmoduleInfo)
    (special_config : SpecialConfig) (recursive : bool) : M W bool :=
  let repo_path :=
    os_path_normpath P (os_path_join P root_path (sm_path submodule_info)) in
  r <- RunCmd P "git"
         (PyStr.join " " ["submodule"; "update"; "--init"; "--"; sm_path submodule_info])
         (Some root_path) false ;;
  if negb (fst r =? 0) then
    logging_error ("Failed to initialize repo " ++ repo_path) ;;
    ret false
  else
  if recursive then
    submodules <- get_repo_submodules P repo_path ;;
    for_each_or_false submodules
      (fun sm => special_init_submodule P fuel repo_path sm special_config recursive)
  else ret true.

(** The commands of the standard mode, for a required submodule. *)
Definition required_submodule_path {W} (P : Platform W)
    (self : Edk2PlatformSetup) (required_submodule : RequiredSubmodule) : string :=
  os_path_normpath P
    (os_path_join P (GetWorkspaceRoot self) (req_path required_submodule)).

Definition sync_cmd (self : Edk2PlatformSetup) : Cmd :=
  mk_cmd "git" (sync_params (GetRequiredSubmodules self))
         (Some (GetWorkspaceRoot self)).

Definition diff_cmd (self : Edk2PlatformSetup)
    (required_submodule : RequiredSubmodule) : Cmd :=
  mk_cmd "git" ("diff " ++ req_path required_submodule)
         (Some (GetWorkspaceRoot self)).

Definition fetch_cmd (self : Edk2PlatformSetup)
    (required_submodule : RequiredSubmodule) : Cmd :=
  mk_cmd "git" (fetch_params self required_submodule)
         (Some (GetWorkspaceRoot self)).

(** Events by the command they run. *)
Definition runs (kind : Cmd -> bool) (e : Event) : bool :=
  match e with ERun c _ => kind c | _ => false end.

(** An event of the part of [Go] before STEP 1: no sync, no fetch, no
    inspection. *)
Definition before_sync (e : Event) : bool :=
  negb (runs is_sync_cmd e) && negb (runs is_fetch_cmd e) &&
  negb (dirty_inspection e).

(** What an iteration of STEP 2 logs when it skips a dirty submodule, and
    when its fetch fails. *)
Definition skip_events {W} (P : Platform W) (self : Edk2PlatformSetup)
    (sm : RequiredSubmodule) : list Event :=
  [ELog PROGRESS ("## Checking Git repository: " ++ req_path sm ++ "...");
   EExists (required_submodule_path P self sm) true;
   ERun (diff_cmd self sm) 0;
   ELog INFO "-- NOTE: Repo currently exists and appears to have local changes!";
   ELog INFO "-- Skipping fetch!";
   ELog PROGRESS ("Done." ++ nl)].


(** [nuget.py]: the file [DownloadNuget] works on, the test of line 51 and
    the message of the [RuntimeError] of line 53. *)
Definition nuget_out_file (N : Nuget.Net) (unpack_folder : option string) : string :=
  Nuget.path_join N
    (match unpack_folder with
     | None => Nuget.module_dir N
     | Some folder => folder
     end) "NuGet.exe".

Definition sha256_matches (N : Nuget.Net) (data : list Byte.byte) : bool :=
  String.eqb (PyStr.lower (Nuget.sha256_hexdigest N data))
             (PyStr.lower Nuget.SHA256).

Definition sha256_mismatch (N : Nuget.Net) (data : list Byte.byte) : exn :=
  RuntimeError ("Nuget.exe download - sha256 does not match" ++ nl ++ tab ++
                "downloaded:" ++ tab ++ Nuget.sha256_hexdigest N data ++ nl ++ tab).


(** [m'] goes as [m] does wherever [m] does not run out of fuel. *)
Definition extends {W A} (m m' : M W A) : Prop :=
  forall w, fst (fst (m w)) <> OutOfFuel -> m' w = m w.

(** * Example worlds

    A world that keeps the list of the commands run so far, latest first.
    [failing] says which commands return 1, [output] what a command prints,
    [on_disk] which paths exist, [gitmodules] the sections of each
    [.gitmodules] file. *)
Definition example_platform (failing : Cmd -> bool) (output : Cmd -> string)
    (on_disk : string -> bool) (gitmodules : string -> list ConfigSection)
    (special_config : SpecialConfig) : Platform (list Cmd) :=
  {| run_cmd := fun c w => (if failing c then 1 else 0, output c, c :: w);
     run_cmd_error := fun c rc => RuntimeError (cmd_name c ++ " failed");
     os_path_exists := fun path w => on_disk path;
     os_path_join := fun a b => a ++ "/" ++ b;
     os_path_normpath := fun path => path;
     configparser_read := fun file w => inr (gitmodules file);
     yaml_load := fun file w => inr special_config;
     version_compare := fun a b => -1 |}.

Definition example_section (name path url : string) : ConfigSection :=
  {| section_title := "submodule " ++ dquote ++ name ++ dquote;
     section_options := [("path", path); ("url", url)] |}.

(** A workspace [ws] with the submodule [outer], which holds [inner1] and
    [inner2]. *)
Definition example_gitmodules (file : string) : list ConfigSection :=
  if String.eqb file "ws/.gitmodules" then
    [example_section "outer" "outer" "HTTPS://old/Repo.git"]
  else if String.eqb file "ws/outer/.gitmodules" then
    [example_section "inner1" "inner1" "https://host/inner1.git";
     example_section "inner2" "inner2" "https://host/inner2.git"]
  else [].

Definition example_config : SpecialConfig :=
  {| url_substitutions :=
       [{| rule_url := "https://other/repo.git"; rule_sub := "https://mirror/other.git" |};
        {| rule_url := "https://old/repo.git"; rule_sub := "https://new/repo.git" |}] |}.

Definition example_output (diff_output : string) (c : Cmd) : string :=
  if String.eqb (cmd_params c) "--version" then "git version 2.30.1" ++ nl
  else if is_diff_cmd c then diff_output
  else "".

Definition example_outer : RequiredSubmodule :=
  {| req_path := "outer"; req_recursive := true |}.
Definition example_tools : RequiredSubmodule :=
  {| req_path := "tools"; req_recursive := false |}.

Definition example_self (special : option string) : Edk2PlatformSetup :=
  {| force_it := false;
     omnicache_path := None;
     special_file := special;
     GetWorkspaceRoot := "ws";
     GetRequiredSubmodules := [example_outer; example_tools] |}.

(** The special setup in which the init of [inner1] fails. *)
Definition inner1_fails : Platform (list Cmd) :=
  example_platform
    (fun c => String.eqb (cmd_params c) "submodule update --init -- inner1")
    (example_output "") (fun _ => true) example_gitmodules example_config.

(** The special setup in which the url rewrite of [outer] fails. *)
Definition set_url_fails : Platform (list Cmd) :=
  example_platform
    (fun c => PyStr.startswith (cmd_params c) "submodule set-url")
    (example_output "") (fun _ => true) example_gitmodules example_config.

(** Standard mode: every path exists, the diff prints [diff_output], and
    the commands [failing] picks fail. *)
Definition standard_world (failing : Cmd -> bool) (diff_output : string)
    : Platform (list Cmd) :=
  example_platform failing (example_output diff_output) (fun _ => true)
                   example_gitmodules example_config.

(** The records [get_repo_submodules] builds in the example workspace. *)
Definition example_outer_info : SubmoduleInfo :=
  {| sm_name := "outer"; sm_path := "outer"; sm_url := "HTTPS://old/Repo.git" |}.
Definition example_inner1_info : SubmoduleInfo :=
  {| sm_name := "inner1"; sm_path := "inner1"; sm_url := "https://host/inner1.git" |}.

(** A network that serves [body], and a hash function that gives [digest]
    for every file. *)
Definition example_net (body : list Byte.byte) (digest : string) : Nuget.Net :=
  {| Nuget.module_dir := "bin";
     Nuget.path_join := fun a b => a ++ "/" ++ b;
     Nuget.urlopen := fun url => inr (inr body);
     Nuget.open_wb_error := fun path => None;
     Nuget.sha256_hexdigest := fun data => digest |}.

(** A disk with a [NuGet.exe] in the folder [tools]. *)
Definition example_disk : Nuget.Disk :=
  {[ "tools/NuGet.exe" := [Byte.x4d; Byte.x5a] ]}.

(** * Vocabulary of the further properties *)







(** An event that is not an error line of the log. *)
Definition no_error_log (e : Event) : bool :=
  match e with ELog ERROR _ => false | _ => true end.

(** A call that returned [True] logged no error. *)
Definition quiet_inv {W} (r : Outcome bool * W * list Event) : Prop :=
  fst (fst r) = Ret true -> forallb no_error_log (snd r) = true.



(** Every event of every run of [m] satisfies [Q]. *)
Definition events_all {W A} (Q : Event -> Prop) (m : M W A) : Prop :=
  forall w, Forall Q (snd (m w)).

(** The loops of [SpecialSetup]: when they return, every command succeeded
    and no error was logged. *)
Definition loops_ok {W} (r : Outcome unit * W * list Event) : Prop :=
  fst (fst r) = Ret tt ->
  no_failed_cmd (snd r) = true /\ forallb no_error_log (snd r) = true.

(** The commands of the forced cleaning. *)
Definition is_clean_cmd (c : Cmd) : bool :=
  PyStr.startswith (cmd_params c) "reset --hard" ||
  PyStr.startswith (cmd_params c) "clean -xffd".

(** The paths of the existence tests of a trace, in order. *)
Fixpoint tested_paths (t : list Event) : list string :=
  match t with
  | [] => []
  | EExists path _ :: t' => path :: tested_paths t'
  | _ :: t' => tested_paths t'
  end.

Definition no_clean (e : Event) : bool := negb (runs is_clean_cmd e).

(** A run that raised the exception of a failing command: the command is
    the last event, and the commands before it succeeded. *)
Definition failed_last {W} (P : Platform W) (e : exn) (t : list Event) : Prop :=
  exists pre c rc,
    t = (pre ++ [ERun c rc])%list /\ rc <> 0 /\ no_failed_cmd pre = true /\
    e = run_cmd_error P c rc.

(** What holds of a run whose commands all raise on a nonzero return code. *)
Definition strict_inv {W A} (P : Platform W) (r : Outcome A * W * list Event) : Prop :=
  match r with
  | (Raise e, _, t) => failed_last P e t \/ no_failed_cmd t = true
  | (_, _, t) => no_failed_cmd t = true
  end.

(** What [Go] does once the cleaning is over, lines 140-209. *)
Definition Go_after_cleaning {W} (P : Platform W) (fuel : nat)
    (self : Edk2PlatformSetup) : M W (option Z) :=
  match GetRequiredSubmodules self with
  | [] => ret (Some 0)
  | _ :: _ =>
      match special_file self with
      | Some special_file =>
          status <- SpecialSetup P fuel self special_file (GetRequiredSubmodules self) ;;
          ret (Some status)
      | None =>
          synced <- Go_step1 P self ;;
          if negb synced then ret None else
          for_each (GetRequiredSubmodules self) (Go_step2 P self) ;;
          ret (Some 0)
      end
  end.

(** [s] holds no [c]; the number of [c] in [s]. *)
Fixpoint free_of (c : ascii) (s : string) : bool :=
  match s with
  | EmptyString => true
  | String a s' => negb (Ascii.eqb a c) && free_of c s'
  end.

Fixpoint count_char (c : ascii) (s : string) : nat :=
  match s with
  | EmptyString => O
  | String a s' => if Ascii.eqb a c then S (count_char c s') else count_char c s'
  end.

(** The command of line 94, and what [Go] has done when the version check
    raises after it. *)
Definition git_version_cmd : Cmd := mk_cmd "git" "--version" None.

Definition version_events (git_version : string) : list Event :=
  [ERun git_version_cmd 0; EReportVersion "Git" git_version].

(** [s] is empty or starts with [c]. *)
Definition empty_or_starts (c : ascii) (s : string) : bool :=
  match s with
  | EmptyString => true
  | String a _ => Ascii.eqb a c
  end.

(** An event of the version check or of the cleaning: a log line, the
    report of the version, or a command that is no sync, no fetch, no diff
    and no command of [SpecialSetup]. *)
Definition is_submodule_cmd (c : Cmd) : bool :=
  PyStr.startswith (cmd_params c) "submodule ".

Definition preparation (e : Event) : bool :=
  match e with
  | ELog _ _ => true
  | EReportVersion _ _ => true
  | ERun c _ => negb (is_submodule_cmd c) && negb (is_diff_cmd c)
  | _ => false
  end.

(** The error line of a failed download, line 44. *)
Definition nuget_issue : Event :=
  ELog ERROR "We ran into an issue when getting NuGet".

(** The exception of a download that fails, and whether [open] had created
    the file by then; [None] when the download succeeds. *)
Definition download_failure (N : Nuget.Net) (out_file_name : string)
    : option (exn * bool) :=
  match Nuget.urlopen N Nuget.URL with
  | inl e => Some (e, false)
  | inr body =>
      match Nuget.open_wb_error N out_file_name with
      | Some e => Some (e, false)
      | None =>
          match body with
          | inl e => Some (e, true)
          | inr _ => None
          end
      end
  end.

(** The [git clean] of the workspace root, which spares the two log files
    ([GetLoggingFileName] names both). *)
Definition root_clean_params : string :=
  "clean -xffd -e Build/SETUPLOG.txt -e Build/SETUPLOG.md".

(** A command of the cleaning runs in the workspace root or in the path of
    a required submodule. *)
Definition expected_clean {W} (P : Platform W) (self : Edk2PlatformSetup)
    (e : Event) : Prop :=
  match e with
  | ERun c _ =>
      is_clean_cmd c = true ->
      cmd_name c = "git" /\
      ((cmd_workingdir c = Some (GetWorkspaceRoot self) /\
        (cmd_params c = "reset --hard" \/ cmd_params c = root_clean_params)) \/
       (exists sm,
           In sm (GetRequiredSubmodules self) /\
           cmd_workingdir c = Some (required_submodule_path P self sm) /\
           (cmd_params c = "reset --hard" \/ cmd_params c = "clean -xffd")))
  | _ => True
  end.

(** * Further example worlds *)

(** A git of version 2.9.0, which [version_compare] finds too old. *)
Definition old_git : Platform (list Cmd) :=
  {| run_cmd := fun c w => (0, "git version 2.9.0.windows.1" ++ nl, c :: w);
     run_cmd_error := fun c rc => RuntimeError (cmd_name c ++ " failed");
     os_path_exists := fun path w => true;
     os_path_join := fun a b => a ++ "/" ++ b;
     os_path_normpath := fun path => path;
     configparser_read := fun file w => inr [];
     yaml_load := fun file w => inr example_config;
     version_compare := fun a b => if String.eqb b "2.9.0" then 1 else -1 |}.

(** A git that prints one word for its version. *)
Definition terse_git : Platform (list Cmd) :=
  example_platform (fun _ => false) (fun _ => "git" ++ nl) (fun _ => true)
                   example_gitmodules example_config.




(** A platform with no required submodule, run with [--force] and a special
    file. *)
Definition example_bare : Edk2PlatformSetup :=
  {| force_it := true;
     omnicache_path := None;
     special_file := Some "special.yaml";
     GetWorkspaceRoot := "ws";
     GetRequiredSubmodules := SetupSettingsManager_GetRequiredSubmodules |}.


(** A network whose [read] breaks off, and one that answers 404. *)
Definition example_net_interrupted : Nuget.Net :=
  {| Nuget.module_dir := "bin";
     Nuget.path_join := fun a b => a ++ "/" ++ b;
     Nuget.urlopen := fun url => inr (inl (mk_exn OtherExceptionC "IncompleteRead"));
     Nuget.open_wb_error := fun path => None;
     Nuget.sha256_hexdigest := fun data => "00ff" |}.

Definition example_net_404 : Nuget.Net :=
  {| Nuget.module_dir := "bin";
     Nuget.path_join := fun a b => a ++ "/" ++ b;
     Nuget.urlopen := fun url => inl (mk_exn HTTPErrorC "HTTP Error 404: Not Found");
     Nuget.open_wb_error := fun path => None;
     Nuget.sha256_hexdigest := fun data => "00ff" |}.

(** A command line with an omnicache path that does not exist. *)
Definition example_args : Namespace :=
  {| ns_force := true;
     ns_omnicache_path := Some "/no/such/cache";
     ns_special := None;
     ns_other := ∅ |}.

Definition nothing_on_disk : Platform (list Cmd) :=
  example_platform (fun _ => false) (example_output "") (fun _ => false)
                   example_gitmodules example_config.

(** * Properties *)

(** ** Case-insensitive comparison *)

Lemma isupper_char_range (c : ascii) :
  PyStr.isupper_char c = true ->
  (65 <= N_of_ascii c <= 90 \/
   (192 <= N_of_ascii c <= 222 /\ N_of_ascii c <> 215))%N.
Proof.
  unfold PyStr.isupper_char. cbv zeta. intros H.
  apply orb_true_iff in H. destruct H as [H | H].
  - apply andb_true_iff in H. destruct H as [H1 H2].
    apply N.leb_le in H1. apply N.leb_le in H2. left. lia.
  - apply andb_true_iff in H. destruct H as [H H3].
    apply andb_true_iff in H. destruct H as [H1 H2].
    apply N.leb_le in H1. apply N.leb_le in H2.
    apply negb_true_iff in H3. apply N.eqb_neq in H3. right. lia.
Qed.

Lemma N_of_shifted (c : ascii) :
  PyStr.isupper_char c = true ->
  N_of_ascii (ascii_of_N (N_of_ascii c + 32)) = (N_of_ascii c + 32)%N.
Proof.
  intros H. apply isupper_char_range in H.
  apply N_ascii_embedding. lia.
Qed.

Lemma isupper_char_shifted (c : ascii) :
  PyStr.isupper_char c = true ->
  PyStr.isupper_char (ascii_of_N (N_of_ascii c + 32)) = false.
Proof.
  intros H. unfold PyStr.isupper_char at 1. cbv zeta.
  rewrite (N_of_shifted c H). apply isupper_char_range in H.
  apply orb_false_iff. split.
  - apply andb_false_iff. right. apply N.leb_gt.
    destruct H as [H | H]; lia.
  - apply andb_false_iff. left. apply andb_false_iff.
    destruct H as [H | H]; [left | right]; apply N.leb_gt; lia.
Qed.

Lemma shifted_inj (a b : ascii) :
  PyStr.isupper_char a = true -> PyStr.isupper_char b = true ->
  ascii_of_N (N_of_ascii a + 32) = ascii_of_N (N_of_ascii b + 32) -> a = b.
Proof.
  intros Ha Hb E. apply (f_equal N_of_ascii) in E.
  rewrite (N_of_shifted a Ha), (N_of_shifted b Hb) in E.
  rewrite <- (ascii_N_embedding a), <- (ascii_N_embedding b).
  f_equal. lia.
Qed.

Lemma lower_char_eq_iff (a b : ascii) :
  PyStr.lower_char a = PyStr.lower_char b <-> PyStr.char_eq_ignore_case a b.
Proof.
  unfold PyStr.lower_char, PyStr.char_eq_ignore_case.
  destruct (PyStr.isupper_char a) eqn:Ha, (PyStr.isupper_char b) eqn:Hb; split.
  - intros E. left. now apply shifted_inj.
  - intros [E | [[_ E] | [_ E]]]; subst.
    + reflexivity.
    + rewrite isupper_char_shifted in Hb by assumption. discriminate.
    + rewrite isupper_char_shifted in Ha by assumption. discriminate.
  - intros E. right. left. split; [reflexivity | now symmetry].
  - intros [E | [[_ E] | [F _]]]; subst; try congruence.
  - intros E. right. right. split; [reflexivity | assumption].
  - intros [E | [[F _] | [_ E]]]; subst; try congruence.
  - intros E. now left.
  - intros [E | [[F _] | [F _]]]; subst; congruence.
Qed.

Lemma lower_eq_iff (s t : string) :
  PyStr.lower s = PyStr.lower t <-> PyStr.eq_ignore_case s t.
Proof.
  revert t. induction s as [| a s IH]; intros [| b t]; simpl; split; intros H.
  - constructor.
  - reflexivity.
  - discriminate.
  - inversion H.
  - discriminate.
  - inversion H.
  - injection H as Hc Hs. constructor.
    + now apply lower_char_eq_iff.
    + now apply IH.
  - inversion H; subst. f_equal.
    + now apply lower_char_eq_iff.
    + now apply IH.
Qed.

Lemma url_matches_iff (url : string) (sub : UrlSubstitution) :
  url_matches url sub = true <-> PyStr.eq_ignore_case url (rule_url sub).
Proof.
  unfold url_matches. rewrite String.eqb_eq. apply lower_eq_iff.
Qed.

(** ** The URL substitution policy *)

Lemma get_url_substitution_filter (url : string) (R : list UrlSubstitution) :
  get_url_substitution_from_list url R =
  match List.filter (url_matches url) R with
  | [] => None
  | r :: _ => Some (rule_sub r)
  end.
Proof.
  induction R as [| r R IH]; simpl; [reflexivity |].
  fold (url_matches url r). destruct (url_matches url r); [reflexivity | exact IH].
Qed.

(** C4.  For every url [u] and rule list [R], [get_url_substitution_from_list]
    returns the replacement of the first rule of [R] whose url equals [u] up
    to the case of letters (same length, position by position the same
    character or the two cases of one letter: no wildcard, no pattern), and
    [None] when no rule of [R] matches.  It is a function of [u] and [R]
    alone: it runs in no world and produces no event. *)
Theorem C4_first_case_insensitive_match :
  forall (u : string) (R : list UrlSubstitution),
    match get_url_substitution_from_list u R with
    | Some s =>
        exists R1 r R2,
          R = (R1 ++ r :: R2)%list /\
          Forall (fun x => ~ PyStr.eq_ignore_case u (rule_url x)) R1 /\
          PyStr.eq_ignore_case u (rule_url r) /\
          s = rule_sub r
    | None => Forall (fun x => ~ PyStr.eq_ignore_case u (rule_url x)) R
    end.
Proof.
  intros u R. induction R as [| r R IH]; simpl.
  - constructor.
  - fold (url_matches u r). destruct (url_matches u r) eqn:Hm.
    + exists [], r, R. repeat split; [constructor | now apply url_matches_iff].
    + assert (Hn : ~ PyStr.eq_ignore_case u (rule_url r)).
      { intros H. apply url_matches_iff in H. congruence. }
      destruct (get_url_substitution_from_list u R) as [s |].
      * destruct IH as (R1 & r' & R2 & -> & Hall & Hr & ->).
        exists (r :: R1), r', R2. repeat split; [now constructor | assumption].
      * now constructor.
Qed.

(** C7.  Reordering the rules that do not match [u] (a permutation of the
    list that leaves the matching rules as they stand, in their order) does
    not change the result.  Nor does a second copy of the matching rule:
    a copy of the first rule that matches [u], wherever it is put in the
    list, and a copy of any rule put anywhere after the rule itself. *)
Theorem C7_reorder_and_duplicate :
  (forall (u : string) (R R' : list UrlSubstitution),
      Permutation R R' ->
      List.filter (url_matches u) R = List.filter (url_matches u) R' ->
      get_url_substitution_from_list u R' = get_url_substitution_from_list u R)
  /\
  (forall (u : string) (R1 R2 A B : list UrlSubstitution) (r : UrlSubstitution),
      Forall (fun x => url_matches u x = false) R1 ->
      url_matches u r = true ->
      (R1 ++ r :: R2 = A ++ B)%list ->
      get_url_substitution_from_list u (A ++ r :: B) =
      get_url_substitution_from_list u (A ++ B))
  /\
  (forall (u : string) (A B C : list UrlSubstitution) (r : UrlSubstitution),
      get_url_substitution_from_list u (A ++ r :: B ++ r :: C) =
      get_url_substitution_from_list u (A ++ r :: B ++ C)).
Proof.
  split; [| split].
  - intros u R R' _ Hf. rewrite !get_url_substitution_filter. now rewrite Hf.
  - intros u R1 R2 A B r Hall Hr E.
    assert (Hfirst : exists rest, List.filter (url_matches u) (A ++ B) = r :: rest).
    { rewrite <- E. rewrite List.filter_app. simpl. rewrite Hr.
      exists (List.filter (url_matches u) R2).
      replace (List.filter (url_matches u) R1) with (@nil UrlSubstitution); [reflexivity |].
      clear E. induction Hall as [| x l Hx _ IH]; simpl; [reflexivity |].
      now rewrite Hx. }
    destruct Hfirst as [rest Hrest].
    rewrite !get_url_substitution_filter, Hrest.
    rewrite List.filter_app in *. simpl. rewrite Hr.
    destruct (List.filter (url_matches u) A) as [| a fa] eqn:HA.
    + reflexivity.
    + simpl in *. congruence.
  - intros u A B C r. rewrite !get_url_substitution_filter.
    rewrite !List.filter_app. simpl. rewrite !List.filter_app. simpl.
    destruct (url_matches u r); [| reflexivity].
    destruct (List.filter (url_matches u) A); reflexivity.
Qed.

(** ** Traces *)

Lemma no_failed_cmd_app (t1 t2 : list Event) :
  no_failed_cmd (t1 ++ t2) = no_failed_cmd t1 && no_failed_cmd t2.
Proof. apply forallb_app. Qed.

Lemma only_logs_app (t1 t2 : list Event) :
  only_logs (t1 ++ t2) = only_logs t1 && only_logs t2.
Proof. apply forallb_app. Qed.

Lemma Aborted_app_l (t1 t2 : list Event) :
  no_failed_cmd t1 = true -> Aborted t2 -> Aborted (t1 ++ t2).
Proof.
  intros H1 (pre & c & rc & post & -> & Hrc & Hpre & Hpost).
  exists (t1 ++ pre)%list, c, rc, post. repeat split; try assumption.
  - now rewrite <- app_assoc.
  - rewrite no_failed_cmd_app, H1, Hpre. reflexivity.
Qed.

Lemma Aborted_app_r (t l : list Event) :
  Aborted t -> only_logs l = true -> Aborted (t ++ l).
Proof.
  intros (pre & c & rc & post & -> & Hrc & Hpre & Hpost) Hl.
  exists pre, c, rc, (post ++ l)%list. repeat split; try assumption.
  - now rewrite <- app_assoc.
  - rewrite only_logs_app, Hpost, Hl. reflexivity.
Qed.

(** The failing command of an aborted run is the only one, and nothing but
    log lines follows it. *)
Lemma Aborted_unique (t pre : list Event) (c : Cmd) (rc : Z) (post : list Event) :
  Aborted t -> t = (pre ++ ERun c rc :: post)%list -> rc <> 0 ->
  no_failed_cmd pre = true /\ only_logs post = true.
Proof.
  intros (pre' & c' & rc' & post' & -> & Hrc' & Hpre' & Hpost') E Hrc.
  revert pre E. induction pre' as [| e pre' IH]; intros pre E.
  - destruct pre as [| e pre]; simpl in E.
    + injection E as _ _ <-. now split.
    + injection E as <- E. exfalso.
      assert (H : only_logs (pre ++ ERun c rc :: post) = true) by now rewrite <- E.
      rewrite only_logs_app in H. simpl in H. now rewrite andb_false_r in H.
  - simpl in Hpre'. apply andb_true_iff in Hpre'. destruct Hpre' as [He Hpre'].
    destruct pre as [| e0 pre]; simpl in E.
    + injection E as -> _. simpl in He. apply Z.eqb_neq in Hrc.
      rewrite Hrc in He. discriminate.
    + injection E as <- E. destruct (IH Hpre' pre E) as [H1 H2].
      split; [| assumption]. simpl. now rewrite He, H1.
Qed.

(** ** Computations *)

Section Computations.
Context {W : Type}.

Lemma ret_sat {A} (p : Event -> bool) (a : A) : events_sat p (@ret W A a).
Proof. intros w. reflexivity. Qed.

Lemma raise_sat {A} (p : Event -> bool) (e : exn) : events_sat p (@raise W A e).
Proof. intros w. reflexivity. Qed.

Lemma out_of_fuel_sat {A} (p : Event -> bool) : events_sat p (@out_of_fuel W A).
Proof. intros w. reflexivity. Qed.

Lemma emit_sat (p : Event -> bool) (e : Event) :
  p e = true -> events_sat p (@emit W e).
Proof. intros H w. simpl. now rewrite H. Qed.

Lemma bind_sat {A B} (p : Event -> bool) (m : M W A) (f : A -> M W B) :
  events_sat p m -> (forall a, events_sat p (f a)) -> events_sat p (bind m f).
Proof.
  intros Hm Hf w. unfold bind. specialize (Hm w).
  destruct (m w) as [[[a | e |] w1] t1]; simpl in *; try assumption.
  specialize (Hf a w1). destruct (f a w1) as [[o2 w2] t2]. simpl in *.
  rewrite forallb_app, Hm, Hf. reflexivity.
Qed.

Lemma try_except_sat {A} (p : Event -> bool) (catches : exn -> bool)
    (m : M W A) (handler : exn -> M W A) :
  events_sat p m -> (forall e, events_sat p (handler e)) ->
  events_sat p (try_except catches m handler).
Proof.
  intros Hm Hh w. unfold try_except. specialize (Hm w).
  destruct (m w) as [[[a | e |] w1] t1]; simpl in *; try assumption.
  destruct (catches e); simpl; [| assumption].
  specialize (Hh e w1). destruct (handler e w1) as [[o2 w2] t2]. simpl in *.
  rewrite forallb_app, Hm, Hh. reflexivity.
Qed.

Lemma for_each_sat {A} (p : Event -> bool) (l : list A) (body : A -> M W unit) :
  (forall x, events_sat p (body x)) -> events_sat p (for_each l body).
Proof.
  intros Hb. induction l as [| x l IH]; simpl.
  - apply ret_sat.
  - apply bind_sat; [apply Hb | intros _; exact IH].
Qed.

Lemma for_each_or_false_sat {A} (p : Event -> bool) (l : list A)
    (f : A -> M W bool) :
  (forall x, events_sat p (f x)) -> events_sat p (for_each_or_false l f).
Proof.
  intros Hf. induction l as [| x l IH]; simpl.
  - apply ret_sat.
  - apply bind_sat; [apply Hf |]. intros [|]; [exact IH | apply ret_sat].
Qed.

Lemma extends_refl {A} (m : M W A) : extends m m.
Proof. intros w _. reflexivity. Qed.

Lemma bind_extends {A B} (m m' : M W A) (f f' : A -> M W B) :
  extends m m' -> (forall a, extends (f a) (f' a)) ->
  extends (bind m f) (bind m' f').
Proof.
  intros Hm Hf w. unfold bind. specialize (Hm w).
  destruct (m w) as [[[a | e |] w1] t1]; simpl in *; intros Hne.
  - rewrite Hm by discriminate. specialize (Hf a w1).
    destruct (f a w1) as [[o2 w2] t2]. simpl in *. now rewrite Hf.
  - now rewrite Hm by discriminate.
  - contradiction.
Qed.

Lemma try_except_extends {A} (catches : exn -> bool) (m m' : M W A)
    (handler : exn -> M W A) :
  extends m m' -> extends (try_except catches m handler)
                          (try_except catches m' handler).
Proof.
  intros Hm w. unfold try_except. specialize (Hm w).
  destruct (m w) as [[[a | e |] w1] t1]; simpl in *; intros Hne.
  - now rewrite Hm by discriminate.
  - now rewrite Hm by discriminate.
  - contradiction.
Qed.

Lemma for_each_extends {A} (l : list A) (body body' : A -> M W unit) :
  (forall x, extends (body x) (body' x)) ->
  extends (for_each l body) (for_each l body').
Proof.
  intros Hb. induction l as [| x l IH]; simpl.
  - apply extends_refl.
  - apply bind_extends; [apply Hb | intros _; exact IH].
Qed.

Lemma for_each_or_false_extends {A} (l : list A) (f f' : A -> M W bool) :
  (forall x, extends (f x) (f' x)) ->
  extends (for_each_or_false l f) (for_each_or_false l f').
Proof.
  intros Hf. induction l as [| x l IH]; simpl.
  - apply extends_refl.
  - apply bind_extends; [apply Hf |]. intros [|]; [exact IH | apply extends_refl].
Qed.

End Computations.

(** ** The special setup *)

Section Edk2SetupProofs.
Context {W : Type} (P : Platform W).

Lemma for_each_or_false_inv {A} (f : A -> M W bool) :
  (forall x w, walk_inv (f x w)) ->
  forall l w, walk_inv (for_each_or_false l f w).
Proof.
  intros Hf l. induction l as [| x l IH]; intros w; simpl.
  - reflexivity.
  - unfold bind. specialize (Hf x w).
    destruct (f x w) as [[[[|] | e |] w1] t1]; simpl in *; try assumption.
    + specialize (IH w1).
      destruct (for_each_or_false l f w1) as [[[[|] | e |] w2] t2]; simpl in *;
        try (rewrite no_failed_cmd_app, Hf, IH; reflexivity).
      now apply Aborted_app_l.
    + rewrite app_nil_r. assumption.
Qed.

Lemma options_get_pure (options : list (string * string)) (key : string) (w : W) :
  exists o, options_get options key w = (o, w, []).
Proof.
  induction options as [| [k v] rest IH]; simpl.
  - now exists (Raise (KeyError key)).
  - destruct (String.eqb k key); [now exists (Ret v) | exact IH].
Qed.

Lemma submodules_of_sections_pure (sections : list ConfigSection) (w : W) :
  exists o, submodules_of_sections sections w = (o, w, []).
Proof.
  induction sections as [| s rest IH]; simpl.
  - now exists (Ret []).
  - unfold bind.
    destruct (options_get_pure (section_options s) "path" w) as [[p | e |] ->];
      eauto.
    destruct (options_get_pure (section_options s) "url" w) as [[u | e |] ->];
      eauto.
    destruct IH as [[r | e |] ->]; simpl; eauto.
Qed.

Lemma get_repo_submodules_events (repo_path : string) (w : W) :
  exists o, get_repo_submodules P repo_path w =
            (o, w, [EReadFile (os_path_join P repo_path ".gitmodules")]).
Proof.
  unfold get_repo_submodules, bind, read_config.
  destruct (configparser_read P _ w) as [e | sections]; eauto.
  destruct (submodules_of_sections_pure sections w) as [o ->]. eauto.
Qed.

Lemma walk_inv_prefix (pre : list Event) (o : Outcome bool) (w : W) (t : list Event) :
  no_failed_cmd pre = true -> walk_inv (o, w, t) -> walk_inv (o, w, (pre ++ t)%list).
Proof.
  intros Hpre H. destruct o as [[|] | e |]; simpl in *;
    try (rewrite no_failed_cmd_app, Hpre, H; reflexivity).
  now apply Aborted_app_l.
Qed.

Lemma Aborted_here (pre : list Event) (c : Cmd) (rc : Z) (post : list Event) :
  no_failed_cmd pre = true -> (rc =? 0) = false -> only_logs post = true ->
  Aborted (pre ++ ERun c rc :: post).
Proof.
  intros Hpre Hrc Hpost. exists pre, c, rc, post.
  repeat split; try assumption. now apply Z.eqb_neq.
Qed.

Lemma special_init_submodule_inv (fuel : nat) :
  forall root_path sm cfg recursive w,
    walk_inv (special_init_submodule P fuel root_path sm cfg recursive w).
Proof.
  induction fuel as [| fuel IH]; intros root_path sm cfg recursive w.
  - reflexivity.
  - cbn [special_init_submodule].
    set (repo_path := os_path_normpath P (os_path_join P root_path (sm_path sm))).
    assert (Hinit : forall w0,
      walk_inv (init_then_nested P fuel root_path sm cfg recursive w0)).
    { intros w0. unfold init_then_nested. fold repo_path. unfold bind at 1. unfold RunCmd.
      destruct (run_cmd P _ w0) as [[rc out] w1]. cbn [andb fst].
      destruct (rc =? 0) eqn:Hrc; cbn [negb].
      - destruct recursive.
        + unfold bind.
          destruct (get_repo_submodules_events repo_path w1) as [o ->].
          destruct o as [sms | e |]; simpl; try (now rewrite Hrc).
          pose proof (for_each_or_false_inv _ (fun x w => IH repo_path x cfg true w) sms w1) as H.
          destruct (for_each_or_false _ _ w1) as [[o3 w3] t3].
          apply (walk_inv_prefix [ERun _ rc; EReadFile _]); [| exact H].
          simpl. now rewrite Hrc.
        + simpl. now rewrite Hrc.
      - simpl. now apply (Aborted_here []). }
    unfold bind at 1. cbn [log_progress emit].
    unfold bind at 1.
    destruct (get_url_substitution_from_list _ _) as [u |].
    + unfold bind at 1. unfold RunCmd at 1.
      destruct (run_cmd P _ w) as [[rc out] w1]. cbn [andb fst].
      destruct (rc =? 0) eqn:Hrc; cbn [negb].
      * cbn [ret negb]. specialize (Hinit w1). unfold init_then_nested in Hinit.
        fold repo_path in Hinit.
        destruct (bind _ _ w1) as [[o2 w2] t2].
        apply (walk_inv_prefix [ELog _ _; ERun _ rc]); [| exact Hinit].
        simpl. now rewrite Hrc.
      * simpl. now apply (Aborted_here [ELog _ _]).
    + cbn [ret negb]. specialize (Hinit w). unfold init_then_nested in Hinit.
      fold repo_path in Hinit.
      destruct (bind _ _ w) as [[o2 w2] t2].
      apply (walk_inv_prefix [ELog _ _]); [| exact Hinit]. reflexivity.
Qed.

Lemma for_each_inv {A} (f : A -> M W unit) :
  (forall x w, setup_inv (f x w)) ->
  forall l w, setup_inv (for_each l f w).
Proof.
  intros Hf l. induction l as [| x l IH]; intros w; simpl.
  - reflexivity.
  - unfold bind. specialize (Hf x w).
    destruct (f x w) as [[[[] | e |] w1] t1]; simpl in *; try assumption.
    specialize (IH w1).
    destruct (for_each l f w1) as [[[[] | e |] w2] t2]; simpl in *;
      try (rewrite no_failed_cmd_app, Hf, IH; reflexivity).
    destruct IH as [[He Ha] | Hn].
    + left. split; [assumption | now apply Aborted_app_l].
    + right. rewrite no_failed_cmd_app, Hf, Hn. reflexivity.
Qed.

Lemma SpecialSetup_body_inv (fuel : nat) (root_path : string)
    (cfg : SpecialConfig) (required_submodules : list RequiredSubmodule)
    (sm : SubmoduleInfo) (req_sm : RequiredSubmodule) (w : W) :
  setup_inv
    ((if String.eqb (sm_path sm) (req_path req_sm) then
        ok <- special_init_submodule P fuel root_path sm cfg (req_recursive req_sm) ;;
        if negb ok then
          raise (RuntimeError ("failed to init '" ++
                               os_path_join P root_path (sm_path sm) ++ "'"))
        else ret tt
      else ret tt) w).
Proof.
  destruct (String.eqb _ _); [| reflexivity].
  unfold bind.
  pose proof (special_init_submodule_inv fuel root_path sm cfg (req_recursive req_sm) w) as H.
  destruct (special_init_submodule _ _ _ _ _ _ w) as [[[[|] | e |] w1] t1];
    simpl in *; rewrite ?app_nil_r; auto.
Qed.

Lemma SpecialSetup_inv (fuel : nat) (self : Edk2PlatformSetup)
    (special_config_path : string) (required_submodules : list RequiredSubmodule)
    (w : W) :
  match SpecialSetup P fuel self special_config_path required_submodules w with
  | (o, _, t) => (o = Ret (-1) /\ Aborted t) \/ no_failed_cmd t = true
  end.
Proof.
  unfold SpecialSetup. unfold bind at 1. cbn [log_progress emit].
  unfold bind at 1. unfold load_special_config.
  destruct (yaml_load P special_config_path w) as [e | cfg]; [now right |].
  unfold try_except. unfold bind at 1.
  destruct (get_repo_submodules_events (GetWorkspaceRoot self) w) as [o ->].
  destruct o as [subs | e |]; [| destruct (is_RuntimeError e); now right | now right].
  unfold bind at 1.
  pose proof (for_each_inv _
    (fun sm w0 => for_each_inv _
       (fun req_sm w1 =>
          SpecialSetup_body_inv fuel (GetWorkspaceRoot self) cfg
            required_submodules sm req_sm w1) required_submodules w0) subs w) as H.
  destruct (for_each subs _ w) as [[[[] | e |] w1] t1]; simpl in H.
  - right. simpl. rewrite no_failed_cmd_app, H. reflexivity.
  - destruct H as [[He Ha] | Hn].
    + rewrite He. left. simpl. split; [reflexivity |].
      apply (Aborted_app_l [ELog _ _; EReadFile _]); [reflexivity |].
      apply (Aborted_app_l [EReadFile _]); [reflexivity |].
      apply (Aborted_app_r t1); [assumption | reflexivity].
    + destruct (is_RuntimeError e); right; simpl;
        rewrite ?no_failed_cmd_app, Hn; reflexivity.
  - right. simpl. exact H.
Qed.

Lemma RunCmd_sat (p : Event -> bool) (cmd parameters : string)
    (workingdir : option string) (raise_exception_on_nonzero : bool) :
  (forall rc, p (ERun (mk_cmd cmd parameters workingdir) rc) = true) ->
  events_sat p (RunCmd P cmd parameters workingdir raise_exception_on_nonzero).
Proof.
  intros H w. unfold RunCmd. destruct (run_cmd P _ w) as [[rc out] w1].
  destruct (_ && _); simpl; now rewrite H.
Qed.

Lemma read_config_sat (p : Event -> bool) (file : string) :
  p (EReadFile file) = true -> events_sat p (read_config P file).
Proof.
  intros H w. unfold read_config.
  destruct (configparser_read P file w); simpl; now rewrite H.
Qed.

Lemma load_special_config_sat (p : Event -> bool) (path : string) :
  p (EReadFile path) = true -> events_sat p (load_special_config P path).
Proof.
  intros H w. unfold load_special_config.
  destruct (yaml_load P path w); simpl; now rewrite H.
Qed.

Lemma path_exists_sat (p : Event -> bool) (path : string) :
  (forall b, p (EExists path b) = true) -> events_sat p (path_exists P path).
Proof. intros H w. simpl. now rewrite H. Qed.

Lemma get_repo_submodules_sat (p : Event -> bool) (repo_path : string) :
  p (EReadFile (os_path_join P repo_path ".gitmodules")) = true ->
  events_sat p (get_repo_submodules P repo_path).
Proof.
  intros H w. destruct (get_repo_submodules_events repo_path w) as [o ->].
  simpl. now rewrite H.
Qed.

Ltac sat_step :=
  lazymatch goal with
  | |- events_sat _ (bind _ _) => apply bind_sat; [| intros ?]
  | |- events_sat _ (ret _) => apply ret_sat
  | |- events_sat _ (raise _) => apply raise_sat
  | |- events_sat _ out_of_fuel => apply out_of_fuel_sat
  | |- events_sat _ (emit _) => apply emit_sat; reflexivity
  | |- events_sat _ (log_progress _) => apply emit_sat; reflexivity
  | |- events_sat _ (logging_info _) => apply emit_sat; reflexivity
  | |- events_sat _ (logging_error _) => apply emit_sat; reflexivity
  | |- events_sat _ (RunCmd _ _ _ _ _) => apply RunCmd_sat; intros ?; reflexivity
  | |- events_sat _ (get_repo_submodules _ _) =>
      apply get_repo_submodules_sat; reflexivity
  | |- events_sat _ (load_special_config _ _) =>
      apply load_special_config_sat; reflexivity
  | |- events_sat _ (try_except _ _ _) => apply try_except_sat; [| intros ?]
  | |- events_sat _ (for_each _ _) => apply for_each_sat; intros ?
  | |- events_sat _ (for_each_or_false _ _) => apply for_each_or_false_sat; intros ?
  | |- events_sat _ (if ?b then _ else _) => destruct b
  | |- events_sat _ (match ?x with _ => _ end) => destruct x
  end.



Lemma check_git_version_no_inspection : events_sat no_inspection (check_git_version P).
Proof. unfold check_git_version. repeat sat_step. Qed.

Lemma force_clean_no_inspection (self : Edk2PlatformSetup) :
  events_sat no_inspection (force_clean P self).
Proof. unfold force_clean. repeat sat_step. Qed.

(** What [special_init_submodule] does first, with a url to substitute. *)
Lemma special_init_submodule_set_url (fuel : nat) (root_path : string)
    (sm : SubmoduleInfo) (cfg : SpecialConfig) (recursive : bool) (w : W)
    (url_sub : string) (rc : Z) (out : string) (w1 : W) :
  let repo_path := os_path_normpath P (os_path_join P root_path (sm_path sm)) in
  get_url_substitution_from_list (sm_url sm) (url_substitutions cfg) = Some url_sub ->
  run_cmd P (set_url_cmd root_path sm url_sub) w = (rc, out, w1) ->
  special_init_submodule P (S fuel) root_path sm cfg recursive w =
  if rc =? 0 then
    let '(o, w2, t) := init_then_nested P fuel root_path sm cfg recursive w1 in
    (o, w2,
     ELog PROGRESS ("## Special init of repo '" ++ repo_path ++ "'")
       :: ERun (set_url_cmd root_path sm url_sub) rc :: t)
  else
    (Ret false, w1,
     [ELog PROGRESS ("## Special init of repo '" ++ repo_path ++ "'");
      ERun (set_url_cmd root_path sm url_sub) rc;
      ELog ERROR ("Failed to update url for " ++ repo_path);
      ELog ERROR ("-- From: " ++ sm_url sm);
      ELog ERROR ("-- To: " ++ url_sub)]).
Proof.
  intros repo_path Hsub Hrun. cbn [special_init_submodule]. rewrite Hsub.
  unfold bind at 1. cbn [log_progress emit]. unfold bind at 1. unfold bind at 1.
  unfold RunCmd at 1. unfold set_url_cmd in Hrun. rewrite Hrun. cbn [andb fst].
  destruct (rc =? 0); cbn [negb]; [| reflexivity].
  cbn [ret negb]. fold repo_path. unfold init_then_nested. fold repo_path.
  match goal with |- context [bind ?m ?f w1] => destruct (bind m f w1) as [[o w2] t] end.
  reflexivity.
Qed.

(** The same with no url to substitute. *)
Lemma special_init_submodule_no_url (fuel : nat) (root_path : string)
    (sm : SubmoduleInfo) (cfg : SpecialConfig) (recursive : bool) (w : W) :
  let repo_path := os_path_normpath P (os_path_join P root_path (sm_path sm)) in
  get_url_substitution_from_list (sm_url sm) (url_substitutions cfg) = None ->
  special_init_submodule P (S fuel) root_path sm cfg recursive w =
  let '(o, w2, t) := init_then_nested P fuel root_path sm cfg recursive w in
  (o, w2, ELog PROGRESS ("## Special init of repo '" ++ repo_path ++ "'") :: t).
Proof.
  intros repo_path Hsub. cbn [special_init_submodule]. rewrite Hsub.
  unfold bind at 1. cbn [log_progress emit]. unfold bind at 1.
  cbn [ret negb]. fold repo_path. unfold init_then_nested. fold repo_path.
  match goal with |- context [bind ?m ?f w] => destruct (bind m f w) as [[o w2] t] end.
  reflexivity.
Qed.

(** The init command is the first event of [init_then_nested]. *)
Lemma init_then_nested_head (fuel : nat) (root_path : string)
    (sm : SubmoduleInfo) (cfg : SpecialConfig) (recursive : bool) (w : W) :
  exists rc rest,
    snd (init_then_nested P fuel root_path sm cfg recursive w) =
    ERun (init_cmd root_path sm) rc :: rest.
Proof.
  unfold init_then_nested, bind at 1, RunCmd.
  destruct (run_cmd P _ w) as [[rc out] w1]. cbn [andb fst].
  exists rc. fold (init_cmd root_path sm).
  match goal with |- context [(if ?b then ?m1 else ?m2) w1] =>
    destruct ((if b then m1 else m2) w1) as [[o w2] t] end.
  now exists t.
Qed.

(** C6.  When the url of a submodule record matches a substitution rule,
    the first command of [special_init_submodule] is the url rewrite
    ([git submodule set-url]) for it, before any init.  When the rewrite
    returns a nonzero code, the call returns [False] and only log lines
    follow the rewrite: the init command is not issued.  When it returns
    zero, the init command of the submodule comes next. *)
Theorem C6_url_rewrite_before_init :
  forall (fuel : nat) (root_path : string) (sm : SubmoduleInfo)
         (cfg : SpecialConfig) (recursive : bool) (w : W)
         (url_sub : string) (rc : Z) (out : string) (w1 : W),
    get_url_substitution_from_list (sm_url sm) (url_substitutions cfg)
      = Some url_sub ->
    run_cmd P (set_url_cmd root_path sm url_sub) w = (rc, out, w1) ->
    exists log rest,
      snd (special_init_submodule P (S fuel) root_path sm cfg recursive w) =
        ELog PROGRESS log :: ERun (set_url_cmd root_path sm url_sub) rc :: rest /\
      (rc <> 0 ->
       fst (special_init_submodule P (S fuel) root_path sm cfg recursive w) =
         (Ret false, w1) /\
       only_logs rest = true) /\
      (rc = 0 ->
       exists rc' rest', rest = ERun (init_cmd root_path sm) rc' :: rest').
Proof.
  intros fuel root_path sm cfg recursive w url_sub rc out w1 Hsub Hrun.
  rewrite (special_init_submodule_set_url fuel root_path sm cfg recursive w
             url_sub rc out w1 Hsub Hrun).
  destruct (rc =? 0) eqn:Hrc.
  - destruct (init_then_nested_head fuel root_path sm cfg recursive w1)
      as (rc' & rest' & Hhead).
    destruct (init_then_nested P fuel root_path sm cfg recursive w1)
      as [[o w2] t]. simpl in Hhead. subst t.
    eexists _, _. split; [reflexivity |]. split.
    + intros Hne. apply Z.eqb_eq in Hrc. contradiction.
    + intros _. now exists rc', rest'.
  - eexists _, _. split; [reflexivity |]. split.
    + intros _. now split.
    + intros ->. discriminate.
Qed.




(** More fuel changes nothing of a walk that did not run out of it. *)
Lemma special_init_submodule_fuel (fuel : nat) :
  forall root_path sm cfg recursive,
    extends (special_init_submodule P fuel root_path sm cfg recursive)
            (special_init_submodule P (S fuel) root_path sm cfg recursive).
Proof.
  induction fuel as [| fuel IH]; intros root_path sm cfg recursive.
  - intros w H. now contradiction H.
  - cbn [special_init_submodule].
    apply bind_extends; [apply extends_refl | intros _].
    apply bind_extends; [apply extends_refl | intros url_ok].
    destruct (negb url_ok); [apply extends_refl |].
    apply bind_extends; [apply extends_refl | intros r].
    destruct (negb (fst r =? 0)); [apply extends_refl |].
    destruct recursive; [| apply extends_refl].
    apply bind_extends; [apply extends_refl | intros submodules].
    apply for_each_or_false_extends. intros sm0. apply IH.
Qed.

Lemma SpecialSetup_fuel (fuel : nat) (self : Edk2PlatformSetup)
    (special_config_path : string) (required_submodules : list RequiredSubmodule) :
  extends (SpecialSetup P fuel self special_config_path required_submodules)
          (SpecialSetup P (S fuel) self special_config_path required_submodules).
Proof.
  unfold SpecialSetup.
  apply bind_extends; [apply extends_refl | intros _].
  apply bind_extends; [apply extends_refl | intros cfg].
  apply try_except_extends.
  apply bind_extends; [apply extends_refl | intros root_submodules].
  apply bind_extends; [| intros _; apply extends_refl].
  apply for_each_extends. intros sm. apply for_each_extends. intros req_sm.
  destruct (String.eqb _ _); [| apply extends_refl].
  apply bind_extends; [apply special_init_submodule_fuel | intros ok].
  apply extends_refl.
Qed.

Lemma SpecialSetup_fuel_le (fuel fuel' : nat) (self : Edk2PlatformSetup)
    (special_config_path : string) (required_submodules : list RequiredSubmodule)
    (w : W) :
  (fuel <= fuel')%nat ->
  fst (fst (SpecialSetup P fuel self special_config_path required_submodules w))
    <> OutOfFuel ->
  SpecialSetup P fuel' self special_config_path required_submodules w =
  SpecialSetup P fuel self special_config_path required_submodules w.
Proof.
  intros Hle Hne. induction Hle as [| fuel' Hle IH]; [reflexivity |].
  rewrite <- IH. apply SpecialSetup_fuel. now rewrite IH.
Qed.

(** C1.  In a run of [SpecialSetup], when a command (the init of a
    submodule, at any depth of the walk, or a url rewrite) returns a nonzero
    code, it is the last thing the run does to the repositories: only log
    lines follow it (no init at a deeper level, no [.gitmodules] read, no work
    on the siblings left), every command before it succeeded, and
    [SpecialSetup] returns the negative status [-1].  The run is then the
    same with any larger recursion budget. *)
Theorem C1_special_setup_stops_at_first_failure :
  forall (fuel : nat) (self : Edk2PlatformSetup) (special_config_path : string)
         (required_submodules : list RequiredSubmodule) (w : W)
         (pre post : list Event) (c : Cmd) (rc : Z),
    snd (SpecialSetup P fuel self special_config_path required_submodules w)
      = (pre ++ ERun c rc :: post)%list ->
    rc <> 0 ->
    only_logs post = true /\
    no_failed_cmd pre = true /\
    fst (fst (SpecialSetup P fuel self special_config_path required_submodules w))
      = Ret (-1) /\
    (forall fuel', (fuel <= fuel')%nat ->
       SpecialSetup P fuel' self special_config_path required_submodules w =
       SpecialSetup P fuel self special_config_path required_submodules w).
Proof.
  intros fuel self path reqs w pre post c rc Ht Hrc.
  pose proof (SpecialSetup_inv fuel self path reqs w) as H.
  assert (Hmain :
    only_logs post = true /\ no_failed_cmd pre = true /\
    fst (fst (SpecialSetup P fuel self path reqs w)) = Ret (-1)).
  { destruct (SpecialSetup P fuel self path reqs w) as [[o w'] t].
    simpl in Ht |- *. destruct H as [[-> Ha] | Hn].
    - destruct (Aborted_unique t pre c rc post Ha Ht Hrc) as [H1 H2].
      repeat split; assumption.
    - exfalso. subst t. rewrite no_failed_cmd_app in Hn. simpl in Hn.
      apply Z.eqb_neq in Hrc. rewrite Hrc in Hn. simpl in Hn.
      now rewrite andb_false_r in Hn. }
  destruct Hmain as (H1 & H2 & H3). repeat split; try assumption.
  intros fuel' Hle. apply SpecialSetup_fuel_le; [assumption |].
  rewrite H3. discriminate.
Qed.

(** ** The standard mode *)

Lemma for_each_cons_ret {A} (body : A -> M W unit) (x : A) (l : list A)
    (w w1 : W) (t : list Event) :
  body x w = (Ret tt, w1, t) ->
  for_each (x :: l) body w =
  let '(o, w2, t2) := for_each l body w1 in (o, w2, (t ++ t2)%list).
Proof. intros H. simpl. unfold bind. now rewrite H. Qed.

(** The iteration of STEP 2 on a submodule that exists, is not forced and
    has a diff. *)
Lemma Go_step2_skip (self : Edk2PlatformSetup) (sm : RequiredSubmodule)
    (w : W) (out : string) (w1 : W) :
  force_it self = false ->
  os_path_exists P (required_submodule_path P self sm) w = true ->
  run_cmd P (diff_cmd self sm) w = (0, out, w1) ->
  PyStr.strip out <> "" ->
  Go_step2 P self sm w = (Ret tt, w1, skip_events P self sm).
Proof.
  intros Hforce Hexists Hrun Hout.
  unfold Go_step2, try_except, bind, path_exists, RunCmd, log_progress,
    logging_info, emit, ret.
  unfold required_submodule_path in Hexists. rewrite Hexists, Hforce.
  unfold diff_cmd in Hrun. cbn [andb negb]. rewrite Hrun. cbn [andb negb snd Z.eqb].
  apply String.eqb_neq in Hout. rewrite Hout. reflexivity.
Qed.

(** The same when the diff command fails. *)
Lemma Go_step2_diff_fails (self : Edk2PlatformSetup) (sm : RequiredSubmodule)
    (w : W) (rc : Z) (out : string) (w1 : W) :
  force_it self = false ->
  os_path_exists P (required_submodule_path P self sm) w = true ->
  run_cmd P (diff_cmd self sm) w = (rc, out, w1) ->
  rc <> 0 ->
  let e := run_cmd_error P (diff_cmd self sm) rc in
  let checked :=
    [ELog PROGRESS ("## Checking Git repository: " ++ req_path sm ++ "...");
     EExists (required_submodule_path P self sm) true;
     ERun (diff_cmd self sm) rc] in
  Go_step2 P self sm w =
  if is_RuntimeError e then
    (Ret tt, w1,
     (checked ++
      [ELog ERROR ("FAILED!" ++ nl);
       ELog ERROR ("Failed to fetch required repository!" ++ nl);
       ELog ERROR (exn_str e)])%list)
  else (Raise e, w1, checked).
Proof.
  intros Hforce Hexists Hrun Hrc e checked. subst e checked.
  unfold Go_step2, try_except, bind, path_exists, RunCmd, log_progress,
    logging_error, emit, ret.
  unfold required_submodule_path in *. rewrite Hexists, Hforce.
  unfold diff_cmd in *. cbn [andb negb]. rewrite Hrun.
  apply Z.eqb_neq in Hrc. rewrite Hrc. cbn [andb negb].
  destruct (is_RuntimeError _); reflexivity.
Qed.

Lemma In_skip_events_not_fetch (self : Edk2PlatformSetup) (sm : RequiredSubmodule)
    (c : Cmd) (rc : Z) :
  In (ERun c rc) (skip_events P self sm) -> is_fetch_cmd c = false.
Proof.
  unfold skip_events. simpl.
  intros [H | [H | [H | [H | [H | [H | []]]]]]]; try discriminate.
  injection H as <- _. reflexivity.
Qed.

(** C2, as the code has it.  In an iteration of STEP 2 (standard mode) for a
    required submodule whose path exists, with force off, when the diff
    command succeeds and its output is not empty once the white space around
    it is stripped: the iteration returns normally in the world the diff
    left, its events are the check, the diff and the log lines of the skip,
    none of its commands is a fetch, and the loop goes on with the
    submodules that follow. *)
Theorem C2_dirty_submodule_is_skipped :
  forall (self : Edk2PlatformSetup) (sm : RequiredSubmodule)
         (rest : list RequiredSubmodule) (w : W) (out : string) (w1 : W),
    force_it self = false ->
    os_path_exists P (required_submodule_path P self sm) w = true ->
    run_cmd P (diff_cmd self sm) w = (0, out, w1) ->
    PyStr.strip out <> "" ->
    Go_step2 P self sm w = (Ret tt, w1, skip_events P self sm) /\
    (forall c rc, In (ERun c rc) (snd (Go_step2 P self sm w)) ->
                  is_fetch_cmd c = false) /\
    for_each (sm :: rest) (Go_step2 P self) w =
      (let '(o, w2, t) := for_each rest (Go_step2 P self) w1 in
       (o, w2, (skip_events P self sm ++ t)%list)).
Proof.
  intros self sm rest w out w1 Hforce Hexists Hrun Hout.
  pose proof (Go_step2_skip self sm w out w1 Hforce Hexists Hrun Hout) as E.
  split; [exact E |]. split.
  - rewrite E. simpl snd. apply In_skip_events_not_fetch.
  - now apply for_each_cons_ret.
Qed.

(** C8.  In an iteration of STEP 2 for a required submodule whose path
    exists, with force off, when the diff command returns a nonzero code:
    [RunCmd] raises, and the iteration ends there.  Its events are the check
    and the failed diff, followed by the three error lines of the handler
    when the exception is a [RuntimeError]; otherwise the exception leaves
    the iteration.  Either way no fetch command is issued: the submodule is
    not taken for clean. *)
Theorem C8_failed_diff_is_an_error :
  forall (self : Edk2PlatformSetup) (sm : RequiredSubmodule) (w : W)
         (rc : Z) (out : string) (w1 : W),
    force_it self = false ->
    os_path_exists P (required_submodule_path P self sm) w = true ->
    run_cmd P (diff_cmd self sm) w = (rc, out, w1) ->
    rc <> 0 ->
    let e := run_cmd_error P (diff_cmd self sm) rc in
    let checked :=
      [ELog PROGRESS ("## Checking Git repository: " ++ req_path sm ++ "...");
       EExists (required_submodule_path P self sm) true;
       ERun (diff_cmd self sm) rc] in
    Go_step2 P self sm w =
      (if is_RuntimeError e then
         (Ret tt, w1,
          (checked ++
           [ELog ERROR ("FAILED!" ++ nl);
            ELog ERROR ("Failed to fetch required repository!" ++ nl);
            ELog ERROR (exn_str e)])%list)
       else (Raise e, w1, checked)) /\
    (forall c rc', In (ERun c rc') (snd (Go_step2 P self sm w)) ->
                   is_fetch_cmd c = false).
Proof.
  intros self sm w rc out w1 Hforce Hexists Hrun Hrc e checked.
  pose proof (Go_step2_diff_fails self sm w rc out w1 Hforce Hexists Hrun Hrc) as E.
  cbv zeta in E. fold e in E. fold checked in E.
  split; [exact E |]. rewrite E. intros c rc'.
  destruct (is_RuntimeError e); subst checked; simpl;
    intros H; decompose [or] H; try discriminate; try contradiction;
    match goal with H : ERun _ _ = ERun _ _ |- _ => injection H as <- _ end;
    reflexivity.
Qed.

Lemma check_git_version_before_sync : events_sat before_sync (check_git_version P).
Proof. unfold check_git_version. repeat sat_step. Qed.

Lemma force_clean_before_sync (self : Edk2PlatformSetup) :
  events_sat before_sync (force_clean P self).
Proof. unfold force_clean. repeat sat_step. Qed.

Lemma Go_step2_not_sync (self : Edk2PlatformSetup) (sm : RequiredSubmodule) :
  events_sat (fun e => negb (runs is_sync_cmd e)) (Go_step2 P self sm).
Proof.
  unfold Go_step2. repeat first [sat_step | apply path_exists_sat; reflexivity].
Qed.

(** STEP 1, by the return code of the sync command. *)
Lemma Go_step1_eq (self : Edk2PlatformSetup) (w : W) (rc : Z) (out : string) (w1 : W) :
  run_cmd P (sync_cmd self) w = (rc, out, w1) ->
  let e := run_cmd_error P (sync_cmd self) rc in
  let syncing :=
    ELog PROGRESS ("## Syncing Git repositories: " ++
                   PyStr.join " " (map req_path (GetRequiredSubmodules self)) ++ "...") in
  Go_step1 P self w =
  if rc =? 0 then
    (Ret true, w1, [syncing; ERun (sync_cmd self) rc; ELog PROGRESS ("Done." ++ nl)])
  else if is_RuntimeError e then
    (Ret false, w1,
     [syncing; ERun (sync_cmd self) rc;
      ELog ERROR ("FAILED!" ++ nl);
      ELog ERROR "Error while trying to synchronize the environment!";
      ELog ERROR (exn_str e)])
  else (Raise e, w1, [syncing; ERun (sync_cmd self) rc]).
Proof.
  intros Hrun e syncing. subst e syncing.
  unfold Go_step1, try_except, bind, RunCmd, log_progress, logging_error, emit, ret.
  unfold sync_cmd, sync_params in *. rewrite Hrun. cbn [andb].
  destruct (rc =? 0); cbn [negb]; [reflexivity |].
  destruct (is_RuntimeError _); reflexivity.
Qed.

(** The three ways a [Go] of the standard mode goes: it ends before the
    sync, the sync fails, or the sync succeeds and the loop of STEP 2 runs. *)
Lemma Go_standard_shape (fuel : nat) (self : Edk2PlatformSetup) (w : W) :
  special_file self = None ->
  match Go P fuel self w with
  | (o, w', t) =>
      forallb before_sync t = true
      \/
      (exists pre rc post,
          t = (pre ++ ERun (sync_cmd self) rc :: post)%list /\
          rc <> 0 /\ forallb before_sync pre = true /\ only_logs post = true /\
          (o = Ret None \/ o = Raise (run_cmd_error P (sync_cmd self) rc)))
      \/
      (exists pre w1,
          forallb before_sync pre = true /\
          (o, w', t) =
          let '(o2, w2, t2) :=
            for_each (GetRequiredSubmodules self) (Go_step2 P self) w1 in
          (match o2 with
           | Ret _ => Ret (Some 0)
           | Raise e => Raise e
           | OutOfFuel => OutOfFuel
           end, w2,
           (pre ++ ERun (sync_cmd self) 0 :: ELog PROGRESS ("Done." ++ nl) :: t2)%list))
  end.
Proof.
  intros Hfile. unfold Go. rewrite Hfile. unfold bind at 1.
  pose proof (check_git_version_before_sync w) as H1.
  destruct (check_git_version P w) as [[[[] | e |] w1] t1]; simpl in H1;
    [| now left | now left].
  unfold bind at 1.
  assert (H2 : forallb before_sync
                 (snd ((if force_it self then force_clean P self else ret true) w1))
               = true).
  { destruct (force_it self); [apply force_clean_before_sync | reflexivity]. }
  destruct ((if force_it self then force_clean P self else ret true) w1)
    as [[[cleaned | e |] w2] t2]; simpl in H2;
    [| left; simpl; now rewrite forallb_app, H1, H2
     | left; simpl; now rewrite forallb_app, H1, H2].
  destruct cleaned; cbn [negb];
    [| left; simpl; now rewrite !forallb_app, H1, H2].
  destruct (GetRequiredSubmodules self) as [| r rs] eqn:Hreqs;
    [left; simpl; now rewrite !forallb_app, H1, H2 |].
  rewrite <- Hreqs. unfold bind at 1.
  destruct (run_cmd P (sync_cmd self) w2) as [[rc out] w3] eqn:Hrun.
  rewrite (Go_step1_eq self w2 rc out w3 Hrun). cbv zeta.
  destruct (rc =? 0) eqn:Hrc.
  - apply Z.eqb_eq in Hrc. subst rc. cbn [negb]. unfold bind.
    destruct (for_each (GetRequiredSubmodules self) (Go_step2 P self) w3)
      as [[o4 w4] t4] eqn:Hloop.
    assert (Hpre : forallb before_sync
                     (t1 ++ t2 ++
                      [ELog PROGRESS
                         ("## Syncing Git repositories: " ++
                          PyStr.join " " (map req_path (GetRequiredSubmodules self)) ++
                          "...")]) = true).
    { rewrite !forallb_app, H1, H2. reflexivity. }
    destruct o4 as [[] | e |]; right; right; eexists _, w3;
      (split; [exact Hpre |]); rewrite Hloop; simpl;
      rewrite <- ?app_assoc, ?app_nil_r; reflexivity.
  - apply Z.eqb_neq in Hrc.
    destruct (is_RuntimeError _); simpl; right; left.
    + eexists (t1 ++ t2 ++ [_])%list, rc, _. split.
      * rewrite <- !app_assoc. simpl. reflexivity.
      * repeat split; try assumption; [| now left].
        rewrite !forallb_app, H1, H2. reflexivity.
    + eexists (t1 ++ t2 ++ [_])%list, rc, []. split.
      * rewrite <- !app_assoc. simpl. reflexivity.
      * repeat split; try assumption; [| now right].
        rewrite !forallb_app, H1, H2. reflexivity.
Qed.

Lemma before_sync_run (c : Cmd) (rc : Z) :
  before_sync (ERun c rc) = true ->
  is_sync_cmd c = false /\ is_fetch_cmd c = false /\ is_diff_cmd c = false.
Proof.
  unfold before_sync. simpl. intros H.
  apply andb_true_iff in H. destruct H as [H H3].
  apply andb_true_iff in H. destruct H as [H1 H2].
  now rewrite negb_true_iff in H1, H2, H3.
Qed.

Lemma forallb_In (p : Event -> bool) (t : list Event) (e : Event) :
  forallb p t = true -> In e t -> p e = true.
Proof. intros H. rewrite forallb_forall in H. apply H. Qed.

Lemma In_middle (pre post : list Event) (e x : Event) :
  In e (pre ++ x :: post) -> In e pre \/ e = x \/ In e post.
Proof.
  intros H. apply in_app_or in H. destruct H as [H | [H | H]]; auto.
Qed.

Lemma Go_step2_loop_not_sync (self : Edk2PlatformSetup)
    (l : list RequiredSubmodule) :
  events_sat (fun e => negb (runs is_sync_cmd e)) (for_each l (Go_step2 P self)).
Proof. apply for_each_sat. intros sm. apply Go_step2_not_sync. Qed.

(** C3.  In the standard mode ([Go] with no special file), when a sync
    command returns a nonzero code: it is the one sync command of the run,
    for all the required paths; only log lines follow it; no sync, fetch or
    diff command and no existence test comes before it; so the run has no
    fetch command at all; and [Go] ends at once, by the bare [return] of the
    handler or by the exception of [RunCmd] if it is not a [RuntimeError]. *)
Theorem C3_failed_sync_aborts :
  forall (fuel : nat) (self : Edk2PlatformSetup) (w : W) (c : Cmd) (rc : Z),
    special_file self = None ->
    In (ERun c rc) (snd (Go P fuel self w)) ->
    is_sync_cmd c = true ->
    rc <> 0 ->
    c = sync_cmd self /\
    (exists pre post,
        snd (Go P fuel self w) = (pre ++ ERun c rc :: post)%list /\
        forallb before_sync pre = true /\ only_logs post = true) /\
    (forall c' rc', In (ERun c' rc') (snd (Go P fuel self w)) ->
                    is_fetch_cmd c' = false) /\
    (fst (fst (Go P fuel self w)) = Ret None \/
     fst (fst (Go P fuel self w)) = Raise (run_cmd_error P c rc)).
Proof.
  intros fuel self w c rc Hfile Hin Hsync Hrc.
  pose proof (Go_standard_shape fuel self w Hfile) as Hshape.
  destruct (Go P fuel self w) as [[o w'] t]. cbn [fst snd] in *.
  destruct Hshape as [Hquiet | [(pre & rc0 & post & -> & Hrc0 & Hpre & Hpost & Ho)
                               | (pre & w1 & Hpre & E)]].
  - apply (forallb_In _ _ _ Hquiet) in Hin. apply before_sync_run in Hin.
    destruct Hin as [Hin _]. congruence.
  - apply In_middle in Hin. destruct Hin as [Hin | [Hin | Hin]].
    + apply (forallb_In _ _ _ Hpre) in Hin. apply before_sync_run in Hin.
      destruct Hin as [Hin _]. congruence.
    + injection Hin as -> ->. split; [reflexivity |]. split.
      * now exists pre, post.
      * split; [| exact Ho].
        intros c' rc' Hin'. apply In_middle in Hin'.
        destruct Hin' as [Hin' | [Hin' | Hin']].
        -- apply (forallb_In _ _ _ Hpre) in Hin'. now apply before_sync_run in Hin'.
        -- injection Hin' as -> _. reflexivity.
        -- apply (forallb_In _ _ _ Hpost) in Hin'. discriminate.
    + apply (forallb_In _ _ _ Hpost) in Hin. discriminate.
  - pose proof (Go_step2_loop_not_sync self (GetRequiredSubmodules self) w1) as Hloop.
    destruct (for_each (GetRequiredSubmodules self) (Go_step2 P self) w1)
      as [[o2 w2] t2]. injection E as _ _ ->. cbn [snd] in Hloop.
    apply In_middle in Hin. destruct Hin as [Hin | [Hin | [Hin | Hin]]].
    + apply (forallb_In _ _ _ Hpre) in Hin. apply before_sync_run in Hin.
      destruct Hin as [Hin _]. congruence.
    + injection Hin as _ ->. contradiction.
    + discriminate.
    + apply (forallb_In _ _ _ Hloop) in Hin. simpl in Hin.
      rewrite Hsync in Hin. discriminate.
Qed.








End Edk2SetupProofs.

(** ** What a special setup covers *)

Section SpecialCoverage.
Context {W : Type} (P : Platform W).







End SpecialCoverage.

(** ** DownloadNuget *)

Section NugetProofs.
Context (N : Nuget.Net).

Ltac nuget_unfold :=
  unfold Nuget.DownloadNuget, try_except, bind, Nuget.isfile, Nuget.download,
    Nuget.read_file, Nuget.os_remove, logging_error, emit, raise, ret.

(** [DownloadNuget] when the file is there already. *)
Lemma DownloadNuget_existing (unpack_folder : option string) (disk : Nuget.Disk)
    (data : list Byte.byte) :
  let out := nuget_out_file N unpack_folder in
  disk !! out = Some data ->
  Nuget.DownloadNuget N unpack_folder disk =
  if sha256_matches N data
  then (Ret tt, disk, [EExists out true; EReadFile out])
  else (Raise (sha256_mismatch N data), delete out disk,
        [EExists out true; EReadFile out; ERemove out]).
Proof.
  intros out Hdisk. nuget_unfold. fold (nuget_out_file N unpack_folder). fold out.
  rewrite Hdisk. cbn [negb]. rewrite Hdisk. fold (sha256_matches N data).
  destruct (sha256_matches N data); cbn [negb]; [reflexivity |].
  rewrite Hdisk. reflexivity.
Qed.

(** [DownloadNuget] when the file is not there and the download succeeds. *)
Lemma DownloadNuget_downloaded (unpack_folder : option string) (disk : Nuget.Disk)
    (data : list Byte.byte) :
  let out := nuget_out_file N unpack_folder in
  disk !! out = None ->
  Nuget.urlopen N Nuget.URL = inr (inr data) ->
  Nuget.open_wb_error N out = None ->
  Nuget.DownloadNuget N unpack_folder disk =
  if sha256_matches N data
  then (Ret tt, <[out := data]> disk,
        [EExists out false; EUrlopen Nuget.URL; EWriteFile out; EReadFile out])
  else (Raise (sha256_mismatch N data), delete out (<[out := data]> disk),
        [EExists out false; EUrlopen Nuget.URL; EWriteFile out; EReadFile out;
         ERemove out]).
Proof.
  intros out Hdisk Hurl Hopen. nuget_unfold.
  fold (nuget_out_file N unpack_folder). fold out.
  rewrite Hdisk, Hurl, Hopen. cbn [negb]. rewrite lookup_insert_eq.
  fold (sha256_matches N data).
  destruct (sha256_matches N data); cbn [negb]; [reflexivity |].
  rewrite lookup_insert_eq. reflexivity.
Qed.

(** [DownloadNuget] when the file is not there and the download fails: the
    exception leaves the call, and the file is not read. *)
Lemma DownloadNuget_download_fails (unpack_folder : option string)
    (disk : Nuget.Disk) :
  let out := nuget_out_file N unpack_folder in
  disk !! out = None ->
  (forall data, Nuget.urlopen N Nuget.URL = inr (inr data) ->
                Nuget.open_wb_error N out <> None) ->
  (exists e, fst (fst (Nuget.DownloadNuget N unpack_folder disk)) = Raise e) /\
  ~ In (EReadFile out) (snd (Nuget.DownloadNuget N unpack_folder disk)) /\
  ~ In (ERemove out) (snd (Nuget.DownloadNuget N unpack_folder disk)).
Proof.
  intros out Hdisk Hfail. nuget_unfold.
  fold (nuget_out_file N unpack_folder). fold out. rewrite Hdisk. cbn [negb].
  destruct (Nuget.urlopen N Nuget.URL) as [e | [e | data]].
  - destruct (is_HTTPError e); simpl; (split; [now exists e |]);
      split; intros H; decompose [or] H; discriminate || contradiction.
  - destruct (Nuget.open_wb_error N out) as [e' |];
      [destruct (is_HTTPError e') | destruct (is_HTTPError e)]; simpl;
      (split; [eexists; reflexivity |]);
      split; intros H; decompose [or] H; discriminate || contradiction.
  - specialize (Hfail data eq_refl).
    destruct (Nuget.open_wb_error N out) as [e' |]; [| contradiction].
    destruct (is_HTTPError e'); simpl; (split; [now exists e' |]);
      split; intros H; decompose [or] H; discriminate || contradiction.
Qed.

(** The three cases of a call. *)
Lemma DownloadNuget_cases (unpack_folder : option string) (disk : Nuget.Disk) :
  let out := nuget_out_file N unpack_folder in
  let r := Nuget.DownloadNuget N unpack_folder disk in
  (exists data disk1 pre,
      disk1 !! out = Some data /\
      r = if sha256_matches N data
          then (Ret tt, disk1, (pre ++ [EReadFile out])%list)
          else (Raise (sha256_mismatch N data), delete out disk1,
                (pre ++ [EReadFile out; ERemove out])%list))
  \/
  (disk !! out = None /\
   (exists e, fst (fst r) = Raise e) /\
   ~ In (EReadFile out) (snd r) /\ ~ In (ERemove out) (snd r)).
Proof.
  intros out r. subst r. destruct (disk !! out) as [data |] eqn:Hdisk.
  - left. exists data, disk, [EExists out true]. split; [assumption |].
    rewrite (DownloadNuget_existing unpack_folder disk data Hdisk).
    fold out. destruct (sha256_matches N data); reflexivity.
  - destruct (Nuget.urlopen N Nuget.URL) as [e | [e | data]] eqn:Hurl;
      [right | right |];
      try (split; [reflexivity |];
           apply (DownloadNuget_download_fails unpack_folder disk Hdisk);
           intros data' Hd; congruence).
    destruct (Nuget.open_wb_error N out) as [e |] eqn:Hopen.
    + right. split; [reflexivity |].
      apply (DownloadNuget_download_fails unpack_folder disk Hdisk).
      intros data' _. fold out. congruence.
    + left. exists data, (<[out := data]> disk),
        [EExists out false; EUrlopen Nuget.URL; EWriteFile out].
      split; [apply lookup_insert_eq |].
      rewrite (DownloadNuget_downloaded unpack_folder disk data Hdisk Hurl Hopen).
      fold out. destruct (sha256_matches N data); reflexivity.
Qed.

(** C9.  For every call of [DownloadNuget], with [out] the path of
    [NuGet.exe] in the target folder.  When [out] is a file already: nothing
    is downloaded and nothing is written, the file is read and its SHA256
    compared; the call returns with the disk unchanged when the digest is the
    pinned one up to case, and otherwise removes the file and raises the
    [RuntimeError].  In every call that reads the file for the comparison
    and finds another digest, the removal is the last event, the
    [RuntimeError] is raised after it, and [out] is not on the disk the call
    leaves; a file the call leaves at [out] has the pinned digest, unless
    the download failed and the comparison never ran. *)
Theorem C9_nuget_verified_or_removed :
  forall (unpack_folder : option string) (disk : Nuget.Disk),
    let out := nuget_out_file N unpack_folder in
    let r := Nuget.DownloadNuget N unpack_folder disk in
    (forall data,
        disk !! out = Some data ->
        (forall url, ~ In (EUrlopen url) (snd r)) /\
        ~ In (EWriteFile out) (snd r) /\
        r = if sha256_matches N data
            then (Ret tt, disk, [EExists out true; EReadFile out])
            else (Raise (sha256_mismatch N data), delete out disk,
                  [EExists out true; EReadFile out; ERemove out]))
    /\
    (In (EReadFile out) (snd r) ->
     exists data pre,
       (sha256_matches N data = true /\
        fst (fst r) = Ret tt /\
        snd (fst r) !! out = Some data /\
        snd r = (pre ++ [EReadFile out])%list)
       \/
       (sha256_matches N data = false /\
        fst (fst r) = Raise (sha256_mismatch N data) /\
        snd (fst r) !! out = None /\
        snd r = (pre ++ [EReadFile out; ERemove out])%list))
    /\
    (forall data,
        snd (fst r) !! out = Some data ->
        sha256_matches N data = true \/
        (~ In (EReadFile out) (snd r) /\ exists e, fst (fst r) = Raise e)).
Proof.
  intros unpack_folder disk out r. split; [| split].
  - intros data Hdisk. subst r.
    rewrite (DownloadNuget_existing unpack_folder disk data Hdisk). fold out.
    destruct (sha256_matches N data); simpl;
      (split; [intros url H; decompose [or] H; discriminate || contradiction |]);
      (split; [intros H; decompose [or] H; discriminate || contradiction |]);
      reflexivity.
  - intros Hread.
    destruct (DownloadNuget_cases unpack_folder disk)
      as [(data & disk1 & pre & Hd & E) | (_ & _ & Hno & _)];
      [| contradiction].
    fold out in Hd, E. fold r in E. exists data, pre. rewrite E.
    destruct (sha256_matches N data); simpl.
    + left. repeat split. exact Hd.
    + right. repeat split. apply lookup_delete_eq.
  - intros data Hleft.
    destruct (DownloadNuget_cases unpack_folder disk)
      as [(data' & disk1 & pre & Hd & E) | (_ & He & Hno & _)].
    + fold out in Hd, E. fold r in E. rewrite E in Hleft.
      destruct (sha256_matches N data') eqn:Hm; simpl in Hleft.
      * left. congruence.
      * rewrite lookup_delete_eq in Hleft. discriminate.
    + right. split; assumption.
Qed.

End NugetProofs.

(** * Further properties *)

(** ** The URL substitution policy *)

(** X1.  Over two lists of rules put end to end, the rules of the first
    list come first: the result is that of the first list when it has a
    match, and that of the second list otherwise. *)
Theorem X1_substitution_of_app :
  forall (u : string) (R1 R2 : list UrlSubstitution),
    get_url_substitution_from_list u (R1 ++ R2) =
    match get_url_substitution_from_list u R1 with
    | Some s => Some s
    | None => get_url_substitution_from_list u R2
    end.
Proof.
  intros u R1 R2. induction R1 as [| r R1 IH]; simpl; [reflexivity |].
  destruct (String.eqb _ _); [reflexivity | exact IH].
Qed.


(** ** Strings *)










(** ** get_repo_submodules *)

Section RepoSubmodules.
Context {W : Type} (P : Platform W).










End RepoSubmodules.

(** ** The special setup, further *)

Section ComputationsAll.
Context {W : Type}.

Lemma ret_all {A} (Q : Event -> Prop) (a : A) : events_all Q (@ret W A a).
Proof. intros w. constructor. Qed.

Lemma emit_all (Q : Event -> Prop) (e : Event) : Q e -> events_all Q (@emit W e).
Proof. intros H w. simpl. now repeat constructor. Qed.

Lemma bind_all {A B} (Q : Event -> Prop) (m : M W A) (f : A -> M W B) :
  events_all Q m -> (forall a, events_all Q (f a)) -> events_all Q (bind m f).
Proof.
  intros Hm Hf w. unfold bind. specialize (Hm w).
  destruct (m w) as [[[a | e |] w1] t1]; simpl in *; try assumption.
  specialize (Hf a w1). destruct (f a w1) as [[o2 w2] t2]. simpl in *.
  apply Forall_app. now split.
Qed.

Lemma try_except_all {A} (Q : Event -> Prop) (catches : exn -> bool)
    (m : M W A) (handler : exn -> M W A) :
  events_all Q m -> (forall e, events_all Q (handler e)) ->
  events_all Q (try_except catches m handler).
Proof.
  intros Hm Hh w. unfold try_except. specialize (Hm w).
  destruct (m w) as [[[a | e |] w1] t1]; simpl in *; try assumption.
  destruct (catches e); simpl; [| assumption].
  specialize (Hh e w1). destruct (handler e w1) as [[o2 w2] t2]. simpl in *.
  apply Forall_app. now split.
Qed.



End ComputationsAll.

Section SpecialFurther.
Context {W : Type} (P : Platform W).


Lemma RunCmd_all (Q : Event -> Prop) (cmd parameters : string)
    (workingdir : option string) (raise_exception_on_nonzero : bool) :
  (forall rc, Q (ERun (mk_cmd cmd parameters workingdir) rc)) ->
  events_all Q (RunCmd P cmd parameters workingdir raise_exception_on_nonzero).
Proof.
  intros H w. unfold RunCmd. destruct (run_cmd P _ w) as [[rc out] w1].
  destruct (_ && _); simpl; repeat constructor; apply H.
Qed.




Lemma for_each_or_false_quiet {A} (f : A -> M W bool) :
  (forall x w, quiet_inv (f x w)) ->
  forall l w, quiet_inv (for_each_or_false l f w).
Proof.
  intros Hf l. induction l as [| x l IH]; intros w; simpl.
  - intros _. reflexivity.
  - unfold bind. specialize (Hf x w).
    destruct (f x w) as [[[[|] | e |] w1] t1]; unfold quiet_inv in *; simpl in *;
      try discriminate.
    specialize (IH w1).
    destruct (for_each_or_false l f w1) as [[o2 w2] t2]. simpl in *.
    intros H. rewrite forallb_app, (Hf eq_refl), (IH H). reflexivity.
Qed.

Lemma init_then_nested_quiet (fuel : nat) (root_path : string)
    (sm : SubmoduleInfo) (cfg : SpecialConfig) (recursive : bool) (w : W) :
  (forall root_path sm cfg recursive w,
      quiet_inv (special_init_submodule P fuel root_path sm cfg recursive w)) ->
  quiet_inv (init_then_nested P fuel root_path sm cfg recursive w).
Proof.
  intros IH. unfold init_then_nested. unfold bind at 1. unfold RunCmd.
  destruct (run_cmd P _ w) as [[rc out] w1]. cbn [andb fst].
  destruct (rc =? 0); cbn [negb]; [| intros H; discriminate H].
  destruct recursive; [| intros _; reflexivity].
  unfold bind.
  destruct (get_repo_submodules_events P
              (os_path_normpath P (os_path_join P root_path (sm_path sm))) w1)
    as [o ->].
  destruct o as [subs | e |]; try (intros H; discriminate H).
  pose proof (for_each_or_false_quiet _
                (fun x w0 => IH (os_path_normpath P
                                   (os_path_join P root_path (sm_path sm)))
                                x cfg true w0) subs w1) as Hq.
  destruct (for_each_or_false subs _ w1) as [[o2 w2] t2].
  unfold quiet_inv in *. simpl in *. exact Hq.
Qed.

Lemma special_init_submodule_quiet (fuel : nat) :
  forall root_path sm cfg recursive w,
    quiet_inv (special_init_submodule P fuel root_path sm cfg recursive w).
Proof.
  induction fuel as [| fuel IH]; intros root_path sm cfg recursive w.
  - intros H. discriminate H.
  - pose proof (init_then_nested_quiet fuel root_path sm cfg recursive) as Hn.
    destruct (get_url_substitution_from_list (sm_url sm) (url_substitutions cfg))
      as [url_sub |] eqn:Hsub.
    + destruct (run_cmd P (set_url_cmd root_path sm url_sub) w)
        as [[rc out] w1] eqn:Hrun.
      rewrite (special_init_submodule_set_url P fuel root_path sm cfg recursive w
                 url_sub rc out w1 Hsub Hrun).
      destruct (rc =? 0); [| intros H; discriminate H].
      specialize (Hn w1 IH).
      destruct (init_then_nested P fuel root_path sm cfg recursive w1)
        as [[o w2] t]. exact Hn.
    + rewrite (special_init_submodule_no_url P fuel root_path sm cfg recursive w Hsub).
      specialize (Hn w IH).
      destruct (init_then_nested P fuel root_path sm cfg recursive w)
        as [[o w2] t]. exact Hn.
Qed.

Lemma for_each_loops_ok {A} (body : A -> M W unit) :
  (forall x w, loops_ok (body x w)) ->
  forall l w, loops_ok (for_each l body w).
Proof.
  intros Hb l. induction l as [| x l IH]; intros w; simpl.
  - intros _. now split.
  - unfold bind. specialize (Hb x w).
    destruct (body x w) as [[[[] | e |] w1] t1]; unfold loops_ok in *; simpl in *;
      try discriminate.
    specialize (IH w1). destruct (for_each l body w1) as [[o2 w2] t2]. simpl in *.
    intros H. destruct (Hb eq_refl) as [H1 H2]. destruct (IH H) as [H3 H4].
    rewrite no_failed_cmd_app, forallb_app, H1, H2, H3, H4. now split.
Qed.

Lemma SpecialSetup_body_ok (fuel : nat) (root_path : string)
    (cfg : SpecialConfig) (sm : SubmoduleInfo) (req_sm : RequiredSubmodule) (w : W) :
  loops_ok
    ((if String.eqb (sm_path sm) (req_path req_sm) then
        ok <- special_init_submodule P fuel root_path sm cfg (req_recursive req_sm) ;;
        if negb ok then
          raise (RuntimeError ("failed to init '" ++
                               os_path_join P root_path (sm_path sm) ++ "'"))
        else ret tt
      else ret tt) w).
Proof.
  destruct (String.eqb _ _); [| intros _; now split].
  unfold bind.
  pose proof (special_init_submodule_inv P fuel root_path sm cfg
                (req_recursive req_sm) w) as H1.
  pose proof (special_init_submodule_quiet fuel root_path sm cfg
                (req_recursive req_sm) w) as H2.
  destruct (special_init_submodule P fuel root_path sm cfg (req_recursive req_sm) w)
    as [[[[|] | e |] w1] t1]; unfold loops_ok, quiet_inv in *; simpl in *;
    try discriminate.
  intros _. rewrite app_nil_r. split; [exact H1 | exact (H2 eq_refl)].
Qed.

Lemma SpecialSetup_status (fuel : nat) (self : Edk2PlatformSetup)
    (special_config_path : string) (required_submodules : list RequiredSubmodule)
    (w : W) :
  match SpecialSetup P fuel self special_config_path required_submodules w with
  | (Ret status, _, t) =>
      (status = 0 /\ no_failed_cmd t = true /\ forallb no_error_log t = true) \/
      (status = -1 /\ In (ELog ERROR ("FAILED!" ++ nl)) t)
  | _ => True
  end.
Proof.
  unfold SpecialSetup. unfold bind at 1. cbn [log_progress emit].
  unfold bind at 1. unfold load_special_config.
  destruct (yaml_load P special_config_path w) as [e | cfg]; [exact I |].
  unfold try_except. unfold bind at 1.
  destruct (get_repo_submodules_events P (GetWorkspaceRoot self) w) as [o ->].
  destruct o as [subs | e |];
    [| destruct (is_RuntimeError e); simpl;
       [right; split; [reflexivity | do 3 right; left; reflexivity] | exact I]
     | exact I].
  unfold bind at 1.
  pose proof (for_each_loops_ok _
    (fun sm w0 => for_each_loops_ok _
       (fun req_sm w1 =>
          SpecialSetup_body_ok fuel (GetWorkspaceRoot self) cfg sm req_sm w1)
       required_submodules w0) subs w) as Hok.
  destruct (for_each subs _ w) as [[[[] | e |] w1] t1]; unfold loops_ok in Hok;
    simpl in Hok.
  - simpl. left. destruct (Hok eq_refl) as [H1 H2].
    rewrite no_failed_cmd_app, forallb_app, H1, H2. now repeat split.
  - destruct (is_RuntimeError e); simpl; [| exact I].
    right. split; [reflexivity |]. do 3 right. apply in_or_app. right. now left.
  - exact I.
Qed.

(** X7.  [SpecialSetup] returns 0 or -1 and nothing else.  When it returns
    0, every command it ran returned zero and no error line was logged; when
    it returns -1 the log holds the line FAILED!. *)
Theorem X7_special_setup_status :
  forall (fuel : nat) (self : Edk2PlatformSetup) (special_config_path : string)
         (required_submodules : list RequiredSubmodule) (w : W) (status : Z),
    fst (fst (SpecialSetup P fuel self special_config_path required_submodules w))
      = Ret status ->
    (status = 0 \/ status = -1) /\
    (status = 0 ->
     no_failed_cmd
       (snd (SpecialSetup P fuel self special_config_path required_submodules w))
       = true /\
     forallb no_error_log
       (snd (SpecialSetup P fuel self special_config_path required_submodules w))
       = true) /\
    (status = -1 ->
     In (ELog ERROR ("FAILED!" ++ nl))
        (snd (SpecialSetup P fuel self special_config_path required_submodules w))).
Proof.
  intros fuel self path reqs w status.
  pose proof (SpecialSetup_status fuel self path reqs w) as H.
  destruct (SpecialSetup P fuel self path reqs w) as [[o w'] t].
  cbn [fst snd]. intros ->.
  destruct H as [(-> & H1 & H2) | (-> & H3)].
  - split; [now left |]. split; [now split | discriminate].
  - split; [now right |]. split; [discriminate | now intros _].
Qed.


Lemma for_each_noop {A} (body : A -> M W unit) (l : list A) (w : W) :
  (forall x, In x l -> body x w = (Ret tt, w, [])) ->
  for_each l body w = (Ret tt, w, []).
Proof.
  induction l as [| x l IH]; intros H; simpl; [reflexivity |].
  unfold bind. rewrite (H x (or_introl eq_refl)).
  rewrite IH; [reflexivity |]. intros y Hy. apply H. now right.
Qed.

(** X9.  A required submodule that the [.gitmodules] of the root does not
    list is passed over in silence: when no submodule of the root has the
    path of a required submodule, [SpecialSetup] runs no command, logs no
    error and returns 0. *)
Theorem X9_unlisted_required_is_passed_over :
  forall (fuel : nat) (self : Edk2PlatformSetup) (special_config_path : string)
         (required_submodules : list RequiredSubmodule) (w : W)
         (cfg : SpecialConfig) (root_submodules : list SubmoduleInfo),
    yaml_load P special_config_path w = inr cfg ->
    fst (fst (get_repo_submodules P (GetWorkspaceRoot self) w)) = Ret root_submodules ->
    (forall sm req_sm,
        In sm root_submodules -> In req_sm required_submodules ->
        sm_path sm <> req_path req_sm) ->
    SpecialSetup P fuel self special_config_path required_submodules w =
    (Ret 0, w,
     [ELog PROGRESS ("## Performing a special setup using file: " ++
                     special_config_path);
      EReadFile special_config_path;
      EReadFile (os_path_join P (GetWorkspaceRoot self) ".gitmodules")]).
Proof.
  intros fuel self path reqs w cfg subs Hload Hsubs Hne.
  unfold SpecialSetup. unfold bind at 1. cbn [log_progress emit].
  unfold bind at 1. unfold load_special_config. rewrite Hload.
  unfold try_except. unfold bind at 1.
  destruct (get_repo_submodules_events P (GetWorkspaceRoot self) w) as [o E].
  rewrite E in Hsubs |- *. cbn [fst] in Hsubs. subst o.
  unfold bind at 1. rewrite for_each_noop; [reflexivity |].
  intros sm Hsm. apply for_each_noop. intros req_sm Hreq.
  specialize (Hne sm req_sm Hsm Hreq). apply String.eqb_neq in Hne.
  now rewrite Hne.
Qed.

(** [init_then_nested] with no recursion. *)
Lemma init_then_nested_flat (fuel : nat) (root_path : string)
    (sm : SubmoduleInfo) (cfg : SpecialConfig) (w : W) (rc : Z) (out : string)
    (w1 : W) :
  run_cmd P (init_cmd root_path sm) w = (rc, out, w1) ->
  init_then_nested P fuel root_path sm cfg false w =
  if rc =? 0 then (Ret true, w1, [ERun (init_cmd root_path sm) rc])
  else (Ret false, w1,
        [ERun (init_cmd root_path sm) rc;
         ELog ERROR ("Failed to initialize repo " ++
                     os_path_normpath P (os_path_join P root_path (sm_path sm)))]).
Proof.
  intros Hrun. unfold init_then_nested, bind, RunCmd, logging_error, emit, ret.
  unfold init_cmd in Hrun. rewrite Hrun. cbn [andb fst].
  destruct (rc =? 0); reflexivity.
Qed.

(** X10.  Without recursion [special_init_submodule] stays in the
    repository it was given: it reads no [.gitmodules] file, the only
    commands it runs are the url rewrite and the init of its own submodule,
    and one level of recursion budget is all it uses. *)
Theorem X10_init_without_recursion :
  forall (fuel : nat) (root_path : string) (sm : SubmoduleInfo)
         (cfg : SpecialConfig) (w : W),
    special_init_submodule P (S fuel) root_path sm cfg false w =
      special_init_submodule P 1 root_path sm cfg false w /\
    (forall file,
        ~ In (EReadFile file)
             (snd (special_init_submodule P (S fuel) root_path sm cfg false w))) /\
    (forall c rc,
        In (ERun c rc)
           (snd (special_init_submodule P (S fuel) root_path sm cfg false w)) ->
        c = init_cmd root_path sm \/
        exists url_sub,
          get_url_substitution_from_list (sm_url sm) (url_substitutions cfg)
            = Some url_sub /\
          c = set_url_cmd root_path sm url_sub).
Proof.
  intros fuel root_path sm cfg w. split; [reflexivity |].
  destruct (get_url_substitution_from_list (sm_url sm) (url_substitutions cfg))
    as [url_sub |] eqn:Hsub.
  - destruct (run_cmd P (set_url_cmd root_path sm url_sub) w)
      as [[rc out] w1] eqn:Hrun.
    rewrite (special_init_submodule_set_url P fuel root_path sm cfg false w
               url_sub rc out w1 Hsub Hrun).
    destruct (run_cmd P (init_cmd root_path sm) w1) as [[rc2 out2] w2] eqn:Hrun2.
    rewrite (init_then_nested_flat fuel root_path sm cfg w1 rc2 out2 w2 Hrun2).
    destruct (rc =? 0), (rc2 =? 0); simpl; split;
      try (intros file H; decompose [or] H; discriminate || contradiction);
      intros c rc' H; decompose [or] H; try discriminate; try contradiction;
      match goal with E : ERun _ _ = ERun _ _ |- _ => injection E as <- _ end;
      (now left) || (right; now exists url_sub).
  - rewrite (special_init_submodule_no_url P fuel root_path sm cfg false w Hsub).
    destruct (run_cmd P (init_cmd root_path sm) w) as [[rc2 out2] w2] eqn:Hrun2.
    rewrite (init_then_nested_flat fuel root_path sm cfg w rc2 out2 w2 Hrun2).
    destruct (rc2 =? 0); simpl; split;
      try (intros file H; decompose [or] H; discriminate || contradiction);
      intros c rc' H; decompose [or] H; try discriminate; try contradiction;
      match goal with E : ERun _ _ = ERun _ _ |- _ => injection E as <- _ end;
      now left.
Qed.

Lemma init_then_nested_read (fuel : nat) (root_path : string)
    (sm : SubmoduleInfo) (cfg : SpecialConfig) (recursive : bool) (w : W)
    (file : string) :
  match init_then_nested P fuel root_path sm cfg recursive w with
  | (_, _, t) =>
      In (EReadFile file) t ->
      In (ERun (init_cmd root_path sm) 0) t /\ recursive = true
  end.
Proof.
  destruct recursive.
  - unfold init_then_nested, bind at 1, RunCmd.
    destruct (run_cmd P _ w) as [[rc out] w1]. cbn [andb fst].
    destruct (rc =? 0) eqn:Hrc; cbn [negb].
    + apply Z.eqb_eq in Hrc. subst rc.
      match goal with |- context [bind ?m ?f w1] =>
        destruct (bind m f w1) as [[o w2] t] end.
      intros _. split; [left; reflexivity | reflexivity].
    + simpl. intros H. decompose [or] H; discriminate || contradiction.
  - destruct (run_cmd P (init_cmd root_path sm) w) as [[rc out] w1] eqn:Hrun.
    rewrite (init_then_nested_flat fuel root_path sm cfg w rc out w1 Hrun).
    destruct (rc =? 0); simpl; intros H; decompose [or] H;
      discriminate || contradiction.
Qed.

(** X11.  Children come after their parent: when a call of
    [special_init_submodule] reads a [.gitmodules] file, the call is
    recursive and the init command of its own submodule has run and returned
    zero. *)
Theorem X11_manifest_read_after_init :
  forall (fuel : nat) (root_path : string) (sm : SubmoduleInfo)
         (cfg : SpecialConfig) (recursive : bool) (w : W) (file : string),
    In (EReadFile file)
       (snd (special_init_submodule P (S fuel) root_path sm cfg recursive w)) ->
    In (ERun (init_cmd root_path sm) 0)
       (snd (special_init_submodule P (S fuel) root_path sm cfg recursive w)) /\
    recursive = true.
Proof.
  intros fuel root_path sm cfg recursive w file.
  destruct (get_url_substitution_from_list (sm_url sm) (url_substitutions cfg))
    as [url_sub |] eqn:Hsub.
  - destruct (run_cmd P (set_url_cmd root_path sm url_sub) w)
      as [[rc out] w1] eqn:Hrun.
    rewrite (special_init_submodule_set_url P fuel root_path sm cfg recursive w
               url_sub rc out w1 Hsub Hrun).
    destruct (rc =? 0).
    + pose proof (init_then_nested_read fuel root_path sm cfg recursive w1 file) as H.
      destruct (init_then_nested P fuel root_path sm cfg recursive w1)
        as [[o w2] t]. cbn [snd].
      intros [Hin | [Hin | Hin]]; try discriminate.
      destruct (H Hin) as [H1 H2]. split; [| exact H2]. right. right. exact H1.
    + simpl. intros H. decompose [or] H; discriminate || contradiction.
  - rewrite (special_init_submodule_no_url P fuel root_path sm cfg recursive w Hsub).
    pose proof (init_then_nested_read fuel root_path sm cfg recursive w file) as H.
    destruct (init_then_nested P fuel root_path sm cfg recursive w)
      as [[o w2] t]. cbn [snd].
    intros [Hin | Hin]; try discriminate.
    destruct (H Hin) as [H1 H2]. split; [| exact H2]. right. exact H1.
Qed.

End SpecialFurther.

(** ** Go, further *)

Section GoFurther.
Context {W : Type} (P : Platform W).

Ltac go_sat_step :=
  lazymatch goal with
  | |- events_sat _ (bind _ _) => apply bind_sat; [| intros ?]
  | |- events_sat _ (ret _) => apply ret_sat
  | |- events_sat _ (raise _) => apply raise_sat
  | |- events_sat _ out_of_fuel => apply out_of_fuel_sat
  | |- events_sat _ (emit _) => apply emit_sat; reflexivity
  | |- events_sat _ (log_progress _) => apply emit_sat; reflexivity
  | |- events_sat _ (logging_info _) => apply emit_sat; reflexivity
  | |- events_sat _ (logging_error _) => apply emit_sat; reflexivity
  | |- events_sat _ (RunCmd _ _ _ _ _) => apply RunCmd_sat; intros ?; reflexivity
  | |- events_sat _ (path_exists _ _) => apply path_exists_sat; intros ?; reflexivity
  | |- events_sat _ (get_repo_submodules _ _) =>
      apply get_repo_submodules_sat; reflexivity
  | |- events_sat _ (load_special_config _ _) =>
      apply load_special_config_sat; reflexivity
  | |- events_sat _ (try_except _ _ _) => apply try_except_sat; [| intros ?]
  | |- events_sat _ (for_each _ _) => apply for_each_sat; intros ?
  | |- events_sat _ (for_each_or_false _ _) => apply for_each_or_false_sat; intros ?
  | |- events_sat _ (if ?b then _ else _) => destruct b
  | |- events_sat _ (match ?x with _ => _ end) => destruct x
  end.

Ltac go_step2_cases :=
  unfold Go_step2, try_except, bind, path_exists, RunCmd, log_progress,
    logging_info, logging_error, emit, ret, raise;
  repeat first
    [ progress cbn [andb orb negb fst snd is_RuntimeError RuntimeError exn_class app]
    | match goal with
      | |- context [os_path_exists P ?p ?w] =>
          let E := fresh "Eexists" in destruct (os_path_exists P p w) eqn:E
      | |- context [force_it ?s] =>
          let E := fresh "Eforce" in destruct (force_it s) eqn:E
      | |- context [run_cmd P ?c ?w] =>
          let rc := fresh "rc" in
          let E := fresh "Erun" in
          destruct (run_cmd P c w) as [[rc ?] ?] eqn:E
      | |- context [Z.eqb ?a 0] =>
          let E := fresh "Erc" in destruct (Z.eqb a 0) eqn:E
      | |- context [String.eqb ?a ?b] =>
          let E := fresh "Eout" in destruct (String.eqb a b) eqn:E
      | |- context [is_RuntimeError (run_cmd_error P ?c ?rc)] =>
          let E := fresh "Eexn" in
          destruct (is_RuntimeError (run_cmd_error P c rc)) eqn:E
      end ].

(** What decides the fetch, in the form the iteration computes it. *)
Lemma Go_step2_fetch_iff (self : Edk2PlatformSetup) (sm : RequiredSubmodule) (w : W) :
  match Go_step2 P self sm w with
  | (_, _, t) =>
      ((exists rc, In (ERun (fetch_cmd self sm) rc) t) <->
       (os_path_exists P (required_submodule_path P self sm) w = false \/
        force_it self = true \/
        (fst (fst (run_cmd P (diff_cmd self sm) w)) = 0 /\
         PyStr.strip (snd (fst (run_cmd P (diff_cmd self sm) w))) = ""))) /\
      ((exists rc, In (ERun (diff_cmd self sm) rc) t) <->
       (os_path_exists P (required_submodule_path P self sm) w = true /\
        force_it self = false))
  end.
Proof.
  unfold fetch_cmd, diff_cmd, required_submodule_path.
  go_step2_cases.
  all: cbn [fst snd].
  all: repeat match goal with
       | H : (_ =? 0) = true |- _ => apply Z.eqb_eq in H
       | H : (_ =? 0) = false |- _ => apply Z.eqb_neq in H
       | H : String.eqb _ _ = true |- _ => apply String.eqb_eq in H
       | H : String.eqb _ _ = false |- _ => apply String.eqb_neq in H
       end.
  all: split; (split; [intros [rc' Hin] | intros Hc]).
  all: try (cbn [In] in Hin; decompose [or] Hin; clear Hin).
  all: try discriminate.
  all: try contradiction.
  all: try (decompose [or and] Hc; clear Hc).
  all: try discriminate.
  all: try contradiction.
  all: try (eexists; cbn [In]; eauto 10; fail).
  all: try (auto; fail).
  all: try match goal with
       | H : ERun _ _ = ERun _ _ |- _ =>
           unfold fetch_params in H; discriminate H
       end.
Qed.

(** X12. An iteration of STEP 2 issues the fetch of its submodule exactly
    when the path of the submodule is missing, or [--force] is given, or the
    [git diff] of the submodule succeeds with nothing but white space in its
    output; it issues that [git diff] exactly when the path exists and
    [--force] is not given. *)
Theorem X12_fetch_decision :
  forall (self : Edk2PlatformSetup) (sm : RequiredSubmodule) (w : W),
    ((exists rc, In (ERun (fetch_cmd self sm) rc) (snd (Go_step2 P self sm w))) <->
     (os_path_exists P (required_submodule_path P self sm) w = false \/
      force_it self = true \/
      (fst (fst (run_cmd P (diff_cmd self sm) w)) = 0 /\
       PyStr.strip (snd (fst (run_cmd P (diff_cmd self sm) w))) = ""))) /\
    ((exists rc, In (ERun (diff_cmd self sm) rc) (snd (Go_step2 P self sm w))) <->
     (os_path_exists P (required_submodule_path P self sm) w = true /\
      force_it self = false)).
Proof.
  intros self sm w. pose proof (Go_step2_fetch_iff self sm w) as H.
  destruct (Go_step2 P self sm w) as [[o w'] t]. exact H.
Qed.

Lemma tested_paths_app (t1 t2 : list Event) :
  tested_paths (t1 ++ t2) = (tested_paths t1 ++ tested_paths t2)%list.
Proof.
  induction t1 as [| e t1 IH]; [reflexivity |].
  destruct e; simpl; rewrite ?IH; reflexivity.
Qed.

Lemma tested_paths_no_inspection (t : list Event) :
  forallb no_inspection t = true -> tested_paths t = [].
Proof.
  induction t as [| e t IH]; [reflexivity |]. simpl.
  intros H. apply andb_prop in H. destruct H as [He Ht].
  destruct e; try discriminate He; auto.
Qed.

Lemma Go_step1_no_inspection (self : Edk2PlatformSetup) :
  events_sat no_inspection (Go_step1 P self).
Proof. unfold Go_step1. repeat go_sat_step. Qed.

Lemma Go_step2_tested (self : Edk2PlatformSetup) (sm : RequiredSubmodule) (w : W) :
  tested_paths (snd (Go_step2 P self sm w)) = [required_submodule_path P self sm].
Proof. unfold required_submodule_path. go_step2_cases; reflexivity. Qed.

Lemma Go_step2_loop_tested (self : Edk2PlatformSetup)
    (l : list RequiredSubmodule) (w : W) :
  match for_each l (Go_step2 P self) w with
  | (Ret _, _, t) => tested_paths t = map (required_submodule_path P self) l
  | _ => True
  end.
Proof.
  revert w. induction l as [| sm l IH]; intros w; simpl; [reflexivity |].
  unfold bind. pose proof (Go_step2_tested self sm w) as Hsm.
  destruct (Go_step2 P self sm w) as [[[[] | e |] w1] t1]; [| exact I | exact I].
  specialize (IH w1).
  destruct (for_each l (Go_step2 P self) w1) as [[[[] | e |] w2] t2];
    [| exact I | exact I].
  cbn [snd] in Hsm. rewrite tested_paths_app, Hsm, IH. reflexivity.
Qed.

(** What a [Go] of the standard mode that returns a status has done. *)
Lemma Go_standard_returned (fuel : nat) (self : Edk2PlatformSetup) (w : W) :
  special_file self = None ->
  match Go P fuel self w with
  | (Ret (Some z), _, t) =>
      z = 0 /\
      tested_paths t =
      map (required_submodule_path P self) (GetRequiredSubmodules self)
  | _ => True
  end.
Proof.
  intros Hfile. unfold Go. rewrite Hfile. unfold bind at 1.
  pose proof (check_git_version_no_inspection P w) as H1.
  destruct (check_git_version P w) as [[[[] | e |] w1] t1]; cbn [snd] in H1;
    [| exact I | exact I].
  unfold bind at 1.
  assert (H2 : forallb no_inspection
                 (snd ((if force_it self then force_clean P self else ret true) w1))
               = true).
  { destruct (force_it self); [apply force_clean_no_inspection | reflexivity]. }
  destruct ((if force_it self then force_clean P self else ret true) w1)
    as [[[cleaned | e |] w2] t2]; cbn [snd] in H2; [| exact I | exact I].
  apply tested_paths_no_inspection in H1, H2.
  destruct cleaned; cbn [negb]; [| exact I].
  destruct (GetRequiredSubmodules self) as [| r rs] eqn:Hreqs.
  - cbn. rewrite !tested_paths_app, H1, H2. split; reflexivity.
  - rewrite <- Hreqs. unfold bind at 1.
    pose proof (Go_step1_no_inspection self w2) as H3.
    destruct (Go_step1 P self w2) as [[[synced | e |] w3] t3]; cbn [snd] in H3;
      [| exact I | exact I].
    apply tested_paths_no_inspection in H3.
    destruct synced; cbn [negb]; [| exact I].
    unfold bind. pose proof (Go_step2_loop_tested self (GetRequiredSubmodules self) w3) as H4.
    destruct (for_each (GetRequiredSubmodules self) (Go_step2 P self) w3)
      as [[[[] | e |] w4] t4]; [| exact I | exact I].
    cbn. rewrite !tested_paths_app, H1, H2, H3, H4, app_nil_r. split; reflexivity.
Qed.

(** X13. A [Go] of the standard mode that returns a status returns 0, and
    has then tested the path of every required submodule exactly once, in
    the order the platform lists them, whatever the fetches returned. *)
Theorem X13_every_required_submodule_is_checked :
  forall (fuel : nat) (self : Edk2PlatformSetup) (w : W) (z : Z),
    special_file self = None ->
    fst (fst (Go P fuel self w)) = Ret (Some z) ->
    z = 0 /\
    tested_paths (snd (Go P fuel self w)) =
    map (required_submodule_path P self) (GetRequiredSubmodules self).
Proof.
  intros fuel self w z Hfile Hret.
  pose proof (Go_standard_returned fuel self w Hfile) as H.
  destruct (Go P fuel self w) as [[o w'] t]. cbn [fst snd] in *. subst o.
  exact H.
Qed.

(** *** The cleaning of [--force] *)

Lemma Go_eq (fuel : nat) (self : Edk2PlatformSetup) :
  Go P fuel self =
  (check_git_version P ;;
   cleaned <- (if force_it self then force_clean P self else ret true) ;;
   if negb cleaned then ret None else Go_after_cleaning P fuel self).
Proof. reflexivity. Qed.

Lemma special_init_submodule_no_clean (fuel : nat) :
  forall root_path sm cfg recursive,
    events_sat no_clean (special_init_submodule P fuel root_path sm cfg recursive).
Proof.
  induction fuel as [| fuel IH]; intros root_path sm cfg recursive.
  - apply out_of_fuel_sat.
  - cbn [special_init_submodule]. repeat (go_sat_step || apply IH).
Qed.

Lemma check_git_version_no_clean : events_sat no_clean (check_git_version P).
Proof. unfold check_git_version. repeat go_sat_step. Qed.

Lemma Go_after_cleaning_no_clean (fuel : nat) (self : Edk2PlatformSetup) :
  events_sat no_clean (Go_after_cleaning P fuel self).
Proof.
  unfold Go_after_cleaning, SpecialSetup, Go_step1, Go_step2.
  repeat (go_sat_step || apply special_init_submodule_no_clean).
Qed.

Lemma Go_no_clean (fuel : nat) (self : Edk2PlatformSetup) :
  force_it self = false -> events_sat no_clean (Go P fuel self).
Proof.
  intros Hforce. rewrite Go_eq, Hforce.
  repeat first
    [ apply check_git_version_no_clean
    | apply Go_after_cleaning_no_clean
    | go_sat_step ].
Qed.

Lemma no_clean_In (t : list Event) (c : Cmd) (rc : Z) :
  forallb no_clean t = true -> In (ERun c rc) t -> is_clean_cmd c = false.
Proof.
  intros Ht Hin. rewrite forallb_forall in Ht. specialize (Ht _ Hin).
  unfold no_clean in Ht. simpl in Ht. now apply negb_true_iff in Ht.
Qed.

(** X14. Without [--force], [Go] never runs a [git reset --hard] or a
    [git clean -xffd], in the standard mode or with a special file. *)
Theorem X14_no_cleaning_without_force :
  forall (fuel : nat) (self : Edk2PlatformSetup) (w : W) (c : Cmd) (rc : Z),
    force_it self = false ->
    In (ERun c rc) (snd (Go P fuel self w)) ->
    is_clean_cmd c = false.
Proof.
  intros fuel self w c rc Hforce Hin.
  exact (no_clean_In _ c rc (Go_no_clean fuel self Hforce w) Hin).
Qed.

Lemma strict_ret {A} (a : A) (w : W) : strict_inv P (@ret W A a w).
Proof. reflexivity. Qed.

Lemma strict_raise {A} (e : exn) (w : W) : strict_inv P (@raise W A e w).
Proof. now right. Qed.

Lemma strict_emit (e : Event) (w : W) :
  cmd_failed e = false -> strict_inv P (emit e w).
Proof. intros H. simpl. now rewrite H. Qed.

Lemma strict_RunCmd (cmd parameters : string) (workingdir : option string) (w : W) :
  strict_inv P (RunCmd P cmd parameters workingdir true w).
Proof.
  unfold RunCmd. destruct (run_cmd P _ w) as [[rc out] w1]. cbn [andb].
  destruct (rc =? 0) eqn:Hrc; cbn [negb strict_inv].
  - simpl. now rewrite Hrc.
  - left. exists [], (mk_cmd cmd parameters workingdir), rc.
    apply Z.eqb_neq in Hrc. repeat split; auto.
Qed.

Lemma strict_bind {A B} (m : M W A) (f : A -> M W B) :
  (forall w, strict_inv P (m w)) -> (forall a w, strict_inv P (f a w)) ->
  forall w, strict_inv P (bind m f w).
Proof.
  intros Hm Hf w. unfold bind. specialize (Hm w).
  destruct (m w) as [[[a | e |] w1] t1]; cbn [strict_inv] in *; try assumption.
  specialize (Hf a w1).
  destruct (f a w1) as [[[b | e |] w2] t2]; cbn [strict_inv] in *;
    try (rewrite no_failed_cmd_app, Hm, Hf; reflexivity).
  destruct Hf as [(pre & c & rc & -> & Hrc & Hpre & He) | Hn].
  - left. exists (t1 ++ pre)%list, c, rc. repeat split; try assumption.
    + now rewrite app_assoc.
    + rewrite no_failed_cmd_app, Hm, Hpre. reflexivity.
  - right. rewrite no_failed_cmd_app, Hm, Hn. reflexivity.
Qed.

Lemma strict_for_each {A} (body : A -> M W unit) :
  (forall x w, strict_inv P (body x w)) ->
  forall l w, strict_inv P (for_each l body w).
Proof.
  intros Hb l. induction l as [| x l IH]; intros w; simpl.
  - reflexivity.
  - apply strict_bind; [apply Hb | intros _; apply IH].
Qed.

Ltac strict_step :=
  lazymatch goal with
  | |- forall _, _ => intros ?
  | |- strict_inv _ (bind _ _ _) => apply strict_bind
  | |- strict_inv _ (ret _ _) => apply strict_ret
  | |- strict_inv _ (raise _ _) => apply strict_raise
  | |- strict_inv _ (emit _ _) => apply strict_emit; reflexivity
  | |- strict_inv _ (log_progress _ _) => apply strict_emit; reflexivity
  | |- strict_inv _ (RunCmd _ _ _ _ true _) => apply strict_RunCmd
  | |- strict_inv _ (for_each _ _ _) => apply strict_for_each
  | |- strict_inv _ ((if ?b then _ else _) _) => destruct b
  | |- strict_inv _ ((match ?x with _ => _ end) _) => destruct x
  end.

Lemma check_git_version_strict (w : W) : strict_inv P (check_git_version P w).
Proof. unfold check_git_version. repeat strict_step. Qed.

Lemma failed_last_Aborted (e : exn) (t l : list Event) :
  failed_last P e t -> only_logs l = true -> Aborted (t ++ l).
Proof.
  intros (pre & c & rc & -> & Hrc & Hpre & _) Hl.
  exists pre, c, rc, l. repeat split; try assumption.
  now rewrite <- app_assoc.
Qed.

(** The cleaning, by its outcome. *)
Lemma force_clean_inv (self : Edk2PlatformSetup) (w : W) :
  match force_clean P self w with
  | (Ret true, _, t) => no_failed_cmd t = true
  | (Ret false, _, t) => Aborted t \/ no_failed_cmd t = true
  | (Raise e, _, t) => failed_last P e t \/ no_failed_cmd t = true
  | (OutOfFuel, _, t) => no_failed_cmd t = true
  end.
Proof.
  unfold force_clean, try_except.
  match goal with |- context [bind ?m ?f w] =>
    assert (H : strict_inv P (bind m f w)) by (repeat strict_step);
    destruct (bind m f w) as [[[b | e |] w1] t1]
  end; cbn [strict_inv] in H.
  - destruct b; auto.
  - destruct (is_RuntimeError e); [| exact H].
    cbn. destruct H as [H | H].
    + left. now apply (failed_last_Aborted e).
    + right. rewrite no_failed_cmd_app, H. reflexivity.
  - exact H.
Qed.

Lemma no_failed_cmd_In (t : list Event) (c : Cmd) (rc : Z) :
  no_failed_cmd t = true -> In (ERun c rc) t -> rc = 0.
Proof.
  intros Ht Hin. unfold no_failed_cmd in Ht. rewrite forallb_forall in Ht.
  specialize (Ht _ Hin). simpl in Ht.
  apply negb_true_iff, negb_false_iff, Z.eqb_eq in Ht. exact Ht.
Qed.

Lemma only_logs_In (t : list Event) (c : Cmd) (rc : Z) :
  only_logs t = true -> In (ERun c rc) t -> False.
Proof.
  intros Ht Hin. unfold only_logs in Ht. rewrite forallb_forall in Ht.
  specialize (Ht _ Hin). discriminate Ht.
Qed.

(** The failing command of an aborted run, found by its return code. *)
Lemma Aborted_In (t : list Event) (c : Cmd) (rc : Z) :
  Aborted t -> In (ERun c rc) t -> rc <> 0 ->
  exists pre post,
    t = (pre ++ ERun c rc :: post)%list /\
    no_failed_cmd pre = true /\ only_logs post = true.
Proof.
  intros (pre & c' & rc' & post & -> & Hrc' & Hpre & Hpost) Hin Hrc.
  apply in_app_or in Hin. destruct Hin as [Hin | [Hin | Hin]].
  - now apply (no_failed_cmd_In _ _ _ Hpre) in Hin.
  - injection Hin as -> ->. now exists pre, post.
  - now apply (only_logs_In _ _ _ Hpost) in Hin.
Qed.

Lemma failed_last_In (e : exn) (t : list Event) (c : Cmd) (rc : Z) :
  failed_last P e t -> In (ERun c rc) t -> rc <> 0 ->
  e = run_cmd_error P c rc /\
  exists pre, t = (pre ++ [ERun c rc])%list /\ no_failed_cmd pre = true.
Proof.
  intros (pre & c' & rc' & -> & Hrc' & Hpre & ->) Hin Hrc.
  apply in_app_or in Hin. destruct Hin as [Hin | [Hin | []]].
  - now apply (no_failed_cmd_In _ _ _ Hpre) in Hin.
  - injection Hin as -> ->. split; [reflexivity |]. now exists pre.
Qed.

(** A [Go] in which a command of the cleaning failed. *)
Lemma Go_failed_cleaning (fuel : nat) (self : Edk2PlatformSetup) (w : W)
    (c : Cmd) (rc : Z) :
  is_clean_cmd c = true -> rc <> 0 ->
  match Go P fuel self w with
  | (o, _, t) =>
      In (ERun c rc) t ->
      force_it self = true /\
      (exists pre post,
          t = (pre ++ ERun c rc :: post)%list /\
          no_failed_cmd pre = true /\ only_logs post = true) /\
      (o = Ret None \/ o = Raise (run_cmd_error P c rc))
  end.
Proof.
  intros Hc Hrc. destruct (force_it self) eqn:Hforce.
  2: { pose proof (Go_no_clean fuel self Hforce w) as N.
       destruct (Go P fuel self w) as [[o w'] t]. cbn [snd] in N. intros Hin.
       pose proof (no_clean_In _ _ _ N Hin). congruence. }
  rewrite Go_eq, Hforce. unfold bind at 1.
  pose proof (check_git_version_no_clean w) as N1.
  pose proof (check_git_version_strict w) as S1.
  destruct (check_git_version P w) as [[[[] | e |] w1] t1];
    cbn [snd strict_inv] in N1, S1.
  2, 3: intros Hin; pose proof (no_clean_In _ _ _ N1 Hin); congruence.
  unfold bind at 1. pose proof (force_clean_inv self w1) as S2.
  destruct (force_clean P self w1) as [[[b | e |] w2] t2].
  - destruct b; cbn [negb].
    + pose proof (Go_after_cleaning_no_clean fuel self w2) as N3.
      destruct (Go_after_cleaning P fuel self w2) as [[o3 w3] t3].
      cbn [snd] in N3. intros Hin. exfalso.
      apply in_app_or in Hin. destruct Hin as [Hin | Hin].
      { pose proof (no_clean_In _ _ _ N1 Hin). congruence. }
      apply in_app_or in Hin. destruct Hin as [Hin | Hin].
      { now apply (no_failed_cmd_In _ _ _ S2) in Hin. }
      pose proof (no_clean_In _ _ _ N3 Hin). congruence.
    + cbn. rewrite app_nil_r. intros Hin. split; [reflexivity |].
      split; [| now left].
      apply in_app_or in Hin. destruct Hin as [Hin | Hin].
      { pose proof (no_clean_In _ _ _ N1 Hin). congruence. }
      destruct S2 as [S2 | S2].
      * destruct (Aborted_In _ _ _ S2 Hin Hrc) as (pre & post & -> & Hpre & Hpost).
        exists (t1 ++ pre)%list, post. rewrite <- app_assoc.
        repeat split; try assumption.
        rewrite no_failed_cmd_app, S1, Hpre. reflexivity.
      * now apply (no_failed_cmd_In _ _ _ S2) in Hin.
  - intros Hin. split; [reflexivity |].
    apply in_app_or in Hin. destruct Hin as [Hin | Hin].
    { pose proof (no_clean_In _ _ _ N1 Hin). congruence. }
    destruct S2 as [S2 | S2].
    + destruct (failed_last_In _ _ _ _ S2 Hin Hrc) as (-> & pre & -> & Hpre).
      split; [| now right].
      exists (t1 ++ pre)%list, []. rewrite <- app_assoc.
      repeat split; try assumption.
      rewrite no_failed_cmd_app, S1, Hpre. reflexivity.
    + now apply (no_failed_cmd_In _ _ _ S2) in Hin.
  - intros Hin. exfalso.
    apply in_app_or in Hin. destruct Hin as [Hin | Hin].
    { pose proof (no_clean_In _ _ _ N1 Hin). congruence. }
    now apply (no_failed_cmd_In _ _ _ S2) in Hin.
Qed.

(** X15. When a [git reset --hard] or a [git clean -xffd] of [Go] returns a
    nonzero code, [--force] was given, every command before it succeeded,
    only log lines follow it (no sync, no fetch, no special setup), and [Go]
    returns [None] or lets the exception of [RunCmd] escape. *)
Theorem X15_failed_cleaning_ends_setup :
  forall (fuel : nat) (self : Edk2PlatformSetup) (w : W) (c : Cmd) (rc : Z),
    In (ERun c rc) (snd (Go P fuel self w)) ->
    is_clean_cmd c = true ->
    rc <> 0 ->
    force_it self = true /\
    (exists pre post,
        snd (Go P fuel self w) = (pre ++ ERun c rc :: post)%list /\
        no_failed_cmd pre = true /\ only_logs post = true) /\
    (fst (fst (Go P fuel self w)) = Ret None \/
     fst (fst (Go P fuel self w)) = Raise (run_cmd_error P c rc)).
Proof.
  intros fuel self w c rc Hin Hc Hrc.
  pose proof (Go_failed_cleaning fuel self w c rc Hc Hrc) as H.
  destruct (Go P fuel self w) as [[o w'] t]. exact (H Hin).
Qed.

(** *** The version of git *)

Lemma split_free (sep : ascii) (a : string) :
  free_of sep a = true -> PyStr.split sep a = [a].
Proof.
  induction a as [| x a IH]; [reflexivity |]. cbn [free_of PyStr.split].
  intros H. apply andb_prop in H. destruct H as [Hx Ha].
  rewrite (IH Ha). apply negb_true_iff in Hx. now rewrite Hx.
Qed.

Lemma split_cons (sep : ascii) (s : string) :
  exists p ps, PyStr.split sep s = p :: ps.
Proof.
  destruct s as [| c s]; [now exists "", [] |]. cbn [PyStr.split].
  destruct (PyStr.split sep s) as [| p ps]; [now eexists _, _ |].
  destruct (Ascii.eqb c sep); now eexists _, _.
Qed.

Lemma split_sep (sep : ascii) (s : string) :
  PyStr.split sep (String sep s) = "" :: PyStr.split sep s.
Proof.
  cbn [PyStr.split]. destruct (split_cons sep s) as (p & ps & ->).
  now rewrite Ascii.eqb_refl.
Qed.

Lemma split_other (sep c : ascii) (s p : string) (ps : list string) :
  Ascii.eqb c sep = false -> PyStr.split sep s = p :: ps ->
  PyStr.split sep (String c s) = String c p :: ps.
Proof. intros Hc Hs. cbn [PyStr.split]. now rewrite Hs, Hc. Qed.

Lemma split_head (sep : ascii) (a rest : string) :
  free_of sep a = true -> empty_or_starts sep rest = true ->
  exists l, PyStr.split sep (a ++ rest) = a :: l.
Proof.
  intros Ha Hrest. induction a as [| x a IH].
  - destruct rest as [| y rest]; [now exists [] |].
    cbn [empty_or_starts] in Hrest. apply Ascii.eqb_eq in Hrest. subst y.
    change ("" ++ String sep rest) with (String sep rest).
    rewrite split_sep. eauto.
  - cbn [free_of] in Ha. apply andb_prop in Ha. destruct Ha as [Hx Ha].
    apply negb_true_iff in Hx. destruct (IH Ha) as [l Hl].
    exists l. change (String x a ++ rest) with (String x (a ++ rest)).
    now apply split_other.
Qed.

Lemma split_app (sep : ascii) (a rest : string) :
  free_of sep a = true ->
  PyStr.split sep (a ++ String sep rest) = a :: PyStr.split sep rest.
Proof.
  intros Ha. induction a as [| x a IH].
  - change ("" ++ String sep rest) with (String sep rest). apply split_sep.
  - cbn [free_of] in Ha. apply andb_prop in Ha. destruct Ha as [Hx Ha].
    apply negb_true_iff in Hx.
    change (String x a ++ String sep rest) with (String x (a ++ String sep rest)).
    now apply split_other; [| apply IH].
Qed.

Lemma length_split (sep : ascii) (s : string) :
  length (PyStr.split sep s) = S (count_char sep s).
Proof.
  induction s as [| c s IH]; [reflexivity |]. cbn [PyStr.split count_char].
  destruct (PyStr.split sep s) as [| p ps]; [discriminate IH |].
  destruct (Ascii.eqb c sep); simpl in *; lia.
Qed.

(** The version [Go] compares, for an output of the usual form. *)
Lemma cur_git_of_output (git_version a b c tail after : string) :
  git_version = "git version " ++ (a ++ "." ++ b ++ "." ++ c ++ tail) ++ after ->
  free_of "." a = true -> free_of "." b = true -> free_of "." c = true ->
  empty_or_starts "." tail = true ->
  free_of " " (a ++ "." ++ b ++ "." ++ c ++ tail) = true ->
  empty_or_starts " " after = true ->
  exists word,
    nth_error (PyStr.split " " git_version) 2 = Some word /\
    PyStr.join "." (firstn 3 (PyStr.split "." word)) = a ++ "." ++ b ++ "." ++ c.
Proof.
  intros -> Ha Hb Hc Htail Hword Hafter.
  exists (a ++ "." ++ b ++ "." ++ c ++ tail). split.
  - destruct (split_head " " _ after Hword Hafter) as [l Hl].
    change ("git version " ++ (a ++ "." ++ b ++ "." ++ c ++ tail) ++ after)
      with ("git" ++ String " " ("version" ++
              String " " ((a ++ "." ++ b ++ "." ++ c ++ tail) ++ after))).
    rewrite (split_app " " "git" _ eq_refl), (split_app " " "version" _ eq_refl), Hl.
    reflexivity.
  - destruct (split_head "." c tail Hc Htail) as [l Hl].
    change (a ++ "." ++ b ++ "." ++ c ++ tail)
      with (a ++ String "." (b ++ String "." (c ++ tail))).
    rewrite (split_app "." a _ Ha), (split_app "." b _ Hb), Hl.
    reflexivity.
Qed.

(** The version check, after a [git --version] that returned 0. *)
Lemma check_git_version_eq (w : W) (out : string) (w1 : W) :
  run_cmd P git_version_cmd w = (0, out, w1) ->
  check_git_version P w =
  match nth_error (PyStr.split " " (PyStr.strip out)) 2 with
  | None =>
      (Raise (IndexError "list index out of range"), w1,
       version_events (PyStr.strip out))
  | Some word =>
      let cur_git := PyStr.join "." (firstn 3 (PyStr.split "." word)) in
      if version_compare P "2.11.0" cur_git >? 0 then
        (Raise (RuntimeError ("Please upgrade Git! Current version is " ++ cur_git ++
                              ". Minimum is " ++ "2.11.0" ++ ".")), w1,
         version_events (PyStr.strip out))
      else (Ret tt, w1, version_events (PyStr.strip out))
  end.
Proof.
  intros Hrun. unfold check_git_version, bind, RunCmd, emit, raise, ret.
  unfold git_version_cmd in Hrun. rewrite Hrun. cbn [andb negb Z.eqb fst snd].
  destruct (nth_error _ 2) as [word |]; [| reflexivity].
  cbv zeta. destruct (_ >? 0); reflexivity.
Qed.

Lemma Go_check_raises (fuel : nat) (self : Edk2PlatformSetup) (w : W)
    (e : exn) (w1 : W) (t : list Event) :
  check_git_version P w = (Raise e, w1, t) ->
  Go P fuel self w = (Raise e, w1, t).
Proof. intros H. rewrite Go_eq. unfold bind at 1. now rewrite H. Qed.

(** X16. When [git --version] prints [git version a.b.c], possibly with more
    components after [c] and more words after the version, and
    [version_compare] finds [a.b.c] older than 2.11.0, [Go] raises the
    [RuntimeError] that names [a.b.c], having run no other command. *)
Theorem X16_old_git_stops_go :
  forall (fuel : nat) (self : Edk2PlatformSetup) (w : W)
         (a b c tail after : string),
    fst (fst (run_cmd P git_version_cmd w)) = 0 ->
    PyStr.strip (snd (fst (run_cmd P git_version_cmd w))) =
      "git version " ++ (a ++ "." ++ b ++ "." ++ c ++ tail) ++ after ->
    free_of "." a = true -> free_of "." b = true -> free_of "." c = true ->
    empty_or_starts "." tail = true ->
    free_of " " (a ++ "." ++ b ++ "." ++ c ++ tail) = true ->
    empty_or_starts " " after = true ->
    version_compare P "2.11.0" (a ++ "." ++ b ++ "." ++ c) > 0 ->
    fst (fst (Go P fuel self w)) =
      Raise (RuntimeError ("Please upgrade Git! Current version is " ++
                           (a ++ "." ++ b ++ "." ++ c) ++ ". Minimum is 2.11.0.")) /\
    snd (Go P fuel self w) =
      version_events (PyStr.strip (snd (fst (run_cmd P git_version_cmd w)))).
Proof.
  intros fuel self w a b c tail after Hrc Hout Ha Hb Hc Htail Hword Hafter Hold.
  destruct (run_cmd P git_version_cmd w) as [[rc out] w1] eqn:Hrun.
  cbn [fst snd] in *. subst rc.
  destruct (cur_git_of_output _ a b c tail after Hout Ha Hb Hc Htail Hword Hafter)
    as (word & Hnth & Hcur).
  pose proof (check_git_version_eq w out w1 Hrun) as Hcheck.
  rewrite Hnth in Hcheck. cbv zeta in Hcheck. rewrite Hcur in Hcheck.
  apply Z.gt_lt, Z.gtb_lt in Hold. rewrite Hold in Hcheck.
  rewrite (Go_check_raises fuel self w _ _ _ Hcheck). split; reflexivity.
Qed.

(** X17. When the output of [git --version], stripped, holds fewer than two
    spaces, [Go] raises the [IndexError] of the missing third word, having
    run no other command. *)
Theorem X17_short_version_output :
  forall (fuel : nat) (self : Edk2PlatformSetup) (w : W),
    fst (fst (run_cmd P git_version_cmd w)) = 0 ->
    (count_char " " (PyStr.strip (snd (fst (run_cmd P git_version_cmd w)))) < 2)%nat ->
    fst (fst (Go P fuel self w)) = Raise (IndexError "list index out of range") /\
    snd (Go P fuel self w) =
      version_events (PyStr.strip (snd (fst (run_cmd P git_version_cmd w)))).
Proof.
  intros fuel self w Hrc Hcount.
  destruct (run_cmd P git_version_cmd w) as [[rc out] w1] eqn:Hrun.
  cbn [fst snd] in *. subst rc.
  pose proof (check_git_version_eq w out w1 Hrun) as Hcheck.
  assert (Hnth : nth_error (PyStr.split " " (PyStr.strip out)) 2 = None).
  { apply nth_error_None. rewrite length_split. lia. }
  rewrite Hnth in Hcheck.
  rewrite (Go_check_raises fuel self w _ _ _ Hcheck). split; reflexivity.
Qed.

(** *** The order of the steps *)

(** X18. In the standard mode, [Go] fetches nothing and inspects no working
    tree before a [git submodule sync] of the required submodules has
    returned 0. *)
Theorem X18_nothing_fetched_before_sync :
  forall (fuel : nat) (self : Edk2PlatformSetup) (w : W) (e : Event),
    special_file self = None ->
    In e (snd (Go P fuel self w)) ->
    runs is_fetch_cmd e = true \/ dirty_inspection e = true ->
    exists pre post,
      snd (Go P fuel self w) = (pre ++ ERun (sync_cmd self) 0 :: post)%list /\
      forallb before_sync pre = true /\ In e post.
Proof.
  intros fuel self w e Hfile Hin He.
  assert (Hnot : before_sync e = false).
  { unfold before_sync. destruct He as [He | He]; rewrite He;
      rewrite ?andb_false_r; reflexivity. }
  pose proof (Go_standard_shape P fuel self w Hfile) as H.
  destruct (Go P fuel self w) as [[o w'] t]. cbn [snd] in *.
  destruct H as [H | [(pre & rc & post & -> & Hrc & Hpre & Hpost & _) | (pre & w1 & Hpre & H)]].
  - rewrite forallb_forall in H. rewrite (H e Hin) in Hnot. discriminate.
  - exfalso. apply in_app_or in Hin. destruct Hin as [Hin | [Hin | Hin]].
    + rewrite forallb_forall in Hpre. rewrite (Hpre e Hin) in Hnot. discriminate.
    + subst e. destruct He as [He | He]; discriminate He.
    + unfold only_logs in Hpost. rewrite forallb_forall in Hpost.
      specialize (Hpost e Hin). destruct e; try discriminate Hpost.
      destruct He as [He | He]; discriminate He.
  - destruct (for_each (GetRequiredSubmodules self) (Go_step2 P self) w1)
      as [[o2 w2] t2].
    injection H as _ _ ->.
    exists pre, (ELog PROGRESS ("Done." ++ nl) :: t2).
    split; [reflexivity |]. split; [assumption |].
    apply in_app_or in Hin. destruct Hin as [Hin | [Hin | Hin]].
    + rewrite forallb_forall in Hpre. rewrite (Hpre e Hin) in Hnot. discriminate.
    + subst e. destruct He as [He | He]; discriminate He.
    + exact Hin.
Qed.

Lemma check_git_version_preparation : events_sat preparation (check_git_version P).
Proof. unfold check_git_version. repeat go_sat_step. Qed.

Lemma force_clean_preparation (self : Edk2PlatformSetup) :
  events_sat preparation (force_clean P self).
Proof. unfold force_clean. repeat go_sat_step. Qed.

(** A [Go] of a platform with no required submodule. *)
Lemma Go_nothing_required (fuel : nat) (self : Edk2PlatformSetup) (w : W) :
  GetRequiredSubmodules self = [] ->
  match Go P fuel self w with
  | (o, _, t) =>
      forallb preparation t = true /\
      forall z, o = Ret (Some z) -> z = 0
  end.
Proof.
  intros Hreqs. rewrite Go_eq. unfold Go_after_cleaning. rewrite Hreqs.
  unfold bind at 1.
  pose proof (check_git_version_preparation w) as H1.
  destruct (check_git_version P w) as [[[[] | e |] w1] t1]; cbn [snd] in H1;
    [| split; [assumption | discriminate] | split; [assumption | discriminate]].
  unfold bind.
  assert (H2 : forallb preparation
                 (snd ((if force_it self then force_clean P self else ret true) w1))
               = true).
  { destruct (force_it self); [apply force_clean_preparation | reflexivity]. }
  destruct ((if force_it self then force_clean P self else ret true) w1)
    as [[[cleaned | e |] w2] t2]; cbn [snd] in H2.
  - destruct cleaned; cbn; rewrite !forallb_app, H1, H2; (split; [reflexivity |]).
    + intros z Hz. now injection Hz as <-.
    + discriminate.
  - rewrite forallb_app, H1, H2. split; [reflexivity | discriminate].
  - rewrite forallb_app, H1, H2. split; [reflexivity | discriminate].
Qed.

(** X19. For a platform with no required submodule, [Go] only checks the
    version of git and, with [--force], cleans the root: it runs no
    [git submodule] command and no [git diff], reads no file (a special file
    given on the command line is ignored) and tests no path; the status it
    returns, if any, is 0. *)
Theorem X19_nothing_required :
  forall (fuel : nat) (self : Edk2PlatformSetup) (w : W),
    GetRequiredSubmodules self = [] ->
    forallb preparation (snd (Go P fuel self w)) = true /\
    forall z, fst (fst (Go P fuel self w)) = Ret (Some z) -> z = 0.
Proof.
  intros fuel self w Hreqs.
  pose proof (Go_nothing_required fuel self w Hreqs) as H.
  destruct (Go P fuel self w) as [[o w'] t]. exact H.
Qed.

(** *** Where the cleaning runs *)

Lemma sat_expected_clean {A} (self : Edk2PlatformSetup) (m : M W A) :
  events_sat no_clean m -> events_all (expected_clean P self) m.
Proof.
  intros H w. specialize (H w). rewrite forallb_forall in H.
  apply List.Forall_forall. intros e Hin. specialize (H e Hin).
  destruct e; try exact I. simpl. intros Hc.
  unfold no_clean in H. simpl in H. rewrite Hc in H. discriminate.
Qed.

Lemma for_each_all_in {A} (Q : Event -> Prop) (l : list A) (body : A -> M W unit) :
  (forall x, In x l -> events_all Q (body x)) -> events_all Q (for_each l body).
Proof.
  induction l as [| x l IH]; intros Hb; simpl.
  - apply ret_all.
  - apply bind_all; [apply Hb; now left |].
    intros _. apply IH. intros y Hy. apply Hb. now right.
Qed.

Lemma force_clean_expected (self : Edk2PlatformSetup) :
  events_all (expected_clean P self) (force_clean P self).
Proof.
  unfold force_clean. apply try_except_all.
  - apply bind_all; [apply emit_all; exact I | intros _].
    apply bind_all.
    { apply RunCmd_all. intros rc _. split; [reflexivity |]. left. auto. }
    intros _. apply bind_all.
    { apply RunCmd_all. intros rc _. split; [reflexivity |]. left. auto. }
    intros _. apply bind_all; [apply emit_all; exact I | intros _].
    apply bind_all; [| intros _; apply ret_all].
    apply for_each_all_in. intros sm Hsm.
    apply bind_all; [apply emit_all; exact I | intros _].
    apply bind_all.
    { apply RunCmd_all. intros rc _. split; [reflexivity |]. right.
      exists sm. auto. }
    intros _. apply bind_all.
    { apply RunCmd_all. intros rc _. split; [reflexivity |]. right.
      exists sm. auto. }
    intros _. apply emit_all. exact I.
  - intros e. repeat (apply bind_all; [apply emit_all; exact I | intros _]).
    apply ret_all.
Qed.

Lemma Go_expected_clean (fuel : nat) (self : Edk2PlatformSetup) :
  events_all (expected_clean P self) (Go P fuel self).
Proof.
  rewrite Go_eq. apply bind_all.
  { apply sat_expected_clean, check_git_version_no_clean. }
  intros _. apply bind_all.
  { destruct (force_it self); [apply force_clean_expected | apply ret_all]. }
  intros cleaned. destruct cleaned; cbn [negb]; [| apply ret_all].
  apply sat_expected_clean, Go_after_cleaning_no_clean.
Qed.

(** X20. Every [git reset --hard] and every [git clean -xffd] of [Go] runs
    in the workspace root or in the path of a required submodule; the clean
    of the root spares [Build/SETUPLOG.txt] and [Build/SETUPLOG.md], the
    clean of a submodule spares nothing. *)
Theorem X20_cleaning_stays_in_required_paths :
  forall (fuel : nat) (self : Edk2PlatformSetup) (w : W) (c : Cmd) (rc : Z),
    In (ERun c rc) (snd (Go P fuel self w)) ->
    is_clean_cmd c = true ->
    cmd_name c = "git" /\
    ((cmd_workingdir c = Some (GetWorkspaceRoot self) /\
      (cmd_params c = "reset --hard" \/ cmd_params c = root_clean_params)) \/
     (exists sm,
         In sm (GetRequiredSubmodules self) /\
         cmd_workingdir c = Some (required_submodule_path P self sm) /\
         (cmd_params c = "reset --hard" \/ cmd_params c = "clean -xffd"))).
Proof.
  intros fuel self w c rc Hin Hc.
  pose proof (Go_expected_clean fuel self w) as H.
  rewrite List.Forall_forall in H. exact (H _ Hin Hc).
Qed.

End GoFurther.

(** ** DownloadNuget, further *)

Section NugetFurther.
Context (N : Nuget.Net).

(** [DownloadNuget] when the file is not there and the download fails, with
    the exception and the disk it leaves. *)
Lemma DownloadNuget_failed (unpack_folder : option string) (disk : Nuget.Disk)
    (e : exn) (created : bool) :
  let out := nuget_out_file N unpack_folder in
  disk !! out = None ->
  download_failure N out = Some (e, created) ->
  exists t,
    Nuget.DownloadNuget N unpack_folder disk =
    (Raise e, (if created then <[out := []]> disk else disk),
     EExists out false :: EUrlopen Nuget.URL :: t) /\
    (In nuget_issue t <-> is_HTTPError e = true) /\
    ~ In (EReadFile out) t /\
    ~ In (ERemove out) t.
Proof.
  intros out Hdisk Hfail. unfold download_failure in Hfail.
  unfold Nuget.DownloadNuget, try_except, bind, Nuget.isfile, Nuget.download,
    Nuget.read_file, Nuget.os_remove, logging_error, emit, raise, ret.
  fold (nuget_out_file N unpack_folder). fold out.
  rewrite Hdisk. cbn [negb].
  destruct (Nuget.urlopen N Nuget.URL) as [e1 | [e1 | data]].
  - injection Hfail as <- <-.
    destruct (is_HTTPError e1); cbn; eexists; (split; [reflexivity |]);
      unfold nuget_issue; cbn; intuition (discriminate || eauto).
  - destruct (Nuget.open_wb_error N out) as [e2 |]; injection Hfail as <- <-.
    + destruct (is_HTTPError e2); cbn; eexists; (split; [reflexivity |]);
        unfold nuget_issue; cbn; intuition (discriminate || eauto).
    + destruct (is_HTTPError e1); cbn; eexists; (split; [reflexivity |]);
        unfold nuget_issue; cbn; intuition (discriminate || eauto).
  - destruct (Nuget.open_wb_error N out) as [e2 |]; [| discriminate].
    injection Hfail as <- <-.
    destruct (is_HTTPError e2); cbn; eexists; (split; [reflexivity |]);
      unfold nuget_issue; cbn; intuition (discriminate || eauto).
Qed.

Lemma download_succeeds (out : string) :
  download_failure N out = None ->
  exists data,
    Nuget.urlopen N Nuget.URL = inr (inr data) /\ Nuget.open_wb_error N out = None.
Proof.
  unfold download_failure.
  destruct (Nuget.urlopen N Nuget.URL) as [e1 | [e1 | data]]; [discriminate | |];
    destruct (Nuget.open_wb_error N out); try discriminate.
  intros _. now exists data.
Qed.

(** X21. [DownloadNuget] touches one path of the disk: every other path
    holds after the call what it held before, however the call ends. *)
Theorem X21_nuget_touches_one_path :
  forall (unpack_folder : option string) (disk : Nuget.Disk) (path : string),
    path <> nuget_out_file N unpack_folder ->
    snd (fst (Nuget.DownloadNuget N unpack_folder disk)) !! path = disk !! path.
Proof.
  intros unpack_folder disk path Hpath.
  destruct (disk !! nuget_out_file N unpack_folder) as [data |] eqn:Hdisk.
  - rewrite (DownloadNuget_existing N unpack_folder disk data Hdisk).
    destruct (sha256_matches N data); cbn [fst snd]; [reflexivity |].
    now apply lookup_delete_ne.
  - destruct (download_failure N (nuget_out_file N unpack_folder))
      as [[e created] |] eqn:Hfail.
    + destruct (DownloadNuget_failed unpack_folder disk e created Hdisk Hfail)
        as (t & -> & _).
      cbn [fst snd]. destruct created; [| reflexivity].
      now apply lookup_insert_ne.
    + destruct (download_succeeds _ Hfail) as (data & Hurl & Hopen).
      rewrite (DownloadNuget_downloaded N unpack_folder disk data Hdisk Hurl Hopen).
      destruct (sha256_matches N data); cbn [fst snd].
      * now apply lookup_insert_ne.
      * rewrite lookup_delete_ne by congruence. now apply lookup_insert_ne.
Qed.

(** X22. After a call of [DownloadNuget] that returned, another call
    downloads nothing, writes nothing, and returns with the disk as it
    found it. *)
Theorem X22_nuget_second_call :
  forall (unpack_folder : option string) (disk : Nuget.Disk),
    let out := nuget_out_file N unpack_folder in
    let r := Nuget.DownloadNuget N unpack_folder disk in
    fst (fst r) = Ret tt ->
    Nuget.DownloadNuget N unpack_folder (snd (fst r)) =
    (Ret tt, snd (fst r), [EExists out true; EReadFile out]).
Proof.
  intros unpack_folder disk out r Hret.
  destruct (DownloadNuget_cases N unpack_folder disk)
    as [(data & disk1 & pre & Hd & E) | (_ & [e He] & _)].
  - fold out in Hd, E. fold r in E.
    destruct (sha256_matches N data) eqn:Hm;
      [| rewrite E in Hret; discriminate Hret].
    rewrite E. cbn [fst snd].
    rewrite (DownloadNuget_existing N unpack_folder disk1 data Hd), Hm.
    reflexivity.
  - fold r in He. rewrite He in Hret. discriminate.
Qed.

(** X23. When [response.read()] raises, the call ends with that exception
    and leaves the empty file [open] had created; the next call takes the
    empty file for a download: it opens no url, and, the digest of no bytes
    not being the pinned one, removes the file and raises the
    [RuntimeError]. *)
Theorem X23_nuget_interrupted_download :
  forall (unpack_folder : option string) (disk : Nuget.Disk) (e : exn),
    let out := nuget_out_file N unpack_folder in
    let r := Nuget.DownloadNuget N unpack_folder disk in
    disk !! out = None ->
    Nuget.urlopen N Nuget.URL = inr (inl e) ->
    Nuget.open_wb_error N out = None ->
    sha256_matches N [] = false ->
    fst (fst r) = Raise e /\
    snd (fst r) = <[out := []]> disk /\
    Nuget.DownloadNuget N unpack_folder (snd (fst r)) =
    (Raise (sha256_mismatch N []), disk,
     [EExists out true; EReadFile out; ERemove out]).
Proof.
  intros unpack_folder disk e out r Hdisk Hurl Hopen Hsha.
  assert (Hfail : download_failure N out = Some (e, true)).
  { unfold download_failure. now rewrite Hurl, Hopen. }
  destruct (DownloadNuget_failed unpack_folder disk e true Hdisk Hfail)
    as (t & E & _).
  fold out in E. fold r in E. rewrite E. cbn [fst snd].
  split; [reflexivity |]. split; [reflexivity |].
  rewrite (DownloadNuget_existing N unpack_folder (<[out := []]> disk) []
             (lookup_insert_eq _ _ _)), Hsha.
  fold out. rewrite delete_insert_eq. rewrite delete_id by exact Hdisk. reflexivity.
Qed.

(** X24. A call of [DownloadNuget] that raises without having read the file
    raises the exception of the download as it is, having removed nothing;
    it logs the error line of the download exactly when the exception is an
    [HTTPError]. *)
Theorem X24_nuget_download_errors :
  forall (unpack_folder : option string) (disk : Nuget.Disk) (e : exn),
    let out := nuget_out_file N unpack_folder in
    let r := Nuget.DownloadNuget N unpack_folder disk in
    fst (fst r) = Raise e ->
    ~ In (EReadFile out) (snd r) ->
    (exists created, download_failure N out = Some (e, created)) /\
    (In nuget_issue (snd r) <-> is_HTTPError e = true) /\
    ~ In (ERemove out) (snd r).
Proof.
  intros unpack_folder disk e out r Hraise Hread.
  destruct (disk !! out) as [data |] eqn:Hdisk.
  { exfalso. apply Hread. subst r.
    rewrite (DownloadNuget_existing N unpack_folder disk data Hdisk). fold out.
    destruct (sha256_matches N data); cbn; auto. }
  destruct (download_failure N out) as [[e' created] |] eqn:Hfail.
  - destruct (DownloadNuget_failed unpack_folder disk e' created Hdisk Hfail)
      as (t & E & Hlog & _ & Hrm).
    fold out in E, Hlog, Hrm. fold r in E. rewrite E in *. cbn [fst snd] in *.
    injection Hraise as ->. split; [now exists created |]. split.
    + rewrite <- Hlog. unfold nuget_issue. cbn. intuition discriminate.
    + cbn. intuition discriminate.
  - exfalso. destruct (download_succeeds _ Hfail) as (data & Hurl & Hopen).
    apply Hread. subst r.
    rewrite (DownloadNuget_downloaded N unpack_folder disk data Hdisk Hurl Hopen).
    fold out. destruct (sha256_matches N data); cbn; auto 10.
Qed.

End NugetFurther.

(** ** The command line options *)

Section CommandLineProofs.
Context {W : Type} (P : Platform W).
Context (super_RetrieveCommandLineOptions : Namespace -> M (Self (W := W)) unit).

(** X25. When the omnicache path of the command line does not exist, and
    the namespace has no attribute [omnicache_Path] (the parser stores the
    option as [omnicache_path]), [RetrieveCommandLineOptions] raises the
    [AttributeError] of the warning it formats: nothing is logged, [self]
    keeps the invalid path, the special file is not taken from the command
    line and the method of the parent class is not called. *)
Theorem X25_invalid_omnicache_path_raises :
  forall (args : Namespace) (self : Edk2PlatformSetup) (w : W) (path : string),
    ns_omnicache_path args = Some path ->
    os_path_exists P path w = false ->
    ns_other args !! "omnicache_Path" = None ->
    RetrieveCommandLineOptions P super_RetrieveCommandLineOptions args (self, w) =
    (Raise (AttributeError "'Namespace' object has no attribute 'omnicache_Path'"),
     ({| force_it := ns_force args;
         omnicache_path := Some path;
         special_file := special_file self;
         GetWorkspaceRoot := GetWorkspaceRoot self;
         GetRequiredSubmodules := GetRequiredSubmodules self |}, w),
     [EExists path false]).
Proof.
  intros args self w path Hpath Hexists Hattr.
  unfold RetrieveCommandLineOptions, bind, set_force_it, set_omnicache_path,
    self_omnicache_path, self_path_exists, read_attribute, getattr.
  cbn. rewrite Hpath. cbn. rewrite Hexists. cbn. rewrite Hattr. reflexivity.
Qed.

End CommandLineProofs.

(** ** The theorems at work in the example worlds *)

Lemma C1_witness :
  only_logs
    (skipn 9 (snd (SpecialSetup inner1_fails 5 (example_self (Some "special.yaml"))
                     "special.yaml" [example_outer; example_tools] []))) = true /\
  no_failed_cmd
    (firstn 8 (snd (SpecialSetup inner1_fails 5 (example_self (Some "special.yaml"))
                      "special.yaml" [example_outer; example_tools] []))) = true /\
  fst (fst (SpecialSetup inner1_fails 5 (example_self (Some "special.yaml"))
              "special.yaml" [example_outer; example_tools] [])) = Ret (-1) /\
  SpecialSetup inner1_fails 7 (example_self (Some "special.yaml"))
    "special.yaml" [example_outer; example_tools] [] =
  SpecialSetup inner1_fails 5 (example_self (Some "special.yaml"))
    "special.yaml" [example_outer; example_tools] [].
Proof.
  destruct (C1_special_setup_stops_at_first_failure inner1_fails 5
              (example_self (Some "special.yaml")) "special.yaml"
              [example_outer; example_tools] []
              (firstn 8 (snd (SpecialSetup inner1_fails 5
                                (example_self (Some "special.yaml"))
                                "special.yaml" [example_outer; example_tools] [])))
              (skipn 9 (snd (SpecialSetup inner1_fails 5
                               (example_self (Some "special.yaml"))
                               "special.yaml" [example_outer; example_tools] [])))
              (init_cmd "ws/outer" example_inner1_info) 1)
    as (H1 & H2 & H3 & H4).
  - vm_compute. reflexivity.
  - discriminate.
  - split; [exact H1 | split; [exact H2 | split; [exact H3 |]]].
    apply H4. repeat constructor.
Defined.

Lemma C6_witness :
  exists log rest,
    snd (special_init_submodule set_url_fails 4 "ws" example_outer_info
           example_config true []) =
      ELog PROGRESS log
        :: ERun (set_url_cmd "ws" example_outer_info "https://new/repo.git") 1
        :: rest /\
    (1 <> 0 ->
     fst (special_init_submodule set_url_fails 4 "ws" example_outer_info
            example_config true []) =
       (Ret false, [set_url_cmd "ws" example_outer_info "https://new/repo.git"]) /\
     only_logs rest = true) /\
    (1 = 0 ->
     exists rc' rest', rest = ERun (init_cmd "ws" example_outer_info) rc' :: rest').
Proof.
  apply (C6_url_rewrite_before_init set_url_fails 3 "ws" example_outer_info
           example_config true [] "https://new/repo.git" 1 "").
  - reflexivity.
  - reflexivity.
Defined.

Lemma C7_witness :
  get_url_substitution_from_list "https://OLD/repo.git"
    [{| rule_url := "https://b/b.git"; rule_sub := "B" |};
     {| rule_url := "https://a/a.git"; rule_sub := "A" |};
     {| rule_url := "https://old/repo.git"; rule_sub := "https://new/repo.git" |}] =
  get_url_substitution_from_list "https://OLD/repo.git"
    [{| rule_url := "https://a/a.git"; rule_sub := "A" |};
     {| rule_url := "https://b/b.git"; rule_sub := "B" |};
     {| rule_url := "https://old/repo.git"; rule_sub := "https://new/repo.git" |}]
  /\
  get_url_substitution_from_list "https://OLD/repo.git"
    ([{| rule_url := "https://a/a.git"; rule_sub := "A" |}] ++
     {| rule_url := "https://old/repo.git"; rule_sub := "https://new/repo.git" |} ::
     [{| rule_url := "https://old/repo.git"; rule_sub := "https://new/repo.git" |};
      {| rule_url := "https://Old/Repo.git"; rule_sub := "https://other/repo.git" |}]) =
  get_url_substitution_from_list "https://OLD/repo.git"
    ([{| rule_url := "https://a/a.git"; rule_sub := "A" |}] ++
     [{| rule_url := "https://old/repo.git"; rule_sub := "https://new/repo.git" |};
      {| rule_url := "https://Old/Repo.git"; rule_sub := "https://other/repo.git" |}]).
Proof.
  split.
  - apply (proj1 C7_reorder_and_duplicate).
    + apply perm_swap.
    + reflexivity.
  - apply (proj1 (proj2 C7_reorder_and_duplicate) "https://OLD/repo.git"
             [{| rule_url := "https://a/a.git"; rule_sub := "A" |}]
             [{| rule_url := "https://Old/Repo.git"; rule_sub := "https://other/repo.git" |}]).
    + repeat constructor.
    + reflexivity.
    + reflexivity.
Defined.

Lemma C3_witness :
  sync_cmd (example_self None) = sync_cmd (example_self None) /\
  (exists pre post,
      snd (Go (standard_world is_sync_cmd "") 0 (example_self None) []) =
        (pre ++ ERun (sync_cmd (example_self None)) 1 :: post)%list /\
      forallb before_sync pre = true /\ only_logs post = true) /\
  (forall c' rc',
      In (ERun c' rc') (snd (Go (standard_world is_sync_cmd "") 0 (example_self None) [])) ->
      is_fetch_cmd c' = false) /\
  (fst (fst (Go (standard_world is_sync_cmd "") 0 (example_self None) [])) = Ret None \/
   fst (fst (Go (standard_world is_sync_cmd "") 0 (example_self None) [])) =
     Raise (run_cmd_error (standard_world is_sync_cmd "")
                          (sync_cmd (example_self None)) 1)).
Proof.
  apply (C3_failed_sync_aborts (standard_world is_sync_cmd "") 0
           (example_self None) [] (sync_cmd (example_self None)) 1).
  - reflexivity.
  - vm_compute. repeat (first [left; reflexivity | right]).
  - reflexivity.
  - discriminate.
Defined.

Lemma C2_witness :
  Go_step2 (standard_world (fun _ => false) "diff --git a/f b/f")
           (example_self None) example_outer [] =
    (Ret tt, [diff_cmd (example_self None) example_outer],
     skip_events (standard_world (fun _ => false) "diff --git a/f b/f")
                 (example_self None) example_outer) /\
  for_each [example_outer; example_tools]
           (Go_step2 (standard_world (fun _ => false) "diff --git a/f b/f")
                     (example_self None)) [] =
    (let '(o, w2, t) :=
       for_each [example_tools]
                (Go_step2 (standard_world (fun _ => false) "diff --git a/f b/f")
                          (example_self None))
                [diff_cmd (example_self None) example_outer] in
     (o, w2,
      (skip_events (standard_world (fun _ => false) "diff --git a/f b/f")
                   (example_self None) example_outer ++ t)%list)).
Proof.
  destruct (C2_dirty_submodule_is_skipped
              (standard_world (fun _ => false) "diff --git a/f b/f")
              (example_self None) example_outer [example_tools] []
              "diff --git a/f b/f" [diff_cmd (example_self None) example_outer])
    as (H1 & _ & H3).
  - reflexivity.
  - reflexivity.
  - reflexivity.
  - discriminate.
  - split; [exact H1 | exact H3].
Defined.

(** C2 with the output taken as it is printed does not hold: a diff that
    succeeds and prints a new line only has a non-empty output, and the
    submodule is fetched. *)
Lemma C2_counterexample :
  force_it (example_self None) = false /\
  os_path_exists (standard_world (fun _ => false) nl)
    (required_submodule_path (standard_world (fun _ => false) nl)
                             (example_self None) example_outer) [] = true /\
  run_cmd (standard_world (fun _ => false) nl)
          (diff_cmd (example_self None) example_outer) [] =
    (0, nl, [diff_cmd (example_self None) example_outer]) /\
  nl <> "" /\
  In (ERun (fetch_cmd (example_self None) example_outer) 0)
     (snd (Go_step2 (standard_world (fun _ => false) nl)
                    (example_self None) example_outer [])) /\
  is_fetch_cmd (fetch_cmd (example_self None) example_outer) = true.
Proof.
  repeat split; try reflexivity.
  - discriminate.
  - vm_compute. repeat (first [left; reflexivity | right]).
Qed.

Lemma C8_witness :
  Go_step2 (standard_world is_diff_cmd "") (example_self None) example_outer [] =
  (Ret tt, [diff_cmd (example_self None) example_outer],
   [ELog PROGRESS "## Checking Git repository: outer...";
    EExists "ws/outer" true;
    ERun (diff_cmd (example_self None) example_outer) 1;
    ELog ERROR ("FAILED!" ++ nl);
    ELog ERROR ("Failed to fetch required repository!" ++ nl);
    ELog ERROR "git failed"]).
Proof.
  destruct (C8_failed_diff_is_an_error (standard_world is_diff_cmd "")
              (example_self None) example_outer [] 1 ""
              [diff_cmd (example_self None) example_outer]) as [H _].
  - reflexivity.
  - reflexivity.
  - reflexivity.
  - discriminate.
  - exact H.
Defined.



Lemma C9_witness :
  exists data pre,
    (sha256_matches (example_net [] "00ff") data = true /\
     fst (fst (Nuget.DownloadNuget (example_net [] "00ff") (Some "tools") example_disk))
       = Ret tt /\
     snd (fst (Nuget.DownloadNuget (example_net [] "00ff") (Some "tools") example_disk))
       !! nuget_out_file (example_net [] "00ff") (Some "tools") = Some data /\
     snd (Nuget.DownloadNuget (example_net [] "00ff") (Some "tools") example_disk) =
       (pre ++ [EReadFile (nuget_out_file (example_net [] "00ff") (Some "tools"))])%list)
    \/
    (sha256_matches (example_net [] "00ff") data = false /\
     fst (fst (Nuget.DownloadNuget (example_net [] "00ff") (Some "tools") example_disk))
       = Raise (sha256_mismatch (example_net [] "00ff") data) /\
     snd (fst (Nuget.DownloadNuget (example_net [] "00ff") (Some "tools") example_disk))
       !! nuget_out_file (example_net [] "00ff") (Some "tools") = None /\
     snd (Nuget.DownloadNuget (example_net [] "00ff") (Some "tools") example_disk) =
       (pre ++ [EReadFile (nuget_out_file (example_net [] "00ff") (Some "tools"));
                ERemove (nuget_out_file (example_net [] "00ff") (Some "tools"))])%list).
Proof.
  apply (proj1 (proj2 (C9_nuget_verified_or_removed (example_net [] "00ff")
                         (Some "tools") example_disk))).
  vm_compute. repeat (first [left; reflexivity | right]).
Defined.

(** ** The further properties at work in the example worlds *)





Lemma X7_witness :
  (-1 = 0 \/ -1 = -1) /\
  (-1 = 0 ->
   no_failed_cmd
     (snd (SpecialSetup inner1_fails 5 (example_self (Some "special.yaml"))
             "special.yaml" [example_outer; example_tools] [])) = true /\
   forallb no_error_log
     (snd (SpecialSetup inner1_fails 5 (example_self (Some "special.yaml"))
             "special.yaml" [example_outer; example_tools] [])) = true) /\
  (-1 = -1 ->
   In (ELog ERROR ("FAILED!" ++ nl))
      (snd (SpecialSetup inner1_fails 5 (example_self (Some "special.yaml"))
              "special.yaml" [example_outer; example_tools] []))).
Proof.
  apply (X7_special_setup_status inner1_fails 5 (example_self (Some "special.yaml"))
           "special.yaml" [example_outer; example_tools] [] (-1)).
  vm_compute. reflexivity.
Defined.


Lemma X9_witness :
  SpecialSetup inner1_fails 5 (example_self (Some "special.yaml"))
    "special.yaml" [example_tools] [] =
  (Ret 0, [],
   [ELog PROGRESS "## Performing a special setup using file: special.yaml";
    EReadFile "special.yaml";
    EReadFile "ws/.gitmodules"]).
Proof.
  apply (X9_unlisted_required_is_passed_over inner1_fails 5
           (example_self (Some "special.yaml")) "special.yaml" [example_tools] []
           example_config [example_outer_info]).
  - reflexivity.
  - reflexivity.
  - intros sm req_sm [<- | []] [<- | []]. discriminate.
Defined.


Lemma X11_witness :
  In (ERun (init_cmd "ws" example_outer_info) 0)
     (snd (special_init_submodule inner1_fails 3 "ws" example_outer_info
             example_config true [])) /\
  true = true.
Proof.
  apply (X11_manifest_read_after_init inner1_fails 2 "ws" example_outer_info
           example_config true [] "ws/outer/.gitmodules").
  vm_compute. repeat (first [left; reflexivity | right]).
Defined.

Lemma X13_witness :
  0 = 0 /\
  tested_paths (snd (Go (standard_world (fun _ => false) "") 0 (example_self None) [])) =
  ["ws/outer"; "ws/tools"].
Proof.
  apply (X13_every_required_submodule_is_checked
           (standard_world (fun _ => false) "") 0 (example_self None) [] 0).
  - reflexivity.
  - vm_compute. reflexivity.
Defined.

Lemma X14_witness : is_clean_cmd (sync_cmd (example_self None)) = false.
Proof.
  apply (X14_no_cleaning_without_force (standard_world (fun _ => false) "") 0
           (example_self None) [] (sync_cmd (example_self None)) 0).
  - reflexivity.
  - vm_compute. repeat (first [left; reflexivity | right]).
Defined.

Lemma X15_witness :
  force_it (with_force true (example_self None)) = true /\
  (exists pre post,
      snd (Go (standard_world is_clean_cmd "") 0
              (with_force true (example_self None)) []) =
        (pre ++ ERun (mk_cmd "git" "reset --hard" (Some "ws")) 1 :: post)%list /\
      no_failed_cmd pre = true /\ only_logs post = true) /\
  (fst (fst (Go (standard_world is_clean_cmd "") 0
                (with_force true (example_self None)) [])) = Ret None \/
   fst (fst (Go (standard_world is_clean_cmd "") 0
                (with_force true (example_self None)) [])) =
     Raise (run_cmd_error (standard_world is_clean_cmd "")
                          (mk_cmd "git" "reset --hard" (Some "ws")) 1)).
Proof.
  apply (X15_failed_cleaning_ends_setup (standard_world is_clean_cmd "") 0
           (with_force true (example_self None)) []
           (mk_cmd "git" "reset --hard" (Some "ws")) 1).
  - vm_compute. repeat (first [left; reflexivity | right]).
  - reflexivity.
  - discriminate.
Defined.

Lemma X16_witness :
  fst (fst (Go old_git 0 (example_self None) [])) =
    Raise (RuntimeError
             "Please upgrade Git! Current version is 2.9.0. Minimum is 2.11.0.") /\
  snd (Go old_git 0 (example_self None) []) =
    version_events "git version 2.9.0.windows.1".
Proof.
  apply (X16_old_git_stops_go old_git 0 (example_self None) []
           "2" "9" "0" ".windows.1" "").
  - reflexivity.
  - reflexivity.
  - reflexivity.
  - reflexivity.
  - reflexivity.
  - reflexivity.
  - reflexivity.
  - reflexivity.
  - reflexivity.
Defined.

Lemma X17_witness :
  fst (fst (Go terse_git 0 (example_self None) [])) =
    Raise (IndexError "list index out of range") /\
  snd (Go terse_git 0 (example_self None) []) = version_events "git".
Proof.
  apply (X17_short_version_output terse_git 0 (example_self None) []).
  - reflexivity.
  - vm_compute. lia.
Defined.

Lemma X18_witness :
  exists pre post,
    snd (Go (standard_world (fun _ => false) "") 0 (example_self None) []) =
      (pre ++ ERun (sync_cmd (example_self None)) 0 :: post)%list /\
    forallb before_sync pre = true /\ In (EExists "ws/tools" true) post.
Proof.
  apply (X18_nothing_fetched_before_sync (standard_world (fun _ => false) "") 0
           (example_self None) [] (EExists "ws/tools" true)).
  - reflexivity.
  - vm_compute. repeat (first [left; reflexivity | right]).
  - right. reflexivity.
Defined.

Lemma X19_witness :
  forallb preparation
    (snd (Go (standard_world (fun _ => false) "") 0 example_bare [])) = true /\
  forall z,
    fst (fst (Go (standard_world (fun _ => false) "") 0 example_bare [])) =
      Ret (Some z) ->
    z = 0.
Proof.
  apply (X19_nothing_required (standard_world (fun _ => false) "") 0 example_bare []).
  reflexivity.
Defined.

Lemma X21_witness :
  snd (fst (Nuget.DownloadNuget (example_net [] "00ff") (Some "tools") example_disk))
    !! "tools/other.exe" =
  example_disk !! "tools/other.exe".
Proof.
  apply (X21_nuget_touches_one_path (example_net [] "00ff") (Some "tools")
           example_disk "tools/other.exe").
  discriminate.
Defined.

Lemma X22_witness :
  Nuget.DownloadNuget (example_net [] Nuget.SHA256) (Some "tools")
    (snd (fst (Nuget.DownloadNuget (example_net [] Nuget.SHA256) (Some "tools") ∅))) =
  (Ret tt,
   snd (fst (Nuget.DownloadNuget (example_net [] Nuget.SHA256) (Some "tools") ∅)),
   [EExists "tools/NuGet.exe" true; EReadFile "tools/NuGet.exe"]).
Proof.
  apply (X22_nuget_second_call (example_net [] Nuget.SHA256) (Some "tools") ∅).
  vm_compute. reflexivity.
Defined.

Lemma X23_witness :
  fst (fst (Nuget.DownloadNuget example_net_interrupted (Some "tools") ∅)) =
    Raise (mk_exn OtherExceptionC "IncompleteRead") /\
  snd (fst (Nuget.DownloadNuget example_net_interrupted (Some "tools") ∅)) =
    <["tools/NuGet.exe" := []]> ∅ /\
  Nuget.DownloadNuget example_net_interrupted (Some "tools")
    (snd (fst (Nuget.DownloadNuget example_net_interrupted (Some "tools") ∅))) =
  (Raise (sha256_mismatch example_net_interrupted []), ∅,
   [EExists "tools/NuGet.exe" true; EReadFile "tools/NuGet.exe";
    ERemove "tools/NuGet.exe"]).
Proof.
  apply (X23_nuget_interrupted_download example_net_interrupted (Some "tools") ∅
           (mk_exn OtherExceptionC "IncompleteRead")).
  - reflexivity.
  - reflexivity.
  - reflexivity.
  - reflexivity.
Defined.

Lemma X24_witness :
  (exists created,
      download_failure example_net_404 "tools/NuGet.exe" =
      Some (mk_exn HTTPErrorC "HTTP Error 404: Not Found", created)) /\
  (In nuget_issue (snd (Nuget.DownloadNuget example_net_404 (Some "tools") ∅)) <->
   is_HTTPError (mk_exn HTTPErrorC "HTTP Error 404: Not Found") = true) /\
  ~ In (ERemove "tools/NuGet.exe")
       (snd (Nuget.DownloadNuget example_net_404 (Some "tools") ∅)).
Proof.
  apply (X24_nuget_download_errors example_net_404 (Some "tools") ∅
           (mk_exn HTTPErrorC "HTTP Error 404: Not Found")).
  - vm_compute. reflexivity.
  - vm_compute. intros H. decompose [or] H; discriminate || contradiction.
Defined.

Lemma X20_witness :
  cmd_name (mk_cmd "git" "clean -xffd" (Some "ws/tools")) = "git" /\
  ((cmd_workingdir (mk_cmd "git" "clean -xffd" (Some "ws/tools")) =
      Some (GetWorkspaceRoot (with_force true (example_self None))) /\
    (cmd_params (mk_cmd "git" "clean -xffd" (Some "ws/tools")) = "reset --hard" \/
     cmd_params (mk_cmd "git" "clean -xffd" (Some "ws/tools")) = root_clean_params)) \/
   (exists sm,
       In sm (GetRequiredSubmodules (with_force true (example_self None))) /\
       cmd_workingdir (mk_cmd "git" "clean -xffd" (Some "ws/tools")) =
         Some (required_submodule_path (standard_world (fun _ => false) "")
                 (with_force true (example_self None)) sm) /\
       (cmd_params (mk_cmd "git" "clean -xffd" (Some "ws/tools")) = "reset --hard" \/
        cmd_params (mk_cmd "git" "clean -xffd" (Some "ws/tools")) = "clean -xffd"))).
Proof.
  apply (X20_cleaning_stays_in_required_paths (standard_world (fun _ => false) "") 0
           (with_force true (example_self None)) []
           (mk_cmd "git" "clean -xffd" (Some "ws/tools")) 0).
  - vm_compute. repeat (first [left; reflexivity | right]).
  - reflexivity.
Defined.

Lemma X25_witness :
  RetrieveCommandLineOptions nothing_on_disk (fun _ => ret tt) example_args
    (example_self None, []) =
  (Raise (AttributeError "'Namespace' object has no attribute 'omnicache_Path'"),
   ({| force_it := true;
       omnicache_path := Some "/no/such/cache";
       special_file := None;
       GetWorkspaceRoot := "ws";
       GetRequiredSubmodules := [example_outer; example_tools] |}, []),
   [EExists "/no/such/cache" false]).
Proof.
  apply (X25_invalid_omnicache_path_raises nothing_on_disk (fun _ => ret tt)
           example_args (example_self None) [] "/no/such/cache").
  - reflexivity.
  - reflexivity.
  - reflexivity.
Defined.
